(** * Product management client: API client, catalog store and login flow

    A shallow embedding of the TypeScript sources

    - [services/productService.ts]  (the remote API client, with retry),
    - [services/authService.ts]     (the session store),
    - [store/slices/productsSlice.ts] (the catalog state container),
    - [hooks/useAuth.ts], [pages/Auth.tsx], [pages/Products.tsx]
      (the login flow and the page count),

    followed by the properties of the specification that were checked
    against them.

    Asynchronous functions are written in a small state-and-exception
    monad: the state holds the browser storage, the number of requests
    issued so far and the trace of observable effects; the server is an
    oracle that answers the n-th request. *)

From Stdlib Require Import ZArith QArith Qround List String Ascii Bool Lia.
Import ListNotations.

Local Open Scope string_scope.
Local Open Scope Z_scope.

(* ================================================================== *)
(** * JavaScript values and the library functions the sources call *)
(* ================================================================== *)

Module Js.

(** A JavaScript number: NaN or a finite value.  Every finite double is a
    rational; the counters, sizes and delays of this program are integers
    well inside the exactly represented range. *)
Inductive number : Type :=
| NaN
| Num (q : Q).

(** A JavaScript value as it comes out of [JSON.parse], plus [undefined].
    A string holds the bytes of its UTF-8 form. *)
#[warnings="-register-all"]
Inductive value : Type :=
| VUndefined
| VNull
| VBool (b : bool)
| VNum (n : number)
| VStr (s : string)
| VArr (items : list value)
| VObj (fields : list (string * value)).

Definition of_Z (z : Z) : number := Num (inject_Z z).
Definition of_nat (n : nat) : number := of_Z (Z.of_nat n).

(** ToBoolean. *)
Definition truthy (v : value) : bool :=
  match v with
  | VUndefined | VNull => false
  | VBool b => b
  | VNum NaN => false
  | VNum (Num q) => negb (Qeq_bool q 0)
  | VStr s => negb (s =? "")%string
  | VArr _ | VObj _ => true
  end.

(** A string-or-null (what [localStorage.getItem] and [Headers.get]
    return) used as a condition. *)
Definition truthy_str (o : option string) : bool :=
  match o with
  | Some s => negb (s =? "")%string
  | None => false
  end.

(** [a || b]. *)
Definition or (a b : value) : value := if truthy a then a else b.

Definition isArray (v : value) : bool :=
  match v with VArr _ => true | _ => false end.

Fixpoint lookup (k : string) (fields : list (string * value)) : value :=
  match fields with
  | [] => VUndefined
  | (k', v) :: rest => if (k =? k')%string then v else lookup k rest
  end.

(** [n * m] on numbers. *)
Definition mul (a b : number) : number :=
  match a, b with
  | Num x, Num y => Num (x * y)
  | _, _ => NaN
  end.

(** [String.prototype.includes]. *)
Fixpoint includes (s needle : string) : bool :=
  String.prefix needle s
  || match s with
     | EmptyString => false
     | String _ rest => includes rest needle
     end.

(** [Number.prototype.toString] on an integer. *)
Definition digit (d : Z) : ascii := ascii_of_nat (48 + Z.to_nat d).

Fixpoint digits (fuel : nat) (z : Z) (acc : string) : string :=
  match fuel with
  | O => acc
  | S fuel' =>
      let acc' := String (digit (z mod 10)) acc in
      if z <? 10 then acc' else digits fuel' (z / 10) acc'
  end.

Definition toString (z : Z) : string :=
  if z <? 0
  then String "-" (digits (S (Z.to_nat (Z.log2 (- z)))) (- z) "")
  else digits (S (Z.to_nat (Z.log2 z))) z "".

(** [parseInt(s, 10)]: leading white space is skipped, an optional sign is
    read, then decimal digits as far as they go; NaN when there is none. *)
Definition is_space (c : ascii) : bool :=
  let n := nat_of_ascii c in
  ((n =? 32) || (n =? 9) || (n =? 10) || (n =? 11) || (n =? 12) || (n =? 13))%nat.

Definition digit_val (c : ascii) : option Z :=
  let n := nat_of_ascii c in
  if ((48 <=? n) && (n <=? 57))%nat then Some (Z.of_nat n - 48) else None.

Fixpoint skip_spaces (s : string) : string :=
  match s with
  | String c rest => if is_space c then skip_spaces rest else s
  | EmptyString => s
  end.

Fixpoint read_digits (s : string) (acc : option Z) : option Z :=
  match s with
  | String c rest =>
      match digit_val c with
      | Some d =>
          read_digits rest (Some (10 * match acc with Some a => a | None => 0 end + d))
      | None => acc
      end
  | EmptyString => acc
  end.

Definition parseInt (s : string) : number :=
  let s := skip_spaces s in
  let '(sign, s) :=
    match s with
    | String "-" rest => (-1, rest)
    | String "+" rest => (1, rest)
    | _ => (1, s)
    end in
  match read_digits s None with
  | Some n => of_Z (sign * n)
  | None => NaN
  end.

(** Percent-encoding of one byte, upper-case hexadecimal. *)
Definition hex_digit (n : nat) : ascii :=
  if (n <? 10)%nat then ascii_of_nat (48 + n) else ascii_of_nat (55 + n).

Definition percent (c : ascii) : string :=
  let n := nat_of_ascii c in
  String "%" (String (hex_digit (n / 16)) (String (hex_digit (n mod 16)) "")).

Definition alnum (c : ascii) : bool :=
  let n := nat_of_ascii c in
  (((48 <=? n) && (n <=? 57)) || ((65 <=? n) && (n <=? 90))
   || ((97 <=? n) && (n <=? 122)))%nat.

Definition one_of (set : string) (c : ascii) : bool :=
  existsb (Ascii.eqb c) (list_ascii_of_string set).

(** [encodeURIComponent]: the bytes of the UTF-8 form of the string are
    escaped, except letters, digits and [- _ . ! ~ * ' ( )]. *)
Fixpoint encodeURIComponent (s : string) : string :=
  match s with
  | EmptyString => ""
  | String c rest =>
      (if alnum c || one_of "-_.!~*'()" c then String c "" else percent c)
      ++ encodeURIComponent rest
  end.

(** The serializer of [URLSearchParams] (application/x-www-form-urlencoded):
    letters, digits and [* - . _] stay, a space becomes [+]. *)
Fixpoint formEncode (s : string) : string :=
  match s with
  | EmptyString => ""
  | String c rest =>
      (if alnum c || one_of "*-._" c then String c ""
       else if Ascii.eqb c " " then "+" else percent c)
      ++ formEncode rest
  end.

End Js.

(* ================================================================== *)
(** * The host: network, browser storage, JavaScript engine *)
(* ================================================================== *)

Module Http.

Inductive Method : Type := GET | POST | PUT | DELETE.

(** What [fetch] is called with.  [body] is the value handed to
    [JSON.stringify]. *)
Record Request : Type := {
  method : Method;
  url : string;
  headers : list (string * string);
  body : option Js.value
}.

(** What [response.json()] does: it resolves with the parsed value or
    rejects with a SyntaxError carrying the engine's message. *)
Inductive Payload : Type :=
| Json (v : Js.value)
| Malformed (syntaxError : string).

Record Response : Type := {
  status : Z;
  statusText : string;
  header : string -> option string;   (* [response.headers.get] *)
  payload : Payload
}.

(** [response.ok]. *)
Definition ok (r : Response) : bool := (200 <=? status r) && (status r <=? 299).

(** [fetch] rejects (no connection) or resolves with a response. *)
Inductive FetchResult : Type :=
| Rejects (message : string)
| Resolves (r : Response).

End Http.

(** The host of the program.  [server n req] is the answer to the request
    [req] when [n] requests were issued before it.  The remaining fields
    are what the JavaScript engine does where a value is not of its
    declared TypeScript type (the sources coerce in a few such places);
    each field stands for one JavaScript expression. *)
Record Host : Type := {
  server : nat -> Http.Request -> Http.FetchResult;
  (** [s < n] for a string [s] and a number [n] *)
  string_lt : string -> Z -> bool;
  (** [Math.min(1000 * Math.pow(2, s), 30000)] for a string [s] *)
  string_backoff : string -> Js.number;
  (** the message of the TypeError raised by reading property [p] of
      [v], for [v] null or undefined *)
  nullish_read : Js.value -> string -> string;
  (** [String(v)] for a value [v] that is not a string *)
  to_string : Js.value -> string;
  (** [v.length] for a value [v] that is not an array *)
  length_of : Js.value -> Js.value;
  (** [v[0]] for a value [v] that is not an array *)
  first_of : Js.value -> Js.value;
  (** [v > 0] *)
  positive : Js.value -> bool
}.

Module Eff.

(** The observable effects, in the order they happen. *)
Inductive Event : Type :=
| Fetch (req : Http.Request)                 (* [fetch(url, init)] *)
| SetTimeout (delay : Js.number)             (* a timed suspension *)
| Location (href : string)                   (* [window.location.href = href] *)
| Navigate (path : string)                   (* the router's [navigate] *)
| Toast (title : string) (description : option string) (variant : string)
| SetLoading (b : bool)                      (* [useAuth]'s loading flag *)
| SetUser (email : option string)            (* [useAuth]'s user *)
| PreventDefault.

Record World : Type := {
  authToken : option string;     (* [localStorage]'s ['authToken'] entry *)
  requests : nat;                (* number of [fetch] calls so far *)
  trace : list Event
}.

(** How a call ends.  Every value thrown in these sources is an [Error]
    (made by [new Error], or a TypeError or SyntaxError of the engine, or
    the rejection of [fetch]), so a thrown value is its message. *)
Inductive Outcome (A : Type) : Type :=
| Returns (a : A)
| Throws (message : string)
| OutOfFuel.
Arguments Returns {A} a.
Arguments Throws {A} message.
Arguments OutOfFuel {A}.

Definition M (A : Type) : Type := World -> Outcome A * World.

Definition ret {A} (a : A) : M A := fun w => (Returns a, w).
Definition throw {A} (message : string) : M A := fun w => (Throws message, w).
Definition out_of_fuel {A} : M A := fun w => (OutOfFuel, w).

Definition bind {A B} (m : M A) (k : A -> M B) : M B :=
  fun w =>
    match m w with
    | (Returns a, w') => k a w'
    | (Throws e, w') => (Throws e, w')
    | (OutOfFuel, w') => (OutOfFuel, w')
    end.

(** [try { m } catch (error) { handler(error.message) }] *)
Definition try_catch {A} (m : M A) (handler : string -> M A) : M A :=
  fun w =>
    match m w with
    | (Throws e, w') => handler e w'
    | r => r
    end.

(** [try { m } finally { f }] *)
Definition try_finally {A} (m : M A) (f : M unit) : M A :=
  fun w =>
    match m w with
    | (r, w') =>
        match f w' with
        | (Returns _, w'') => (r, w'')
        | (Throws e, w'') => (Throws e, w'')
        | (OutOfFuel, w'') => (OutOfFuel, w'')
        end
    end.

Definition emit (e : Event) : M unit :=
  fun w => (Returns tt,
            {| authToken := authToken w; requests := requests w;
               trace := trace w ++ [e] |}).

(** [localStorage.getItem('authToken')] *)
Definition getItem : M (option string) := fun w => (Returns (authToken w), w).

(** [localStorage.setItem('authToken', v)] *)
Definition setItem (v : string) : M unit :=
  fun w => (Returns tt,
            {| authToken := Some v; requests := requests w; trace := trace w |}).

(** [localStorage.removeItem('authToken')] *)
Definition removeItem : M unit :=
  fun w => (Returns tt,
            {| authToken := None; requests := requests w; trace := trace w |}).

(** [await fetch(url, init)]: the request is recorded and the server's
    answer to it decides between resolution and rejection. *)
Definition fetch (h : Host) (req : Http.Request) : M Http.Response :=
  fun w =>
    let w' := {| authToken := authToken w; requests := S (requests w);
                 trace := trace w ++ [Fetch req] |} in
    match server h (requests w) req with
    | Http.Rejects e => (Throws e, w')
    | Http.Resolves r => (Returns r, w')
    end.

(** [await new Promise(resolve => setTimeout(resolve, delay))] *)
Definition sleep (delay : Js.number) : M unit := emit (SetTimeout delay).

(** [await response.json()] *)
Definition json (r : Http.Response) : M Js.value :=
  match Http.payload r with
  | Http.Json v => ret v
  | Http.Malformed e => throw e
  end.

(** [v.p] for one of the property names read in these sources
    ([products], [data], [total], [totalCount], [message], [token], [id]),
    none of which is found on a prototype: an object gives its field,
    null and undefined raise a TypeError, anything else gives undefined. *)
Definition get (h : Host) (v : Js.value) (p : string) : M Js.value :=
  match v with
  | Js.VObj fields => ret (Js.lookup p fields)
  | Js.VNull | Js.VUndefined => throw (nullish_read h v p)
  | _ => ret Js.VUndefined
  end.

(** [String(v)]: the message of [new Error(v)] and the text that
    [localStorage.setItem] stores for [v]. *)
Definition message_of (h : Host) (v : Js.value) : string :=
  match v with
  | Js.VStr s => s
  | _ => to_string h v
  end.

Definition initial (token : option string) : World :=
  {| authToken := token; requests := O; trace := [] |}.

(** The world [w] after [fetched] more requests and the events [events]. *)
Definition after (w : World) (fetched : nat) (events : list Event) : World :=
  {| authToken := authToken w; requests := fetched + requests w;
     trace := trace w ++ events |}.

End Eff.

Declare Scope eff_scope.
Delimit Scope eff_scope with eff.
Notation "x <- m ;; k" := (Eff.bind m (fun x => k))
  (at level 61, m at next level, right associativity) : eff_scope.
Notation "m ;; k" := (Eff.bind m (fun _ => k))
  (at level 61, right associativity) : eff_scope.
Local Open Scope eff_scope.

Definition API_BASE_URL : string := "https://api.bitechx.com".

(* ================================================================== *)
(** * services/authService.ts *)
(* ================================================================== *)

Module AuthService.

(** [authService.login(email)] *)
Definition login (h : Host) (email : string) : Eff.M Js.value :=
  response <- Eff.fetch h
    {| Http.method := Http.POST;
       Http.url := API_BASE_URL ++ "/auth";
       Http.headers := [("Content-Type", "application/json")];
       Http.body := Some (Js.VObj [("email", Js.VStr email)]) |} ;;
  if negb (Http.ok response) then
    error <- Eff.json response ;;
    message <- Eff.get h error "message" ;;
    Eff.throw (Eff.message_of h (Js.or message (Js.VStr "Failed to authenticate")))
  else
    data <- Eff.json response ;;
    token <- Eff.get h data "token" ;;
    Eff.setItem (Eff.message_of h token) ;;
    Eff.ret token.

(** The request that [login] issues. *)
Definition login_request (email : string) : Http.Request :=
  {| Http.method := Http.POST;
     Http.url := API_BASE_URL ++ "/auth";
     Http.headers := [("Content-Type", "application/json")];
     Http.body := Some (Js.VObj [("email", Js.VStr email)]) |}.

(** [authService.isAuthenticated()] *)
Definition isAuthenticated : Eff.M bool :=
  token <- Eff.getItem ;; Eff.ret (Js.truthy_str token).

(** [authService.logout()] *)
Definition logout : Eff.M unit := Eff.removeItem.

End AuthService.

(* ================================================================== *)
(** * services/productService.ts *)
(* ================================================================== *)

Module ProductService.

(** The headers of a request in a session holding [token]. *)
Definition auth_headers (token : string) : list (string * string) :=
  [("Content-Type", "application/json"); ("Authorization", "Bearer " ++ token)].

(** [getAuthHeaders()] *)
Definition getAuthHeaders : Eff.M (list (string * string)) :=
  token <- Eff.getItem ;;
  if negb (Js.truthy_str token) then Eff.throw "No authentication token found"
  else Eff.ret (auth_headers (match token with Some t => t | None => "" end)).

Definition MAX_RETRIES : Z := 3.
Definition BASE_DELAY : Z := 1000.

(** The [retryCount] parameter of [getProducts].  It is declared a number;
    [getProduct] passes its identifier, a string, in this position. *)
Inductive RetryCount : Type :=
| RcNum (n : nat)
| RcStr (s : string).

(** [retryCount < MAX_RETRIES] *)
Definition below_max (h : Host) (retryCount : RetryCount) : bool :=
  match retryCount with
  | RcNum n => Z.of_nat n <? MAX_RETRIES
  | RcStr s => string_lt h s MAX_RETRIES
  end.

(** [Math.min(BASE_DELAY * Math.pow(2, retryCount), 30000)] *)
Definition backoff (h : Host) (retryCount : RetryCount) : Js.number :=
  match retryCount with
  | RcNum n => Js.of_Z (Z.min (BASE_DELAY * 2 ^ Z.of_nat n) 30000)
  | RcStr s => string_backoff h s
  end.

(** [retryCount + 1]: addition on a number, concatenation on a string. *)
Definition plus_one (retryCount : RetryCount) : RetryCount :=
  match retryCount with
  | RcNum n => RcNum (n + 1)
  | RcStr s => RcStr (s ++ "1")
  end.

(** The [{ products, total }] object that [getProducts] resolves with. *)
Record ProductsResult : Type := {
  products : Js.value;
  total : Js.value
}.

(** How one activation of [getProducts] leaves its [try] or [catch]
    block: with a result, or through [return this.getProducts(...)].  The
    promise of the recursive call is returned without [await], so its
    rejection is not seen by the [catch] of the returning activation. *)
Inductive Next : Type :=
| Done (r : ProductsResult)
| Again.

Definition products_url (offset limit : Z) (categoryId : option string) : string :=
  API_BASE_URL ++ "/products"
  ++ "?offset=" ++ Js.formEncode (Js.toString offset)
  ++ "&limit=" ++ Js.formEncode (Js.toString limit)
  ++ (if Js.truthy_str categoryId
      then "&categoryId="
           ++ Js.formEncode (match categoryId with Some c => c | None => "" end)
      else "").

(** The request that [getProducts] issues in a session holding [token]. *)
Definition products_request (offset limit : Z) (categoryId : option string)
    (token : string) : Http.Request :=
  {| Http.method := Http.GET;
     Http.url := products_url offset limit categoryId;
     Http.headers := auth_headers token;
     Http.body := None |}.

(** The total that [getProducts] reports for a bare array [items] in the
    response [r]. *)
Definition array_total (r : Http.Response) (items : list Js.value) : Js.number :=
  match Http.header r "x-total-count" with
  | Some s => if negb (s =? "")%string then Js.parseInt s else Js.of_nat (List.length items)
  | None => Js.of_nat (List.length items)
  end.

(** The [try] block of [getProducts]. *)
Definition getProducts_try (h : Host) (offset limit : Z)
    (categoryId : option string) (retryCount : RetryCount) : Eff.M Next :=
  let url := products_url offset limit categoryId in
  headers <- getAuthHeaders ;;
  response <- Eff.fetch h
    {| Http.method := Http.GET; Http.url := url;
       Http.headers := headers; Http.body := None |} ;;
  if Http.status response =? 429 then
    if below_max h retryCount then
      let retryAfter := Http.header response "Retry-After" in
      let delay :=
        if Js.truthy_str retryAfter
        then Js.mul (Js.parseInt (match retryAfter with Some s => s | None => "" end))
                    (Js.of_Z 1000)
        else backoff h retryCount in
      Eff.sleep delay ;;
      Eff.ret Again
    else Eff.throw "Rate limit exceeded. Please try again later."
  else if negb (Http.ok response) then
    (* [await response.text()] is read for the console only *)
    if Http.status response =? 401 then
      AuthService.logout ;;
      Eff.emit (Eff.Location "/login") ;;
      Eff.throw "Session expired. Please log in again."
    else
      Eff.throw ("Failed to fetch products: " ++ Js.toString (Http.status response)
                 ++ " " ++ Http.statusText response)
  else
    let totalCount := Http.header response "x-total-count" in
    data <- Eff.json response ;;
    match data with
    | Js.VArr items =>
        let total :=
          if Js.truthy_str totalCount
          then Js.parseInt (match totalCount with Some s => s | None => "" end)
          else Js.of_nat (List.length items) in
        Eff.ret (Done {| products := data; total := Js.VNum total |})
    | _ =>
        p <- Eff.get h data "products" ;;
        d <- Eff.get h data "data" ;;
        let products := Js.or p (Js.or d (Js.VArr [])) in
        t <- Eff.get h data "total" ;;
        c <- Eff.get h data "totalCount" ;;
        let total :=
          Js.or t (Js.or c
            (Js.VNum (if Js.truthy_str totalCount
                      then Js.parseInt (match totalCount with Some s => s | None => "" end)
                      else Js.of_Z 0))) in
        Eff.ret (Done {| products := products; total := total |})
    end.

(** The [catch] block of [getProducts]. *)
Definition getProducts_catch (h : Host) (retryCount : RetryCount)
    (message : string) : Eff.M Next :=
  if below_max h retryCount && negb (Js.includes message "Session expired") then
    Eff.sleep (backoff h retryCount) ;;
    Eff.ret Again
  else Eff.throw message.

(** [productService.getProducts(offset, limit, categoryId, retryCount)].
    [fuel] bounds the number of activations. *)
Fixpoint getProducts (h : Host) (fuel : nat) (offset limit : Z)
    (categoryId : option string) (retryCount : RetryCount)
    : Eff.M ProductsResult :=
  match fuel with
  | O => Eff.out_of_fuel
  | S fuel' =>
      next <- Eff.try_catch
                (getProducts_try h offset limit categoryId retryCount)
                (getProducts_catch h retryCount) ;;
      match next with
      | Done r => Eff.ret r
      | Again =>
          getProducts h fuel' offset limit categoryId (plus_one retryCount)
      end
  end.

(** [productService.searchProducts(query)] *)
Definition searchProducts (h : Host) (query : string) : Eff.M Js.value :=
  headers <- getAuthHeaders ;;
  response <- Eff.fetch h
    {| Http.method := Http.GET;
       Http.url := API_BASE_URL ++ "/products/search?searchedText="
                   ++ Js.encodeURIComponent query;
       Http.headers := headers; Http.body := None |} ;;
  if negb (Http.ok response) then Eff.throw "Failed to search products"
  else Eff.json response.

(** The requests that [getProduct], [createProduct] and [updateProduct]
    issue in a session holding [token]. *)
Definition product_request (identifier token : string) : Http.Request :=
  {| Http.method := Http.GET;
     Http.url := API_BASE_URL ++ "/products/" ++ identifier;
     Http.headers := auth_headers token;
     Http.body := None |}.

Definition create_request (productData : Js.value) (token : string) : Http.Request :=
  {| Http.method := Http.POST;
     Http.url := API_BASE_URL ++ "/products";
     Http.headers := auth_headers token;
     Http.body := Some productData |}.

(** [productService.getProduct(identifier)] *)
Definition getProduct (h : Host) (fuel : nat) (identifier : string)
    : Eff.M Js.value :=
  Eff.try_catch
    (headers <- getAuthHeaders ;;
     response <- Eff.fetch h
       {| Http.method := Http.GET;
          Http.url := API_BASE_URL ++ "/products/" ++ identifier;
          Http.headers := headers; Http.body := None |} ;;
     if Http.ok response then
       data <- Eff.json response ;;
       Eff.ret (match data with
                | Js.VArr items => List.nth 0 items Js.VUndefined
                | _ => data
                end)
     else
       productsResponse <- getProducts h fuel 0 1 None (RcStr identifier) ;;
       match products productsResponse with
       | Js.VArr items =>
           if (0 <? Z.of_nat (List.length items))
           then Eff.ret (List.nth 0 items Js.VUndefined)
           else Eff.throw "Product not found"
       | Js.VNull | Js.VUndefined =>
           Eff.throw (nullish_read h (products productsResponse) "length")
       | v =>
           if positive h (length_of h v) then Eff.ret (first_of h v)
           else Eff.throw "Product not found"
       end)
    (fun message => Eff.throw message).

(** [productService.createProduct(productData)] *)
Definition createProduct (h : Host) (productData : Js.value) : Eff.M Js.value :=
  headers <- getAuthHeaders ;;
  response <- Eff.fetch h
    {| Http.method := Http.POST;
       Http.url := API_BASE_URL ++ "/products";
       Http.headers := headers; Http.body := Some productData |} ;;
  if negb (Http.ok response) then Eff.throw "Failed to create product"
  else Eff.json response.

(** The [productData] argument of [updateProduct]. *)
Record ProductUpdate : Type := {
  name : string;
  description : option string;
  price : Js.number;
  categoryId : string;
  images : option (list string)
}.

Definition update_request (id : string) (productData : ProductUpdate)
    (token : string) : Http.Request :=
  {| Http.method := Http.PUT;
     Http.url := API_BASE_URL ++ "/products/" ++ id;
     Http.headers := auth_headers token;
     Http.body := Some (Js.VObj
       [("name", Js.VStr (name productData));
        ("description", match description productData with
                        | Some d => Js.VStr d
                        | None => Js.VUndefined
                        end);
        ("price", Js.VNum (price productData));
        ("categoryId", Js.VStr (categoryId productData))]) |}.

(** [response.json().catch(() => ({}))] *)
Definition json_or_empty (r : Http.Response) : Js.value :=
  match Http.payload r with
  | Http.Json v => v
  | Http.Malformed _ => Js.VObj []
  end.

(** [productService.updateProduct(id, productData)] *)
Definition updateProduct (h : Host) (id : string) (productData : ProductUpdate)
    : Eff.M Js.value :=
  headers <- getAuthHeaders ;;
  response <- Eff.fetch h
    {| Http.method := Http.PUT;
       Http.url := API_BASE_URL ++ "/products/" ++ id;
       Http.headers := headers;
       Http.body := Some (Js.VObj
         [("name", Js.VStr (name productData));
          ("description", match description productData with
                          | Some d => Js.VStr d
                          | None => Js.VUndefined
                          end);
          ("price", Js.VNum (price productData));
          ("categoryId", Js.VStr (categoryId productData))]) |} ;;
  if negb (Http.ok response) then
    let errorData := json_or_empty response in
    message <- Eff.get h errorData "message" ;;
    Eff.throw (Eff.message_of h (Js.or message (Js.VStr "Failed to update product")))
  else Eff.json response.

(** [productService.deleteProduct(id)], resolving with [{ id: result.id }] *)
Definition deleteProduct (h : Host) (id : string) : Eff.M Js.value :=
  Eff.try_catch
    (headers <- getAuthHeaders ;;
     response <- Eff.fetch h
       {| Http.method := Http.DELETE;
          Http.url := API_BASE_URL ++ "/products/" ++ id;
          Http.headers := headers; Http.body := None |} ;;
     if negb (Http.ok response) then
       let errorData := json_or_empty response in
       message <- Eff.get h errorData "message" ;;
       Eff.throw (Eff.message_of h (Js.or message (Js.VStr "Failed to delete product")))
     else
       result <- Eff.json response ;;
       id' <- Eff.get h result "id" ;;
       Eff.ret (Js.VObj [("id", id')]))
    (fun message => Eff.throw message).

(** The [{ categories, total }] object that [getCategories] resolves with. *)
Record CategoriesResult : Type := {
  categories : Js.value;
  categories_total : Js.value
}.

(** The URL that [getCategories] requests. *)
Definition categories_url (searchText : option string) (offset limit : Z) : string :=
  if Js.truthy_str searchText
  then API_BASE_URL ++ "/categories/search?searchedText="
       ++ Js.encodeURIComponent (match searchText with Some s => s | None => "" end)
  else API_BASE_URL ++ "/categories?offset=" ++ Js.toString offset
       ++ "&limit=" ++ Js.toString limit.

(** The request that [getCategories] issues in a session holding [token]. *)
Definition categories_request (searchText : option string) (offset limit : Z)
    (token : string) : Http.Request :=
  {| Http.method := Http.GET;
     Http.url := categories_url searchText offset limit;
     Http.headers := auth_headers token;
     Http.body := None |}.

(** [productService.getCategories(searchText, offset, limit)] *)
Definition getCategories (h : Host) (searchText : option string)
    (offset limit : Z) : Eff.M CategoriesResult :=
  let url := categories_url searchText offset limit in
  headers <- getAuthHeaders ;;
  response <- Eff.fetch h
    {| Http.method := Http.GET; Http.url := url;
       Http.headers := headers; Http.body := None |} ;;
  if negb (Http.ok response) then Eff.throw "Failed to fetch categories"
  else
    categories <- Eff.json response ;;
    let count := Http.header response "x-total-count" in
    total <- (if Js.truthy_str count
              then Eff.ret (Js.VNum (Js.parseInt
                     (match count with Some s => s | None => "0" end)))
              else match categories with
                   | Js.VArr items => Eff.ret (Js.VNum (Js.of_nat (List.length items)))
                   | Js.VNull | Js.VUndefined =>
                       Eff.throw (nullish_read h categories "length")
                   | v => Eff.ret (length_of h v)
                   end) ;;
    Eff.ret {| categories := categories; categories_total := total |}.

End ProductService.

(* ================================================================== *)
(** * store/slices/productsSlice.ts *)
(* ================================================================== *)

Module Category.
Record t : Type := {
  id : string;
  name : string;
  image : string;
  description : option string;
  createdAt : string;
  updatedAt : string
}.
End Category.

Module Product.
Record t : Type := {
  id : string;
  name : string;
  description : string;
  images : list string;
  price : Q;
  slug : string;
  createdAt : string;
  updatedAt : string;
  category : Category.t
}.
End Product.

Module ProductsSlice.

Record Categories : Type := {
  categories : list Category.t;
  total : Z
}.

Record ProductsState : Type := {
  products : list Product.t;
  categoriesOf : option Categories;      (* the [categories] field *)
  loading : bool;
  error : option string;
  currentPage : Z;
  itemsPerPage : Z;
  searchQuery : string;
  totalCount : Z
}.

Definition initialState : ProductsState :=
  {| products := []; categoriesOf := None; loading := false; error := None;
     currentPage := 1; itemsPerPage := 9; searchQuery := ""; totalCount := 0 |}.

(** The payload of [fetchProducts.fulfilled]. *)
Record ProductsResponse : Type := {
  payload_products : list Product.t;
  payload_total : Z
}.

(** The actions the slice has a case for.  A rejected action carries
    [action.error.message]. *)
Inductive Action : Type :=
| setSearchQuery (payload : string)
| setCurrentPage (payload : Z)
| fetchProducts_pending
| fetchProducts_fulfilled (payload : ProductsResponse)
| fetchProducts_rejected (message : option string)
| fetchCategories_fulfilled (payload : Categories)
| fetchCategories_rejected (message : option string)
| deleteProduct_fulfilled (payload : string).

(** [message || fallback] *)
Definition message_or (message : option string) (fallback : string) : string :=
  match message with
  | Some m => if Js.truthy_str message then m else fallback
  | None => fallback
  end.

(** The reducer built by [createSlice]: [reducers] and [extraReducers]. *)
Definition reducer (state : ProductsState) (action : Action) : ProductsState :=
  match action with
  | setSearchQuery payload =>
      {| products := products state; categoriesOf := categoriesOf state;
         loading := loading state; error := error state;
         currentPage := 1; itemsPerPage := itemsPerPage state;
         searchQuery := payload; totalCount := totalCount state |}
  | setCurrentPage payload =>
      {| products := products state; categoriesOf := categoriesOf state;
         loading := loading state; error := error state;
         currentPage := payload; itemsPerPage := itemsPerPage state;
         searchQuery := searchQuery state; totalCount := totalCount state |}
  | fetchProducts_pending =>
      {| products := products state; categoriesOf := categoriesOf state;
         loading := true; error := None;
         currentPage := currentPage state; itemsPerPage := itemsPerPage state;
         searchQuery := searchQuery state; totalCount := totalCount state |}
  | fetchProducts_fulfilled payload =>
      {| products := payload_products payload; categoriesOf := categoriesOf state;
         loading := false; error := error state;
         currentPage := currentPage state; itemsPerPage := itemsPerPage state;
         searchQuery := searchQuery state; totalCount := payload_total payload |}
  | fetchProducts_rejected message =>
      {| products := products state; categoriesOf := categoriesOf state;
         loading := false;
         error := Some (message_or message "Failed to fetch products");
         currentPage := currentPage state; itemsPerPage := itemsPerPage state;
         searchQuery := searchQuery state; totalCount := totalCount state |}
  | fetchCategories_fulfilled payload =>
      {| products := products state;
         categoriesOf := Some {| categories := categories payload;
                                 total := total payload |};
         loading := false; error := error state;
         currentPage := currentPage state; itemsPerPage := itemsPerPage state;
         searchQuery := searchQuery state; totalCount := totalCount state |}
  | fetchCategories_rejected message =>
      {| products := products state; categoriesOf := categoriesOf state;
         loading := false;
         error := Some (message_or message "Failed to fetch categories");
         currentPage := currentPage state; itemsPerPage := itemsPerPage state;
         searchQuery := searchQuery state; totalCount := totalCount state |}
  | deleteProduct_fulfilled payload =>
      {| products :=
           List.filter (fun product => negb (Product.id product =? payload)%string)
                       (products state);
         categoriesOf := categoriesOf state;
         loading := loading state; error := error state;
         currentPage := currentPage state; itemsPerPage := itemsPerPage state;
         searchQuery := searchQuery state;
         totalCount := Z.max 0 (totalCount state - 1) |}
  end.

(** [products.length] as the thunk reads it. *)
Definition length_prop (h : Host) (v : Js.value) : Eff.M Js.value :=
  match v with
  | Js.VArr items => Eff.ret (Js.VNum (Js.of_nat (List.length items)))
  | Js.VNull | Js.VUndefined => Eff.throw (nullish_read h v "length")
  | _ => Eff.ret (length_of h v)
  end.

(** The payload creator of the [fetchProducts] thunk, run on the state
    that [getState()] returns.  The object that [getProducts] resolves
    with is never an array and has no [data] or [totalCount] property. *)
Definition fetchProducts (h : Host) (fuel : nat) (state : ProductsState)
    : Eff.M ProductService.ProductsResult :=
  Eff.try_catch
    (let offset := (currentPage state - 1) * itemsPerPage state in
     if negb (searchQuery state =? "")%string then
       results <- ProductService.searchProducts h (searchQuery state) ;;
       let products := if Js.isArray results then results else Js.VArr [] in
       total <- length_prop h products ;;
       Eff.ret {| ProductService.products := products;
                  ProductService.total := total |}
     else
       response <- ProductService.getProducts h fuel offset (itemsPerPage state)
                     None (ProductService.RcNum 0) ;;
       let products :=
         Js.or (ProductService.products response)
               (Js.or Js.VUndefined (Js.VArr [])) in
       len <- length_prop h products ;;
       let total :=
         Js.or (ProductService.total response) (Js.or Js.VUndefined len) in
       Eff.ret {| ProductService.products := products;
                  ProductService.total := total |})
    (fun message => Eff.throw message).

(** The identifiers of the products held in the store. *)
Definition ids (state : ProductsState) : list string :=
  List.map Product.id (products state).

End ProductsSlice.

(* ================================================================== *)
(** * pages/Products.tsx *)
(* ================================================================== *)

Module ProductsPage.

(** [Math.max(1, Math.ceil(totalCount / itemsPerPage))] *)
Definition totalPages (totalCount itemsPerPage : Z) : Z :=
  Z.max 1 (Qceiling (inject_Z totalCount / inject_Z itemsPerPage)).

End ProductsPage.

(* ================================================================== *)
(** * hooks/useAuth.ts and pages/Auth.tsx *)
(* ================================================================== *)

Module UseAuth.

(** [login(email)] of the [useAuth] hook *)
Definition login (h : Host) (email : string) : Eff.M bool :=
  Eff.emit (Eff.SetLoading true) ;;
  Eff.try_finally
    (Eff.try_catch
       (AuthService.login h email ;;
        Eff.emit (Eff.SetUser (Some email)) ;;
        Eff.emit (Eff.Navigate "/products") ;;
        Eff.ret true)
       (fun message => Eff.throw message))
    (Eff.emit (Eff.SetLoading false)).

End UseAuth.

Module Auth.

(** [handleSubmit(e)] of the login form, [email] being the form's state *)
Definition handleSubmit (h : Host) (email : string) : Eff.M unit :=
  Eff.emit Eff.PreventDefault ;;
  if negb (Js.truthy (Js.VStr email)) then
    Eff.emit (Eff.Toast "Error" (Some "Please enter your email") "destructive")
  else
    Eff.try_catch
      (UseAuth.login h email ;;
       Eff.emit (Eff.Toast "Login successful!" None "default"))
      (fun errorMessage =>
         Eff.emit (Eff.Toast "Error" (Some errorMessage) "destructive")).

End Auth.

(** ** The email field of the form

    The form state [email] has one writer, the [onChange] of
    [<Input type="email" ... required />], which stores the value of the
    element.  The value of an email field is what the user left in it
    after the element's value sanitization. *)

Module Dom.

(** ASCII white space of the HTML Standard: TAB, LF, FF, CR and SPACE. *)
Definition ascii_whitespace (c : ascii) : bool :=
  let n := nat_of_ascii c in
  ((n =? 9) || (n =? 10) || (n =? 12) || (n =? 13) || (n =? 32))%nat.

(** LF and CR *)
Definition newline (c : ascii) : bool :=
  let n := nat_of_ascii c in
  ((n =? 10) || (n =? 13))%nat.

Fixpoint strip_newlines (s : string) : string :=
  match s with
  | String c rest =>
      if newline c then strip_newlines rest else String c (strip_newlines rest)
  | EmptyString => EmptyString
  end.

Fixpoint strip_leading (s : string) : string :=
  match s with
  | String c rest => if ascii_whitespace c then strip_leading rest else s
  | EmptyString => EmptyString
  end.

Fixpoint strip_trailing (s : string) : string :=
  match s with
  | String c rest =>
      match strip_trailing rest with
      | EmptyString => if ascii_whitespace c then EmptyString else String c EmptyString
      | kept => String c kept
      end
  | EmptyString => EmptyString
  end.

(** The value of an [<input type="email">] (without [multiple]) in which
    the user left [typed]: newlines are stripped, then leading and trailing
    ASCII white space. *)
Definition email_value (typed : string) : string :=
  strip_trailing (strip_leading (strip_newlines typed)).

(** Text that is empty or made of white space only. *)
Fixpoint blank (s : string) : bool :=
  match s with
  | String c rest => ascii_whitespace c && blank rest
  | EmptyString => true
  end.

End Dom.

Module AuthForm.

(** [const [email, setEmail] = useState('')] *)
Definition initialEmail : string := "".

(** [onChange={(e) => setEmail(e.target.value)}] of the email field, the
    user having left [typed] in it: the new form state *)
Definition onChange (typed : string) (email : string) : string :=
  Dom.email_value typed.

(** The form state after a series of edits of the field. *)
Definition edited (edits : list string) : string :=
  List.fold_left (fun email typed => onChange typed email) edits initialEmail.


End AuthForm.

(* ================================================================== *)
(** * Hosts used in examples *)
(* ================================================================== *)

Module Examples.

(** A host around a given server.  Its coercions are those of an engine on
    strings that are not numeric literals and on values without a
    [length]; the examples below do not reach them. *)
Definition host_of (srv : nat -> Http.Request -> Http.FetchResult) : Host :=
  {| server := srv;
     string_lt := fun _ _ => false;
     string_backoff := fun _ => Js.NaN;
     nullish_read := fun _ p => "Cannot read properties of null (reading '" ++ p ++ "')";
     to_string := fun _ => "[object Object]";
     length_of := fun _ => Js.VUndefined;
     first_of := fun _ => Js.VUndefined;
     positive := fun _ => false |}.

Definition respond (status : Z) (statusText : string)
    (headers : list (string * string)) (payload : Http.Payload) : Http.FetchResult :=
  Http.Resolves
    {| Http.status := status; Http.statusText := statusText;
       Http.header := fun k =>
         match List.find (fun kv => (fst kv =? k)%string) headers with
         | Some kv => Some (snd kv)
         | None => None
         end;
       Http.payload := payload |}.

(** A server that is rate limiting every request. *)
Definition busy_server : nat -> Http.Request -> Http.FetchResult :=
  fun _ _ => respond 429 "Too Many Requests" [] (Http.Malformed "Unexpected end of JSON input").

(** A product as the API sends it. *)
Definition product_json (id name : string) : Js.value :=
  Js.VObj [("id", Js.VStr id); ("name", Js.VStr name);
           ("price", Js.VNum (Js.Num (1999 # 100)))].

(** A catalog holding the single product [xyz]: the record endpoint knows
    [xyz] only, the list endpoint returns the catalog. *)
Definition xyz_server : nat -> Http.Request -> Http.FetchResult :=
  fun _ req =>
    if (Http.url req =? API_BASE_URL ++ "/products/xyz")%string
    then respond 200 "OK" [] (Http.Json (product_json "xyz" "Lamp"))
    else if String.prefix (API_BASE_URL ++ "/products?") (Http.url req)
    then respond 200 "OK" [] (Http.Json (Js.VArr [product_json "xyz" "Lamp"]))
    else respond 404 "Not Found" [] (Http.Json (Js.VObj [("message", Js.VStr "Not found")])).

(** A server whose list endpoint answers with a bare array of five. *)
Definition five_server : nat -> Http.Request -> Http.FetchResult :=
  fun _ _ =>
    respond 200 "OK" []
      (Http.Json (Js.VArr [product_json "p1" "Lamp"; product_json "p2" "Desk";
                           product_json "p3" "Chair"; product_json "p4" "Shelf";
                           product_json "p5" "Rug"])).

(** A server whose list endpoint answers with a page of three out of 30. *)
Definition paged_server : nat -> Http.Request -> Http.FetchResult :=
  fun _ _ =>
    respond 200 "OK" []
      (Http.Json (Js.VObj
         [("data", Js.VArr [product_json "p1" "Lamp"; product_json "p2" "Desk";
                            product_json "p3" "Chair"]);
          ("totalCount", Js.VNum (Js.of_Z 30))])).

(** A server that refuses every write with a message of its own. *)
Definition refusing_server : nat -> Http.Request -> Http.FetchResult :=
  fun _ _ => respond 400 "Bad Request" []
               (Http.Json (Js.VObj [("message", Js.VStr "Name already exists")])).

(** An auth endpoint that hands out a token to whoever asks. *)
Definition auth_server : nat -> Http.Request -> Http.FetchResult :=
  fun _ _ => respond 200 "OK" [] (Http.Json (Js.VObj [("token", Js.VStr "t0k3n")])).

Definition lamp (id : string) : Product.t :=
  {| Product.id := id; Product.name := "Lamp"; Product.description := "";
     Product.images := []; Product.price := 1999 # 100; Product.slug := "lamp";
     Product.createdAt := "2025-10-16"; Product.updatedAt := "2025-10-16";
     Product.category :=
       {| Category.id := "c1"; Category.name := "Lighting"; Category.image := "";
          Category.description := None; Category.createdAt := "2025-10-16";
          Category.updatedAt := "2025-10-16" |} |}.

(** A store showing two of five products. *)
Definition two_of_five : ProductsSlice.ProductsState :=
  {| ProductsSlice.products := [lamp "a"; lamp "b"];
     ProductsSlice.categoriesOf := None; ProductsSlice.loading := false;
     ProductsSlice.error := None; ProductsSlice.currentPage := 1;
     ProductsSlice.itemsPerPage := 9; ProductsSlice.searchQuery := "";
     ProductsSlice.totalCount := 5 |}.

(** A change of price sent to [updateProduct]. *)
Definition price_change : ProductService.ProductUpdate :=
  {| ProductService.name := "Lamp"; ProductService.description := None;
     ProductService.price := Js.of_Z 25; ProductService.categoryId := "c1";
     ProductService.images := None |}.

End Examples.

(* ================================================================== *)
(** * Texts built by the API client *)
(* ================================================================== *)

Module Wording.

(** The message of the error that [getProducts] throws for a non-success
    status other than 429 and 401. *)
Definition status_error (r : Http.Response) : string :=
  "Failed to fetch products: " ++ Js.toString (Http.status r) ++ " "
  ++ Http.statusText r.

(** The request that [deleteProduct] issues in a session holding [token]. *)
Definition delete_request (id token : string) : Http.Request :=
  {| Http.method := Http.DELETE;
     Http.url := API_BASE_URL ++ "/products/" ++ id;
     Http.headers := ProductService.auth_headers token;
     Http.body := None |}.

(** The request that [searchProducts] issues in a session holding [token]. *)
Definition search_request (query token : string) : Http.Request :=
  {| Http.method := Http.GET;
     Http.url := API_BASE_URL ++ "/products/search?searchedText="
                 ++ Js.encodeURIComponent query;
     Http.headers := ProductService.auth_headers token;
     Http.body := None |}.

End Wording.

(* ================================================================== *)
(** * The store over time, and the pagination controls of pages/Products.tsx *)
(* ================================================================== *)

Module Store.

(** The state after the actions [actions] were dispatched in this order. *)
Definition run (state : ProductsSlice.ProductsState)
    (actions : list ProductsSlice.Action) : ProductsSlice.ProductsState :=
  List.fold_left ProductsSlice.reducer actions state.

(** [(currentPage - 1) * itemsPerPage], the offset that the [fetchProducts]
    thunk computes from the state. *)
Definition offset (state : ProductsSlice.ProductsState) : Z :=
  (ProductsSlice.currentPage state - 1) * ProductsSlice.itemsPerPage state.

(** The two actions of the slice's [reducers]; the others belong to the
    asynchronous operations. *)
Definition navigates (action : ProductsSlice.Action) : bool :=
  match action with
  | ProductsSlice.setSearchQuery _ | ProductsSlice.setCurrentPage _ => true
  | _ => false
  end.

End Store.

Module Pagination.

Import ProductsSlice.

(** [totalPages] as the page computes it from the store. *)
Definition totalPages (state : ProductsState) : Z :=
  ProductsPage.totalPages (totalCount state) (itemsPerPage state).

(** [onClick] of [PaginationPrevious]:
    [!loading && dispatch(setCurrentPage(Math.max(1, currentPage - 1)))] *)
Definition previous (state : ProductsState) : option Action :=
  if negb (loading state)
  then Some (setCurrentPage (Z.max 1 (currentPage state - 1)))
  else None.

(** [onClick] of [PaginationNext]:
    [!loading && dispatch(setCurrentPage(Math.min(totalPages, currentPage + 1)))] *)
Definition next (state : ProductsState) : option Action :=
  if negb (loading state)
  then Some (setCurrentPage (Z.min (totalPages state) (currentPage state + 1)))
  else None.

(** [Array.from({ length: totalPages }, (_, i) => i + 1)] *)
Definition pages (state : ProductsState) : list Z :=
  List.map (fun i => Z.of_nat i + 1) (List.seq 0 (Z.to_nat (totalPages state))).

(** [onClick] of the [PaginationLink] of [page]:
    [!loading && dispatch(setCurrentPage(page))] *)
Definition link (state : ProductsState) (page : Z) : option Action :=
  if negb (loading state) then Some (setCurrentPage page) else None.

(** The actions that the rendered controls can dispatch.  The controls are
    part of the product grid: they are rendered when the store is not
    loading, holds at least one product and [totalPages > 1]. *)
Definition controls (state : ProductsState) : list (option Action) :=
  if loading state then []
  else match products state with
       | [] => []
       | _ :: _ =>
           if 1 <? totalPages state
           then previous state :: List.map (link state) (pages state) ++ [next state]
           else []
       end.

End Pagination.

(* ================================================================== *)
(** * The earlier productService.ts (without retry) *)
(* ================================================================== *)

Module Legacy.

(** [productService.getProducts(offset, limit, categoryId)]: one attempt;
    the [catch] block throws the error on. *)
Definition getProducts (h : Host) (offset limit : Z) (categoryId : option string)
    : Eff.M ProductService.ProductsResult :=
  Eff.try_catch
    (let url := ProductService.products_url offset limit categoryId in
     headers <- ProductService.getAuthHeaders ;;
     response <- Eff.fetch h
       {| Http.method := Http.GET; Http.url := url;
          Http.headers := headers; Http.body := None |} ;;
     if negb (Http.ok response) then
       (* [await response.text()] is read for the console only *)
       Eff.throw ("Failed to fetch products: " ++ Js.toString (Http.status response)
                  ++ " " ++ Http.statusText response)
     else
       let totalCount := Http.header response "x-total-count" in
       data <- Eff.json response ;;
       match data with
       | Js.VArr items =>
           let total :=
             if Js.truthy_str totalCount
             then Js.parseInt (match totalCount with Some s => s | None => "" end)
             else Js.of_nat (List.length items) in
           Eff.ret {| ProductService.products := data;
                      ProductService.total := Js.VNum total |}
       | _ =>
           p <- Eff.get h data "products" ;;
           d <- Eff.get h data "data" ;;
           let products := Js.or p (Js.or d (Js.VArr [])) in
           t <- Eff.get h data "total" ;;
           c <- Eff.get h data "totalCount" ;;
           let total :=
             Js.or t (Js.or c
               (Js.VNum (if Js.truthy_str totalCount
                         then Js.parseInt (match totalCount with Some s => s | None => "" end)
                         else Js.of_Z 0))) in
           Eff.ret {| ProductService.products := products;
                      ProductService.total := total |}
       end)
    (fun message => Eff.throw message).

End Legacy.

(* ================================================================== *)
(** * The thunks of store/slices/productsSlice.ts *)
(* ================================================================== *)

Module Thunks.

(** How a payload creator that uses [rejectWithValue] settles. *)
Inductive Settled (A : Type) : Type :=
| Fulfilled (payload : A)
| Rejected (value : string).
Arguments Fulfilled {A} payload.
Arguments Rejected {A} value.

(** The payload creator of the [deleteProduct] thunk. *)
Definition deleteProduct (h : Host) (id : string) : Eff.M (Settled string) :=
  Eff.try_catch
    (ProductService.deleteProduct h id ;;
     Eff.ret (Fulfilled id))
    (fun message => Eff.ret (Rejected message)).

(** The payload creator of the [fetchCategories] thunk: [getCategories()]
    is called with its defaults. *)
Definition fetchCategories (h : Host)
    : Eff.M (Settled ProductService.CategoriesResult) :=
  Eff.try_catch
    (result <- ProductService.getCategories h None 0 10 ;;
     Eff.ret (Fulfilled
                {| ProductService.categories := ProductService.categories result;
                   ProductService.categories_total :=
                     ProductService.categories_total result |}))
    (fun message => Eff.ret (Rejected message)).

(** The result that the [fetchProducts] thunk makes of a list answer [r]
    whose body is the bare array [items]. *)
Definition page_of (r : Http.Response) (items : list Js.value)
    : ProductService.ProductsResult :=
  {| ProductService.products := Js.VArr items;
     ProductService.total :=
       Js.or (Js.VNum (ProductService.array_total r items))
             (Js.VNum (Js.of_nat (List.length items))) |}.

End Thunks.

(* ================================================================== *)
(** * The view layer: component state, notifications, dispatch *)
(* ================================================================== *)

Module Ui.

(** What a handler of the view layer does, in order: the effects of the
    services it calls, and the toasts it shows ([variant] is absent from
    some of them). *)
Inductive Event : Type :=
| Effect (e : Eff.Event)
| Notify (title : string) (description variant : option string).

(** The world of a handler: the state [local] that it reads and sets
    (component state and store), and the browser as the services see it. *)
Record World (S : Type) : Type := {
  local : S;
  authToken : option string;
  requests : nat;
  log : list Event
}.
Arguments local {S} w.
Arguments authToken {S} w.
Arguments requests {S} w.
Arguments log {S} w.

Definition M (S A : Type) : Type := World S -> Eff.Outcome A * World S.

Definition ret {S A} (a : A) : M S A := fun u => (Eff.Returns a, u).
Definition throw {S A} (message : string) : M S A := fun u => (Eff.Throws message, u).

Definition bind {S A B} (m : M S A) (k : A -> M S B) : M S B :=
  fun u =>
    match m u with
    | (Eff.Returns a, u') => k a u'
    | (Eff.Throws e, u') => (Eff.Throws e, u')
    | (Eff.OutOfFuel, u') => (Eff.OutOfFuel, u')
    end.

(** [try { m } catch (error) { handler(error.message) }] *)
Definition try_catch {S A} (m : M S A) (handler : string -> M S A) : M S A :=
  fun u =>
    match m u with
    | (Eff.Throws e, u') => handler e u'
    | r => r
    end.

(** [try { m } finally { f }] *)
Definition try_finally {S A} (m : M S A) (f : M S unit) : M S A :=
  fun u =>
    match m u with
    | (r, u') =>
        match f u' with
        | (Eff.Returns _, u'') => (r, u'')
        | (Eff.Throws e, u'') => (Eff.Throws e, u'')
        | (Eff.OutOfFuel, u'') => (Eff.OutOfFuel, u'')
        end
    end.

(** The browser as the services see it from a handler. *)
Definition browser {S} (u : World S) : Eff.World :=
  {| Eff.authToken := authToken u; Eff.requests := requests u; Eff.trace := [] |}.

(** A call into the services.  They only add to their trace, so the call
    is run on an empty one and what it adds goes to the log. *)
Definition lift {S A} (m : Eff.M A) : M S A :=
  fun u =>
    match m (browser u) with
    | (o, w) =>
        (o, {| local := local u; authToken := Eff.authToken w;
               requests := Eff.requests w;
               log := log u ++ List.map Effect (Eff.trace w) |})
    end.

(** Reading the state, and a [setState] or a reducer run. *)
Definition read {S} : M S S := fun u => (Eff.Returns (local u), u).

Definition write {S} (f : S -> S) : M S unit :=
  fun u => (Eff.Returns tt,
            {| local := f (local u); authToken := authToken u;
               requests := requests u; log := log u |}).

(** [toast({ title, description, variant })] *)
Definition toast {S} (title : string) (description variant : option string) : M S unit :=
  fun u => (Eff.Returns tt,
            {| local := local u; authToken := authToken u; requests := requests u;
               log := log u ++ [Notify title description variant] |}).

(** [navigate(path)] *)
Definition navigate {S} (path : string) : M S unit := lift (Eff.emit (Eff.Navigate path)).

(** [.unwrap()] on the promise that dispatching a thunk returns. *)
Definition unwrap {S A} (r : Thunks.Settled A) : M S A :=
  match r with
  | Thunks.Fulfilled payload => ret payload
  | Thunks.Rejected value => throw value
  end.

Definition start {S} (s : S) (token : option string) : World S :=
  {| local := s; authToken := token; requests := O; log := [] |}.

End Ui.

(** The services do not read their trace.  [framed m] says so of [m]:
    running it after a trace is running it on the empty trace and putting
    the trace in front of what it adds. *)
Module Frame.

Definition blank (w : Eff.World) : Eff.World :=
  {| Eff.authToken := Eff.authToken w; Eff.requests := Eff.requests w;
     Eff.trace := [] |}.

Definition relocate {A} (w : Eff.World) (r : Eff.Outcome A * Eff.World)
    : Eff.Outcome A * Eff.World :=
  (fst r,
   {| Eff.authToken := Eff.authToken (snd r); Eff.requests := Eff.requests (snd r);
      Eff.trace := Eff.trace w ++ Eff.trace (snd r) |}).

Definition framed {A} (m : Eff.M A) : Prop :=
  forall w, m w = relocate w (m (blank w)).

End Frame.

Declare Scope ui_scope.
Delimit Scope ui_scope with ui.
Notation "x <- m ;; k" := (Ui.bind m (fun x => k))
  (at level 61, m at next level, right associativity) : ui_scope.
Notation "m ;; k" := (Ui.bind m (fun _ => k))
  (at level 61, right associativity) : ui_scope.

(* ================================================================== *)
(** * pages/Products.tsx and components/ProductCard.tsx: deleting *)
(* ================================================================== *)

Module ProductsScreen.

(** The state that the two delete handlers work on: the store and the
    [isDeleting] flag of the page, the [isLoading] and [showDeleteDialog]
    flags of the card whose button was pressed. *)
Record Screen : Type := {
  store : ProductsSlice.ProductsState;
  isDeleting : bool;
  isLoading : bool;
  showDeleteDialog : bool
}.

(** The store's reducer run on an action. *)
Definition dispatch (action : ProductsSlice.Action) : Ui.M Screen unit :=
  Ui.write (fun s =>
    {| store := ProductsSlice.reducer (store s) action;
       isDeleting := isDeleting s; isLoading := isLoading s;
       showDeleteDialog := showDeleteDialog s |}).

Definition setIsDeleting (b : bool) : Ui.M Screen unit :=
  Ui.write (fun s =>
    {| store := store s; isDeleting := b; isLoading := isLoading s;
       showDeleteDialog := showDeleteDialog s |}).

Definition setIsLoading (b : bool) : Ui.M Screen unit :=
  Ui.write (fun s =>
    {| store := store s; isDeleting := isDeleting s; isLoading := b;
       showDeleteDialog := showDeleteDialog s |}).

Definition setShowDeleteDialog (b : bool) : Ui.M Screen unit :=
  Ui.write (fun s =>
    {| store := store s; isDeleting := isDeleting s; isLoading := isLoading s;
       showDeleteDialog := b |}).

(** [dispatch(deleteProduct(id))]: the payload creator runs and its
    [fulfilled] action reaches the reducer; the slice has no case for
    [pending] and [rejected]. *)
Definition dispatch_deleteProduct (h : Host) (id : string)
    : Ui.M Screen (Thunks.Settled string) :=
  (r <- Ui.lift (Thunks.deleteProduct h id) ;;
   match r with
   | Thunks.Fulfilled payload =>
       dispatch (ProductsSlice.deleteProduct_fulfilled payload) ;; Ui.ret r
   | Thunks.Rejected _ => Ui.ret r
   end)%ui.

(** [dispatch(fetchProducts())]: [pending], then the payload creator on
    the state of the store, then [fulfilled] with its result or
    [rejected] with the message of its error; the promise never rejects.
    [typed] reads the result at the declared type of the payload. *)
Definition dispatch_fetchProducts (h : Host) (fuel : nat)
    (typed : ProductService.ProductsResult -> ProductsSlice.ProductsResponse)
    : Ui.M Screen unit :=
  (dispatch ProductsSlice.fetchProducts_pending ;;
   s <- Ui.read ;;
   Ui.try_catch
     (payload <- Ui.lift (ProductsSlice.fetchProducts h fuel (store s)) ;;
      dispatch (ProductsSlice.fetchProducts_fulfilled (typed payload)))
     (fun message => dispatch (ProductsSlice.fetchProducts_rejected (Some message))))%ui.

(** [handleDelete(id)] of the products page *)
Definition handleDelete (h : Host) (fuel : nat)
    (typed : ProductService.ProductsResult -> ProductsSlice.ProductsResponse)
    (id : string) : Ui.M Screen unit :=
  (s <- Ui.read ;;
   if isDeleting s then Ui.ret tt
   else
     Ui.try_finally
       (Ui.try_catch
          (setIsDeleting true ;;
           r <- dispatch_deleteProduct h id ;;
           Ui.unwrap r ;;
           Ui.toast "Success" (Some "Product deleted successfully") None ;;
           dispatch_fetchProducts h fuel typed)
          (fun _ =>
             Ui.toast "Error" (Some "Failed to delete product") (Some "destructive")))
       (setIsDeleting false))%ui.

(** [handleDeleteClick()] of a product card, [onDelete] being the handler
    that the page passes down *)
Definition handleDeleteClick (onDelete : string -> Ui.M Screen unit)
    (product : Product.t) : Ui.M Screen unit :=
  (Ui.try_finally
     (Ui.try_catch
        (setIsLoading true ;;
         onDelete (Product.id product) ;;
         Ui.toast "Product deleted successfully!" None (Some "default"))
        (fun _ =>
           Ui.toast "Error" (Some "Failed to delete product") (Some "destructive")))
     (setIsLoading false ;;
      setShowDeleteDialog false))%ui.

End ProductsScreen.

(* ================================================================== *)
(** * pages/ProductDetail.tsx *)
(* ================================================================== *)

Module ProductDetail.

Record State : Type := {
  isDeleting : bool;
  product : option Product.t;
  loading : bool;
  selectedImage : Z;
  showFullscreen : bool;
  showDeleteDialog : bool
}.

Definition initialState : State :=
  {| isDeleting := false; product := None; loading := true; selectedImage := 0;
     showFullscreen := false; showDeleteDialog := false |}.

Definition setSelectedImage (f : Z -> Z) (s : State) : State :=
  {| isDeleting := isDeleting s; product := product s; loading := loading s;
     selectedImage := f (selectedImage s); showFullscreen := showFullscreen s;
     showDeleteDialog := showDeleteDialog s |}.

Definition setLoading (b : bool) (s : State) : State :=
  {| isDeleting := isDeleting s; product := product s; loading := b;
     selectedImage := selectedImage s; showFullscreen := showFullscreen s;
     showDeleteDialog := showDeleteDialog s |}.

Definition setProduct (p : option Product.t) (s : State) : State :=
  {| isDeleting := isDeleting s; product := p; loading := loading s;
     selectedImage := selectedImage s; showFullscreen := showFullscreen s;
     showDeleteDialog := showDeleteDialog s |}.

Definition setIsDeleting (b : bool) (s : State) : State :=
  {| isDeleting := b; product := product s; loading := loading s;
     selectedImage := selectedImage s; showFullscreen := showFullscreen s;
     showDeleteDialog := showDeleteDialog s |}.

Definition setShowDeleteDialog (b : bool) (s : State) : State :=
  {| isDeleting := isDeleting s; product := product s; loading := loading s;
     selectedImage := selectedImage s; showFullscreen := showFullscreen s;
     showDeleteDialog := b |}.

(** [product?.images?.length], when it is a number *)
Definition imageCount (s : State) : option Z :=
  match product s with
  | Some p => Some (Z.of_nat (List.length (Product.images p)))
  | None => None
  end.

(** [nextImage()]; [%] is the remainder with the sign of the dividend. *)
Definition nextImage (s : State) : State :=
  setSelectedImage
    (fun prev =>
       match imageCount s with
       | Some length => if length =? 0 then prev else Z.rem (prev + 1) length
       | None => prev
       end) s.

(** [prevImage()] *)
Definition prevImage (s : State) : State :=
  setSelectedImage
    (fun prev =>
       match imageCount s with
       | Some length => if length =? 0 then prev else Z.rem (prev - 1 + length) length
       | None => prev
       end) s.

(** [loadProduct()], [id] being the route parameter; [typed] reads the
    answer of [getProduct] at the declared type of the [product] state. *)
Definition loadProduct (h : Host) (fuel : nat)
    (typed : Js.value -> option Product.t) (id : option string)
    : Ui.M State unit :=
  (if negb (Js.truthy_str id) then
     Ui.toast "Error" (Some "Product ID is missing") (Some "destructive") ;;
     Ui.navigate "/products"
   else
     Ui.try_finally
       (Ui.try_catch
          (Ui.write (setLoading true) ;;
           response <- Ui.lift (ProductService.getProduct h fuel
                                  (match id with Some i => i | None => "" end)) ;;
           Ui.write (setProduct (typed response)))
          (fun errorMessage =>
             Ui.toast "Error" (Some errorMessage) (Some "destructive") ;;
             Ui.navigate "/products"))
       (Ui.write (setLoading false)))%ui.

(** [handleDelete()] of the detail page *)
Definition handleDelete (h : Host) : Ui.M State unit :=
  (s <- Ui.read ;;
   match product s with
   | None => Ui.ret tt
   | Some p =>
       Ui.try_finally
         (Ui.try_catch
            (Ui.write (setIsDeleting true) ;;
             Ui.lift (ProductService.deleteProduct h (Product.id p)) ;;
             Ui.toast "Success"
               (Some (Product.name p ++ " has been deleted successfully")) None ;;
             Ui.navigate "/products")
            (fun errorMessage =>
               Ui.toast "Error" (Some errorMessage) (Some "destructive")))
         (Ui.write (setIsDeleting false) ;;
          Ui.write (setShowDeleteDialog false))
   end)%ui.

(** The state with the dialog closed and the deleting flag lowered, as
    the [finally] block of [handleDelete] leaves it. *)
Definition lowered (s : State) : State :=
  {| isDeleting := false; product := product s; loading := loading s;
     selectedImage := selectedImage s; showFullscreen := showFullscreen s;
     showDeleteDialog := false |}.

End ProductDetail.

(* ================================================================== *)
(** * More hosts used in examples *)
(* ================================================================== *)

Module Scenarios.

Import Examples.

(** The response that [Examples.respond] resolves with. *)
Definition answer (status : Z) (statusText : string)
    (headers : list (string * string)) (payload : Http.Payload) : Http.Response :=
  {| Http.status := status; Http.statusText := statusText;
     Http.header := fun k =>
       match List.find (fun kv => (fst kv =? k)%string) headers with
       | Some kv => Some (snd kv)
       | None => None
       end;
     Http.payload := payload |}.

(** A server that has ended the session: every request is answered 401. *)
Definition expired_server : nat -> Http.Request -> Http.FetchResult :=
  fun _ _ => respond 401 "Unauthorized" []
               (Http.Json (Js.VObj [("message", Js.VStr "Token expired")])).

(** A server that fails on every request. *)
Definition failing_server : nat -> Http.Request -> Http.FetchResult :=
  fun _ _ => respond 500 "Internal Server Error" [] (Http.Malformed "Unexpected token <").

(** No connection: [fetch] rejects. *)
Definition offline_server : nat -> Http.Request -> Http.FetchResult :=
  fun _ _ => Http.Rejects "Failed to fetch".

(** A server that asks the first request to come back in five seconds and
    then serves the catalog of one. *)
Definition throttled_once_server : nat -> Http.Request -> Http.FetchResult :=
  fun n _ =>
    match n with
    | O => respond 429 "Too Many Requests" [("Retry-After", "5")]
             (Http.Malformed "Unexpected end of JSON input")
    | S _ => respond 200 "OK" [] (Http.Json (Js.VArr [product_json "xyz" "Lamp"]))
    end.

(** A server that knows no single product and rate limits its list. *)
Definition limited_list_server : nat -> Http.Request -> Http.FetchResult :=
  fun _ req =>
    if String.prefix (API_BASE_URL ++ "/products?") (Http.url req)
    then respond 429 "Too Many Requests" [] (Http.Malformed "Unexpected end of JSON input")
    else respond 404 "Not Found" [] (Http.Json (Js.VObj [("message", Js.VStr "Not found")])).

(** A gateway in front of a dead server: the error page is not JSON. *)
Definition broken_server : nat -> Http.Request -> Http.FetchResult :=
  fun _ _ => respond 502 "Bad Gateway" [] (Http.Malformed "Unexpected token <").

(** An auth endpoint that knows nobody. *)
Definition denying_auth_server : nat -> Http.Request -> Http.FetchResult :=
  fun _ _ => respond 403 "Forbidden" []
               (Http.Json (Js.VObj [("message", Js.VStr "Unknown email")])).

(** A server that addresses the one product by any name and answers with
    its record. *)
Definition lenient_server : nat -> Http.Request -> Http.FetchResult :=
  fun _ _ => respond 200 "OK" [] (Http.Json (product_json "xyz" "Lamp")).

(** The second of four pages of a catalogue of 30. *)
Definition page_two : ProductsSlice.ProductsState :=
  {| ProductsSlice.products := [lamp "j"; lamp "k"];
     ProductsSlice.categoriesOf := None; ProductsSlice.loading := false;
     ProductsSlice.error := None; ProductsSlice.currentPage := 2;
     ProductsSlice.itemsPerPage := 9; ProductsSlice.searchQuery := "";
     ProductsSlice.totalCount := 30 |}.

(** The store while the user searches for lamps, left on page 3. *)
Definition searching : ProductsSlice.ProductsState :=
  {| ProductsSlice.products := []; ProductsSlice.categoriesOf := None;
     ProductsSlice.loading := false; ProductsSlice.error := None;
     ProductsSlice.currentPage := 3; ProductsSlice.itemsPerPage := 9;
     ProductsSlice.searchQuery := "lamp"; ProductsSlice.totalCount := 30 |}.

(** A server whose list answers with an object that carries the items
    only. *)
Definition bare_object_server : nat -> Http.Request -> Http.FetchResult :=
  fun _ _ =>
    respond 200 "OK" []
      (Http.Json (Js.VObj
         [("products", Js.VArr [product_json "p1" "Lamp"; product_json "p2" "Desk"])])).

(** The products page showing page two, nothing in progress. *)
Definition screen : ProductsScreen.Screen :=
  {| ProductsScreen.store := page_two; ProductsScreen.isDeleting := false;
     ProductsScreen.isLoading := false; ProductsScreen.showDeleteDialog := true |}.

(** A reading of results at the payload's type that keeps the count of
    items only. *)
Definition counted (result : ProductService.ProductsResult)
    : ProductsSlice.ProductsResponse :=
  {| ProductsSlice.payload_products :=
       match ProductService.products result with
       | Js.VArr items => List.map (fun _ => lamp "?") items
       | _ => []
       end;
     ProductsSlice.payload_total :=
       match ProductService.total result with
       | Js.VNum (Js.Num q) => Qfloor q
       | _ => 0
       end |}.

(** A lamp with three pictures. *)
Definition pictured : Product.t :=
  {| Product.id := "xyz"; Product.name := "Lamp"; Product.description := "";
     Product.images := ["a.png"; "b.png"; "c.png"]; Product.price := 1999 # 100;
     Product.slug := "lamp"; Product.createdAt := "2025-10-16";
     Product.updatedAt := "2025-10-16"; Product.category := Product.category (lamp "xyz") |}.

(** The detail page of the lamp, looking at its last picture. *)
Definition viewing : ProductDetail.State :=
  {| ProductDetail.isDeleting := false; ProductDetail.product := Some pictured;
     ProductDetail.loading := false; ProductDetail.selectedImage := 2;
     ProductDetail.showFullscreen := true; ProductDetail.showDeleteDialog := true |}.

(** A reading of a record at the [Product] type that knows the lamp. *)
Definition as_lamp (v : Js.value) : option Product.t :=
  match v with
  | Js.VObj _ => Some pictured
  | _ => None
  end.

(** A server that counts its categories in a header. *)
Definition counting_server : nat -> Http.Request -> Http.FetchResult :=
  fun _ _ =>
    respond 200 "OK" [("x-total-count", "42")]
      (Http.Json (Js.VArr [Js.VObj [("id", Js.VStr "c1"); ("name", Js.VStr "Lighting")]])).

End Scenarios.

(* ================================================================== *)
(** * Properties *)
(* ================================================================== *)

Example toString_0 : Js.toString 0 = "0".
Proof. reflexivity. Qed.

Example toString_1205 : Js.toString 1205 = "1205".
Proof. reflexivity. Qed.

Example toString_neg : Js.toString (-90) = "-90".
Proof. reflexivity. Qed.

Example parseInt_12 : Js.parseInt " 12px" = Js.of_Z 12.
Proof. reflexivity. Qed.

Example parseInt_nan : Js.parseInt "soon" = Js.NaN.
Proof. reflexivity. Qed.

Example encode_query : Js.encodeURIComponent "a b&c" = "a%20b%26c".
Proof. reflexivity. Qed.

Example form_query : Js.formEncode "a b&c" = "a+b%26c".
Proof. reflexivity. Qed.

(** ** The page count *)

Section PageCount.

Import ProductsPage.

(** For a positive page size the quotient that [Math.ceil] rounds is the
    exact fraction, and its ceiling is an integer division. *)
Lemma ceiling_quotient (t p : Z) :
  0 < p -> Qceiling (inject_Z t / inject_Z p) = - ((- t) / p).
Proof.
  intros Hp. destruct p as [|pp|pp]; try lia.
  unfold Qceiling, Qfloor, Qdiv, Qinv, Qmult, Qopp, inject_Z. simpl.
  rewrite Z.mul_1_r. reflexivity.
Qed.

(** The ceiling of [t/p] is the least [k] with [t <= k * p]. *)
Lemma ceiling_least (t p : Z) :
  0 < p -> (- ((- t) / p) - 1) * p < t <= - ((- t) / p) * p.
Proof.
  intros Hp. Z.div_mod_to_equations. nia.
Qed.

Example totalPages_10_9 : totalPages 10 9 = 2.
Proof. reflexivity. Qed.

Example totalPages_0_9 : totalPages 0 9 = 1.
Proof. reflexivity. Qed.

Example totalPages_18_9 : totalPages 18 9 = 2.
Proof. reflexivity. Qed.

(** C9.  For every page size [p > 0] and total [t >= 0], the page count
    computed by the products page is [max(1, ceil(t/p))], where
    [ceil(t/p)] is the least integer [k] with [t <= k * p], that is the
    one with [(k - 1) * p < t <= k * p]. *)
Theorem totalPages_is_max_1_ceil (t p : Z) :
  0 < p -> 0 <= t ->
  exists k : Z, (k - 1) * p < t <= k * p /\ totalPages t p = Z.max 1 k.
Proof.
  intros Hp Ht. exists (- ((- t) / p)). split.
  - apply ceiling_least; assumption.
  - unfold totalPages. rewrite ceiling_quotient by assumption. reflexivity.
Qed.

Lemma totalPages_is_max_1_ceil_witness :
  exists k : Z, (k - 1) * 9 < 10 <= k * 9 /\ totalPages 10 9 = Z.max 1 k.
Proof. apply (totalPages_is_max_1_ceil 10 9); lia. Defined.

End PageCount.

(** ** The catalog state container *)

Section Store.

Import ProductsSlice Examples.

Lemma filter_absent (id : string) (l : list Product.t) :
  ~ In id (List.map Product.id l) ->
  List.filter (fun product => negb (Product.id product =? id)%string) l = l.
Proof.
  induction l as [|p l IH]; simpl; intros Hnot; [reflexivity|].
  destruct (String.eqb_spec (Product.id p) id) as [E|E]; simpl.
  - exfalso. apply Hnot. left. exact E.
  - rewrite IH; [reflexivity|]. intros Hin. apply Hnot. right. exact Hin.
Qed.

Lemma filter_present_once (id : string) (l : list Product.t) :
  NoDup (List.map Product.id l) ->
  In id (List.map Product.id l) ->
  S (List.length
       (List.filter (fun product => negb (Product.id product =? id)%string) l))
  = List.length l.
Proof.
  induction l as [|p l IH]; simpl; intros Hnd Hin; [contradiction|].
  inversion Hnd as [|x xs Hx Hnd']; subst.
  destruct (String.eqb_spec (Product.id p) id) as [E|E]; simpl.
  - subst id. rewrite filter_absent by assumption. reflexivity.
  - f_equal. apply IH; [assumption|]. destruct Hin as [Hin|Hin]; [contradiction|assumption].
Qed.

Lemma filter_removes (id : string) (l : list Product.t) :
  ~ In id
      (List.map Product.id
         (List.filter (fun product => negb (Product.id product =? id)%string) l)).
Proof.
  rewrite in_map_iff. intros [p [Hid Hin]].
  apply filter_In in Hin. destruct Hin as [_ Hne].
  rewrite Hid, String.eqb_refl in Hne. discriminate.
Qed.

(** C3, as stated, fails on the code: when the deleted identifier is not
    in the list, the total is decremented all the same.  Here product [z]
    is not among the two shown and the total goes from 5 to 4. *)
Lemma removeProduct_absent_total_decremented :
  ~ In "z" (ids two_of_five)
  /\ products (reducer two_of_five (deleteProduct_fulfilled "z"))
     = products two_of_five
  /\ totalCount two_of_five = 5
  /\ totalCount (reducer two_of_five (deleteProduct_fulfilled "z")) = 4.
Proof.
  repeat split; try reflexivity.
  simpl. intros [H|[H|[]]]; discriminate.
Qed.

(** C3, amended.  On [deleteProduct.fulfilled] the items carrying the
    identifier are removed from the list: with identifiers unique in the
    list, its length decreases by exactly 1 when the identifier was present
    and the list is unchanged when it was absent.  In both cases the total
    decreases by 1, but never below 0. *)
Theorem removeProduct_fulfilled (state : ProductsState) (id : string) :
  NoDup (ids state) ->
  let state' := reducer state (deleteProduct_fulfilled id) in
  (In id (ids state) ->
     S (List.length (products state')) = List.length (products state))
  /\ (~ In id (ids state) -> products state' = products state)
  /\ ~ In id (ids state')
  /\ totalCount state' = Z.max 0 (totalCount state - 1)
  /\ 0 <= totalCount state'
  /\ (1 <= totalCount state -> totalCount state' = totalCount state - 1).
Proof.
  intros Hnd state'. unfold state', ids. simpl.
  split; [|split; [|split; [|split; [|split]]]].
  - intros Hin. apply filter_present_once; assumption.
  - intros Hnot. apply filter_absent; assumption.
  - apply filter_removes.
  - reflexivity.
  - lia.
  - lia.
Qed.

Lemma removeProduct_fulfilled_witness :
  NoDup (ids two_of_five)
  /\ S (List.length (products (reducer two_of_five (deleteProduct_fulfilled "a"))))
     = List.length (products two_of_five)
  /\ totalCount (reducer two_of_five (deleteProduct_fulfilled "a")) = 4.
Proof.
  assert (Hnd : NoDup (ids two_of_five)).
  { simpl. repeat constructor; simpl; intuition discriminate. }
  split; [exact Hnd|].
  destruct (removeProduct_fulfilled two_of_five "a" Hnd)
    as [Hlen [_ [_ [Htot _]]]].
  split.
  - apply Hlen. simpl. left. reflexivity.
  - rewrite Htot. reflexivity.
Defined.


End Store.

(** ** The effect primitives *)

Section Primitives.

Import Eff.

Lemma after_0_nil (w : World) : after w 0 [] = w.
Proof. destruct w. unfold after. simpl. rewrite app_nil_r. reflexivity. Qed.

Lemma after_after (w : World) (a b : nat) (es es' : list Event) :
  after (after w a es) b es' = after w (b + a) (es ++ es').
Proof.
  unfold after. simpl. rewrite Nat.add_assoc, app_assoc. reflexivity.
Qed.

Lemma emit_after (e : Event) (w : World) : emit e w = (Returns tt, after w 0 [e]).
Proof. reflexivity. Qed.

Lemma fetch_resolves (h : Host) (req : Http.Request) (r : Http.Response) (w : World) :
  server h (requests w) req = Http.Resolves r ->
  fetch h req w = (Returns r, after w 1 [Fetch req]).
Proof. intros H. unfold fetch. rewrite H. reflexivity. Qed.

Lemma getAuthHeaders_present (w : World) (t : string) :
  authToken w = Some t -> Js.truthy_str (authToken w) = true ->
  ProductService.getAuthHeaders w = (Returns (ProductService.auth_headers t), w).
Proof.
  intros Ht Htruthy. unfold ProductService.getAuthHeaders, bind, getItem.
  rewrite Htruthy. simpl. rewrite Ht. reflexivity.
Qed.

Lemma getAuthHeaders_missing (w : World) :
  Js.truthy_str (authToken w) = false ->
  ProductService.getAuthHeaders w = (Throws "No authentication token found", w).
Proof.
  intros H. unfold ProductService.getAuthHeaders, bind, getItem.
  rewrite H. reflexivity.
Qed.

End Primitives.

(** ** Retry on rate limiting *)

Section Retry.

Import Eff ProductService.

Variable h : Host.
Variables (offset limit : Z) (categoryId : option string).

Lemma getProducts_unfold (fuel : nat) (retryCount : RetryCount) :
  getProducts h (S fuel) offset limit categoryId retryCount
  = bind (try_catch (getProducts_try h offset limit categoryId retryCount)
                    (getProducts_catch h retryCount))
         (fun next =>
            match next with
            | Done r => ret r
            | Again =>
                getProducts h fuel offset limit categoryId (plus_one retryCount)
            end).
Proof. reflexivity. Qed.

(** One activation that is answered 429 without a [Retry-After] header:
    below the retry bound it sleeps for the backoff delay and asks to be
    called again; at the bound it throws, and its own [catch] lets the
    error through. *)
Lemma activation_rate_limited (n : nat) (w : World) (t : string) (r : Http.Response) :
  authToken w = Some t ->
  Js.truthy_str (authToken w) = true ->
  server h (requests w) (products_request offset limit categoryId t) = Http.Resolves r ->
  Http.status r = 429 ->
  Http.header r "Retry-After" = None ->
  try_catch (getProducts_try h offset limit categoryId (RcNum n))
            (getProducts_catch h (RcNum n)) w
  = if Z.of_nat n <? MAX_RETRIES
    then (Returns Again,
          after w 1 [Fetch (products_request offset limit categoryId t);
                     SetTimeout (backoff h (RcNum n))])
    else (Throws "Rate limit exceeded. Please try again later.",
          after w 1 [Fetch (products_request offset limit categoryId t)]).
Proof.
  intros Ht Htruthy Hsrv Hstatus Hheader.
  unfold try_catch, getProducts_try, bind.
  rewrite (getAuthHeaders_present w t Ht Htruthy).
  fold (products_request offset limit categoryId t).
  rewrite (fetch_resolves h _ r w Hsrv).
  rewrite Hstatus. change (429 =? 429) with true. cbv iota.
  unfold getProducts_catch, below_max.
  destruct (Z.of_nat n <? MAX_RETRIES) eqn:E.
  - rewrite Hheader. cbn [Js.truthy_str]. unfold sleep.
    rewrite emit_after, after_after. reflexivity.
  - reflexivity.
Qed.

Example backoff_schedule :
  List.map (fun n => backoff h (RcNum n)) [0; 1; 2; 3; 4; 5; 6]%nat
  = List.map Js.of_Z [1000; 2000; 4000; 8000; 16000; 30000; 30000].
Proof. reflexivity. Qed.

(** C1.  [getProducts], called in a session with a token, against a server
    that answers 429 without a [Retry-After] header to four requests in a
    row: the delays computed on attempts 0, 1 and 2 are 1000, 2000 and
    4000 ms, the request is issued again after each of them (three
    retries), and the fourth 429 surfaces the rate-limit error with no
    further delay or request. *)
Theorem getProducts_rate_limited (fuel : nat) (w : World) (t : string) :
  authToken w = Some t ->
  Js.truthy_str (authToken w) = true ->
  (forall k req, (k < 4)%nat ->
     exists r, server h (k + requests w) req = Http.Resolves r
               /\ Http.status r = 429
               /\ Http.header r "Retry-After" = None) ->
  (4 <= fuel)%nat ->
  let req := products_request offset limit categoryId t in
  getProducts h fuel offset limit categoryId (RcNum 0) w
  = (Throws "Rate limit exceeded. Please try again later.",
     after w 4 [Fetch req; SetTimeout (Js.of_Z 1000);
                Fetch req; SetTimeout (Js.of_Z 2000);
                Fetch req; SetTimeout (Js.of_Z 4000);
                Fetch req]).
Proof.
  intros Ht Htruthy Hbusy Hfuel req.
  destruct fuel as [|[|[|[|fuel]]]]; try lia. clear Hfuel.
  destruct (Hbusy 0%nat req ltac:(lia)) as [r0 [S0 [C0 R0]]].
  destruct (Hbusy 1%nat req ltac:(lia)) as [r1 [S1 [C1 R1]]].
  destruct (Hbusy 2%nat req ltac:(lia)) as [r2 [S2 [C2 R2]]].
  destruct (Hbusy 3%nat req ltac:(lia)) as [r3 [S3 [C3 R3]]].
  rewrite getProducts_unfold. unfold bind at 1.
  erewrite activation_rate_limited;
    [ | exact Ht | exact Htruthy | exact S0 | exact C0 | exact R0 ].
  cbn [Z.of_nat MAX_RETRIES Z.ltb Z.compare Pos.compare Pos.compare_cont plus_one Nat.add].
  rewrite getProducts_unfold. unfold bind at 1.
  erewrite activation_rate_limited;
    [ | exact Ht | exact Htruthy | exact S1 | exact C1 | exact R1 ].
  cbn [Z.of_nat MAX_RETRIES Z.ltb Z.compare Pos.compare Pos.compare_cont plus_one Nat.add
       Pos.of_succ_nat Pos.succ].
  rewrite getProducts_unfold. unfold bind at 1.
  erewrite activation_rate_limited;
    [ | exact Ht | exact Htruthy | exact S2 | exact C2 | exact R2 ].
  cbn [Z.of_nat MAX_RETRIES Z.ltb Z.compare Pos.compare Pos.compare_cont plus_one Nat.add
       Pos.of_succ_nat Pos.succ].
  rewrite getProducts_unfold. unfold bind at 1.
  erewrite activation_rate_limited;
    [ | exact Ht | exact Htruthy | exact S3 | exact C3 | exact R3 ].
  cbn [Z.of_nat MAX_RETRIES Z.ltb Z.compare Pos.compare Pos.compare_cont
       Pos.of_succ_nat Pos.succ].
  rewrite !after_after. reflexivity.
Qed.

End Retry.

(** *** The retries are bounded *)

Section Bounded.

Import Eff ProductService.

Variable h : Host.
Variables (offset limit : Z) (categoryId : option string).

(** An activation issues at most one request, never runs out of fuel by
    itself, and asks to be called again only below the retry bound. *)
Lemma activation_bounded (retryCount : RetryCount) (w : World) :
  match try_catch (getProducts_try h offset limit categoryId retryCount)
                  (getProducts_catch h retryCount) w with
  | (Returns Again, w') =>
      (requests w' <= S (requests w))%nat /\ below_max h retryCount = true
  | (Returns (Done _), w') => (requests w' <= S (requests w))%nat
  | (Throws _, w') => (requests w' <= S (requests w))%nat
  | (OutOfFuel, _) => False
  end.
Proof.
  unfold try_catch, getProducts_try, getProducts_catch, getAuthHeaders,
    AuthService.logout, sleep, json, get, fetch, emit, getItem, removeItem,
    throw, ret, bind.
  destruct (below_max h retryCount) eqn:Hbelow;
    repeat match goal with
           | |- context [match ?x with _ => _ end] =>
               lazymatch x with
               | context [match _ with _ => _ end] => fail
               | _ => destruct x eqn:?
               end
           | |- context [if ?x then _ else _] =>
               lazymatch x with
               | context [if _ then _ else _] => fail
               | context [match _ with _ => _ end] => fail
               | _ => destruct x eqn:?
               end
           end;
    cbn [requests andb negb] in *;
    repeat match goal with
           | H : (_, _) = (_, _) |- _ => inversion H; clear H; subst
           end;
    cbn [requests] in *; try discriminate; try (split; [lia | reflexivity]); try lia.
Qed.

(** Called with a number, [getProducts] comes to an end: fuel for the
    attempts that are left is enough, and no more requests are issued than
    there are attempts left (four of them at retry count 0). *)
Lemma getProducts_bounded (fuel n : nat) (w : World) :
  (1 <= fuel)%nat -> (4 - n <= fuel)%nat ->
  match getProducts h fuel offset limit categoryId (RcNum n) w with
  | (OutOfFuel, _) => False
  | (_, w') => (requests w' <= Nat.max 1 (4 - n) + requests w)%nat
  end.
Proof.
  revert n w. induction fuel as [|fuel IH]; intros n w Hpos Hfuel; [lia|].
  rewrite getProducts_unfold. unfold bind.
  pose proof (activation_bounded (RcNum n) w) as Hact.
  destruct (try_catch (getProducts_try h offset limit categoryId (RcNum n))
                      (getProducts_catch h (RcNum n)) w) as [[[r|]|e|] w1].
  - cbn [ret]. lia.
  - destruct Hact as [Hreq Hbelow]. cbn [below_max] in Hbelow.
    apply Z.ltb_lt in Hbelow. unfold MAX_RETRIES in Hbelow.
    cbn [plus_one].
    assert (Hpos' : (1 <= fuel)%nat) by lia.
    assert (Hfuel' : (4 - (n + 1) <= fuel)%nat) by lia.
    specialize (IH (n + 1)%nat w1 Hpos' Hfuel').
    destruct (getProducts h fuel offset limit categoryId (RcNum (n + 1)) w1)
      as [[r|e|] w2]; [lia | lia | contradiction].
  - lia.
  - contradiction.
Qed.

(** Fuel is a bound only: a call that ends within its fuel ends the same
    way with more. *)
Lemma getProducts_more_fuel (fuel fuel' : nat) (retryCount : RetryCount) (w : World) :
  (fuel <= fuel')%nat ->
  fst (getProducts h fuel offset limit categoryId retryCount w) <> OutOfFuel ->
  getProducts h fuel' offset limit categoryId retryCount w
  = getProducts h fuel offset limit categoryId retryCount w.
Proof.
  revert fuel' retryCount w.
  induction fuel as [|fuel IH]; intros fuel' retryCount w Hle Hends.
  - exfalso. apply Hends. reflexivity.
  - destruct fuel' as [|fuel']; [lia|].
    rewrite getProducts_unfold in Hends. rewrite !getProducts_unfold.
    unfold bind in *.
    destruct (try_catch (getProducts_try h offset limit categoryId retryCount)
                        (getProducts_catch h retryCount) w) as [[[r|]|e|] w1];
      try reflexivity.
    apply IH; [lia | exact Hends].
Qed.

End Bounded.

Lemma getProducts_rate_limited_witness :
  ProductService.getProducts (Examples.host_of Examples.busy_server) 4 0 9 None
    (ProductService.RcNum 0) (Eff.initial (Some "t0k3n"))
  = (Eff.Throws "Rate limit exceeded. Please try again later.",
     Eff.after (Eff.initial (Some "t0k3n")) 4
       [Eff.Fetch (ProductService.products_request 0 9 None "t0k3n");
        Eff.SetTimeout (Js.of_Z 1000);
        Eff.Fetch (ProductService.products_request 0 9 None "t0k3n");
        Eff.SetTimeout (Js.of_Z 2000);
        Eff.Fetch (ProductService.products_request 0 9 None "t0k3n");
        Eff.SetTimeout (Js.of_Z 4000);
        Eff.Fetch (ProductService.products_request 0 9 None "t0k3n")]).
Proof.
  apply (getProducts_rate_limited (Examples.host_of Examples.busy_server)
           0 9 None 4 (Eff.initial (Some "t0k3n")) "t0k3n").
  - reflexivity.
  - reflexivity.
  - intros k req _. eexists. split; [reflexivity|]. split; reflexivity.
  - lia.
Defined.

(** ** Calls without a token *)

Section NoToken.

Import Eff ProductService.

Variable h : Host.
Variable w : World.
Hypothesis no_token : Js.truthy_str (authToken w) = false.

(** Without a token an activation of [getProducts] fails in
    [getAuthHeaders], before [fetch] is called; its [catch] treats the
    failure like any other and backs off while retries are left. *)
Lemma activation_without_token (offset limit : Z) (categoryId : option string)
    (n : nat) (events : list Event) :
  try_catch (getProducts_try h offset limit categoryId (RcNum n))
            (getProducts_catch h (RcNum n)) (after w 0 events)
  = if Z.of_nat n <? MAX_RETRIES
    then (Returns Again, after w 0 (events ++ [SetTimeout (backoff h (RcNum n))]))
    else (Throws "No authentication token found", after w 0 events).
Proof.
  unfold try_catch, getProducts_try, bind.
  rewrite getAuthHeaders_missing by exact no_token.
  unfold getProducts_catch, below_max.
  destruct (Z.of_nat n <? MAX_RETRIES).
  - replace (Js.includes "No authentication token found" "Session expired")
      with false by (vm_compute; reflexivity).
    cbn [andb negb]. unfold sleep, bind. rewrite emit_after, after_after. reflexivity.
  - reflexivity.
Qed.

Lemma getProducts_without_token (fuel : nat) (offset limit : Z)
    (categoryId : option string) :
  (4 <= fuel)%nat ->
  getProducts h fuel offset limit categoryId (RcNum 0) w
  = (Throws "No authentication token found",
     after w 0 [SetTimeout (Js.of_Z 1000); SetTimeout (Js.of_Z 2000);
                SetTimeout (Js.of_Z 4000)]).
Proof.
  intros Hfuel. destruct fuel as [|[|[|[|fuel]]]]; try lia. clear Hfuel.
  rewrite <- (after_0_nil w) at 1.
  do 4 (rewrite getProducts_unfold; unfold bind at 1;
        rewrite activation_without_token;
        cbn [Z.of_nat MAX_RETRIES Z.ltb Z.compare Pos.compare Pos.compare_cont
             plus_one Nat.add Pos.of_succ_nat Pos.succ app]).
  reflexivity.
Qed.

Lemma getProduct_without_token (fuel : nat) (identifier : string) :
  getProduct h fuel identifier w = (Throws "No authentication token found", w).
Proof.
  unfold getProduct, try_catch, bind.
  rewrite getAuthHeaders_missing by exact no_token. reflexivity.
Qed.

Lemma deleteProduct_without_token (id : string) :
  deleteProduct h id w = (Throws "No authentication token found", w).
Proof.
  unfold deleteProduct, try_catch, bind.
  rewrite getAuthHeaders_missing by exact no_token. reflexivity.
Qed.

(** C6.  With no token in storage every operation of the API client
    fails with the authentication error and issues no request: the request
    counter and the trace of [searchProducts], [getProduct],
    [createProduct], [updateProduct], [deleteProduct] and [getCategories]
    are unchanged, and [getProducts] (called as the application calls it,
    at retry count 0) has only gone through its three backoff delays. *)
Theorem no_token_no_request (fuel : nat) (offset limit : Z)
    (categoryId searchText : option string) (text id : string)
    (productData : Js.value) (update : ProductUpdate) :
  (4 <= fuel)%nat ->
  let failed := "No authentication token found" in
  getProducts h fuel offset limit categoryId (RcNum 0) w
    = (Throws failed,
       after w 0 [SetTimeout (Js.of_Z 1000); SetTimeout (Js.of_Z 2000);
                  SetTimeout (Js.of_Z 4000)])
  /\ searchProducts h text w = (Throws failed, w)
  /\ getProduct h fuel id w = (Throws failed, w)
  /\ createProduct h productData w = (Throws failed, w)
  /\ updateProduct h id update w = (Throws failed, w)
  /\ deleteProduct h id w = (Throws failed, w)
  /\ getCategories h searchText offset limit w = (Throws failed, w).
Proof.
  intros Hfuel failed. unfold failed.
  split; [apply getProducts_without_token; exact Hfuel|].
  split; [unfold searchProducts, bind;
          rewrite getAuthHeaders_missing by exact no_token; reflexivity|].
  split; [apply getProduct_without_token|].
  split; [unfold createProduct, bind;
          rewrite getAuthHeaders_missing by exact no_token; reflexivity|].
  split; [unfold updateProduct, bind;
          rewrite getAuthHeaders_missing by exact no_token; reflexivity|].
  split; [apply deleteProduct_without_token|].
  unfold getCategories, bind.
  rewrite getAuthHeaders_missing by exact no_token. reflexivity.
Qed.

End NoToken.

Lemma no_token_no_request_witness :
  let h := Examples.host_of Examples.xyz_server in
  let w := Eff.initial None in
  let failed := "No authentication token found" in
  ProductService.getProducts h 4 0 9 None (ProductService.RcNum 0) w
    = (Eff.Throws failed,
       Eff.after w 0 [Eff.SetTimeout (Js.of_Z 1000); Eff.SetTimeout (Js.of_Z 2000);
                      Eff.SetTimeout (Js.of_Z 4000)])
  /\ ProductService.searchProducts h "lamp" w = (Eff.Throws failed, w)
  /\ ProductService.getProduct h 4 "xyz" w = (Eff.Throws failed, w)
  /\ ProductService.createProduct h (Examples.product_json "new" "Desk") w
       = (Eff.Throws failed, w)
  /\ ProductService.updateProduct h "xyz" Examples.price_change w
       = (Eff.Throws failed, w)
  /\ ProductService.deleteProduct h "xyz" w = (Eff.Throws failed, w)
  /\ ProductService.getCategories h (Some "light") 0 9 w = (Eff.Throws failed, w).
Proof.
  apply (no_token_no_request (Examples.host_of Examples.xyz_server)
           (Eff.initial None) eq_refl 4 0 9 None (Some "light") "lamp" "xyz"
           (Examples.product_json "new" "Desk") Examples.price_change).
  lia.
Defined.

(** ** Categories *)

Section Categories.

Import Eff ProductService.

Variable h : Host.

Lemma getCategories_world (searchText : option string) (offset limit : Z)
    (w : World) (t : string) :
  authToken w = Some t ->
  Js.truthy_str (authToken w) = true ->
  snd (getCategories h searchText offset limit w)
  = after w 1 [Fetch (categories_request searchText offset limit t)].
Proof.
  intros Ht Htruthy. unfold getCategories, bind.
  rewrite (getAuthHeaders_present w t Ht Htruthy).
  fold (categories_request searchText offset limit t).
  unfold fetch.
  destruct (server h (requests w) (categories_request searchText offset limit t))
    as [e|r]; [reflexivity|].
  destruct (Http.ok r); cbn [negb]; [|reflexivity].
  unfold json. destruct (Http.payload r) as [v|e]; [|reflexivity].
  cbn [ret].
  destruct (Js.truthy_str (Http.header r "x-total-count")); [reflexivity|].
  destruct v; reflexivity.
Qed.

(** C10.  With a non-empty [searchText], [getCategories] queries the
    category search endpoint and its [offset] and [limit] arguments have
    no effect: the one request it issues carries the encoded text only,
    and the whole call is the same for any other [offset] and [limit].
    With [searchText] absent or empty the request is the paginated one,
    carrying [offset] and [limit]. *)
Theorem getCategories_search_ignores_paging (c : ascii) (text : string)
    (offset limit : Z) (w : World) (t : string) :
  authToken w = Some t ->
  Js.truthy_str (authToken w) = true ->
  let searchText := String c text in
  let search :=
    {| Http.method := Http.GET;
       Http.url := "https://api.bitechx.com/categories/search?searchedText="
                   ++ Js.encodeURIComponent searchText;
       Http.headers := auth_headers t; Http.body := None |} in
  let page :=
    {| Http.method := Http.GET;
       Http.url := "https://api.bitechx.com/categories?offset="
                   ++ Js.toString offset ++ "&limit=" ++ Js.toString limit;
       Http.headers := auth_headers t; Http.body := None |} in
  snd (getCategories h (Some searchText) offset limit w) = after w 1 [Fetch search]
  /\ (forall offset' limit',
        getCategories h (Some searchText) offset' limit' w
        = getCategories h (Some searchText) offset limit w)
  /\ snd (getCategories h None offset limit w) = after w 1 [Fetch page]
  /\ snd (getCategories h (Some "") offset limit w) = after w 1 [Fetch page].
Proof.
  intros Ht Htruthy searchText search page.
  split; [|split; [|split]].
  - rewrite (getCategories_world _ _ _ w t Ht Htruthy). reflexivity.
  - intros offset' limit'. reflexivity.
  - rewrite (getCategories_world _ _ _ w t Ht Htruthy). reflexivity.
  - rewrite (getCategories_world _ _ _ w t Ht Htruthy). reflexivity.
Qed.

End Categories.

Lemma getCategories_search_ignores_paging_witness :
  let h := Examples.host_of Examples.xyz_server in
  let w := Eff.initial (Some "t0k3n") in
  snd (ProductService.getCategories h (Some "desk lamps") 20 10 w)
  = Eff.after w 1
      [Eff.Fetch
         {| Http.method := Http.GET;
            Http.url := "https://api.bitechx.com/categories/search?searchedText=desk%20lamps";
            Http.headers := ProductService.auth_headers "t0k3n";
            Http.body := None |}]
  /\ snd (ProductService.getCategories h None 20 10 w)
     = Eff.after w 1
         [Eff.Fetch
            {| Http.method := Http.GET;
               Http.url := "https://api.bitechx.com/categories?offset=20&limit=10";
               Http.headers := ProductService.auth_headers "t0k3n";
               Http.body := None |}].
Proof.
  destruct (getCategories_search_ignores_paging
              (Examples.host_of Examples.xyz_server) "d" "esk lamps" 20 10
              (Eff.initial (Some "t0k3n")) "t0k3n" eq_refl eq_refl)
    as [Hsearch [_ [Hpage _]]].
  split; [exact Hsearch | exact Hpage].
Defined.

(** ** Response normalization *)

Section Normalization.

Import Eff ProductService.

Variable h : Host.

Lemma ok_not_429 (r : Http.Response) :
  Http.ok r = true -> (Http.status r =? 429) = false.
Proof.
  unfold Http.ok. intros H. apply andb_prop in H. destruct H as [_ H].
  apply Z.leb_le in H. apply Z.eqb_neq. lia.
Qed.

(** A success response whose body is a bare array ends the call at once,
    whatever the retry count. *)
Lemma getProducts_array (fuel : nat) (offset limit : Z) (categoryId : option string)
    (retryCount : RetryCount) (w : World) (t : string) (r : Http.Response)
    (items : list Js.value) :
  authToken w = Some t ->
  Js.truthy_str (authToken w) = true ->
  server h (requests w) (products_request offset limit categoryId t) = Http.Resolves r ->
  Http.ok r = true ->
  Http.payload r = Http.Json (Js.VArr items) ->
  getProducts h (S fuel) offset limit categoryId retryCount w
  = (Returns {| products := Js.VArr items;
                total := Js.VNum (array_total r items) |},
     after w 1 [Fetch (products_request offset limit categoryId t)]).
Proof.
  intros Ht Htruthy Hsrv Hok Hbody.
  rewrite getProducts_unfold. unfold bind at 1, try_catch, getProducts_try, bind.
  rewrite (getAuthHeaders_present w t Ht Htruthy).
  fold (products_request offset limit categoryId t).
  rewrite (fetch_resolves h _ r w Hsrv).
  rewrite (ok_not_429 r Hok), Hok. cbn [negb].
  unfold json. rewrite Hbody. cbn [ret]. unfold array_total.
  destruct (Http.header r "x-total-count") as [s|]; [|reflexivity].
  cbn [Js.truthy_str]. destruct (negb (s =? "")%string); reflexivity.
Qed.

(** C4.  Normalization by [getProducts] of a success response: a bare
    array of 5 items with no [x-total-count] header gives these items with
    total 5; an object [{data: [3 items], totalCount: 30}] gives the 3
    items with total 30. *)
Theorem getProducts_normalizes (fuel : nat) (offset limit : Z)
    (categoryId : option string) (retryCount : RetryCount) (w : World)
    (t : string) (r : Http.Response) (items : list Js.value) :
  authToken w = Some t ->
  Js.truthy_str (authToken w) = true ->
  server h (requests w) (products_request offset limit categoryId t) = Http.Resolves r ->
  Http.ok r = true ->
  (Http.payload r = Http.Json (Js.VArr items) ->
   Http.header r "x-total-count" = None ->
   List.length items = 5%nat ->
   getProducts h (S fuel) offset limit categoryId retryCount w
   = (Returns {| products := Js.VArr items; total := Js.VNum (Js.of_Z 5) |},
      after w 1 [Fetch (products_request offset limit categoryId t)]))
  /\ (Http.payload r
      = Http.Json (Js.VObj [("data", Js.VArr items);
                            ("totalCount", Js.VNum (Js.of_Z 30))]) ->
      List.length items = 3%nat ->
      getProducts h (S fuel) offset limit categoryId retryCount w
      = (Returns {| products := Js.VArr items; total := Js.VNum (Js.of_Z 30) |},
         after w 1 [Fetch (products_request offset limit categoryId t)])).
Proof.
  intros Ht Htruthy Hsrv Hok. split.
  - intros Hbody Hheader Hlen.
    rewrite (getProducts_array fuel offset limit categoryId retryCount w t r items
               Ht Htruthy Hsrv Hok Hbody).
    unfold array_total. rewrite Hheader, Hlen. reflexivity.
  - intros Hbody _.
    rewrite getProducts_unfold. unfold bind at 1, try_catch, getProducts_try, bind.
    rewrite (getAuthHeaders_present w t Ht Htruthy).
    fold (products_request offset limit categoryId t).
    rewrite (fetch_resolves h _ r w Hsrv).
    rewrite (ok_not_429 r Hok), Hok. cbn [negb].
    unfold json. rewrite Hbody. reflexivity.
Qed.

End Normalization.

Lemma getProducts_normalizes_witness :
  let w := Eff.initial (Some "t0k3n") in
  ProductService.getProducts (Examples.host_of Examples.five_server) 1 0 9 None
    (ProductService.RcNum 0) w
  = (Eff.Returns
       {| ProductService.products :=
            Js.VArr [Examples.product_json "p1" "Lamp"; Examples.product_json "p2" "Desk";
                     Examples.product_json "p3" "Chair"; Examples.product_json "p4" "Shelf";
                     Examples.product_json "p5" "Rug"];
          ProductService.total := Js.VNum (Js.of_Z 5) |},
     Eff.after w 1 [Eff.Fetch (ProductService.products_request 0 9 None "t0k3n")])
  /\ ProductService.getProducts (Examples.host_of Examples.paged_server) 1 0 9 None
       (ProductService.RcNum 0) w
     = (Eff.Returns
          {| ProductService.products :=
               Js.VArr [Examples.product_json "p1" "Lamp"; Examples.product_json "p2" "Desk";
                        Examples.product_json "p3" "Chair"];
             ProductService.total := Js.VNum (Js.of_Z 30) |},
        Eff.after w 1 [Eff.Fetch (ProductService.products_request 0 9 None "t0k3n")]).
Proof.
  split.
  - eapply (getProducts_normalizes (Examples.host_of Examples.five_server) 0 0 9 None
              (ProductService.RcNum 0) (Eff.initial (Some "t0k3n")) "t0k3n");
      reflexivity.
  - eapply (getProducts_normalizes (Examples.host_of Examples.paged_server) 0 0 9 None
              (ProductService.RcNum 0) (Eff.initial (Some "t0k3n")) "t0k3n");
      reflexivity.
Defined.

(** The [fetchProducts] thunk hands both shapes on unchanged: the items
    are an array and the total is a non-zero number. *)
Lemma fetchProducts_thunk_examples :
  let w := Eff.initial (Some "t0k3n") in
  fst (ProductsSlice.fetchProducts (Examples.host_of Examples.five_server) 1
         ProductsSlice.initialState w)
  = fst (ProductService.getProducts (Examples.host_of Examples.five_server) 1 0 9 None
           (ProductService.RcNum 0) w)
  /\ fst (ProductsSlice.fetchProducts (Examples.host_of Examples.paged_server) 1
            ProductsSlice.initialState w)
     = fst (ProductService.getProducts (Examples.host_of Examples.paged_server) 1 0 9 None
              (ProductService.RcNum 0) w).
Proof. split; reflexivity. Qed.

(** ** Looking one product up *)

Section Lookup.

Import Eff ProductService.

Variable h : Host.

(** The list query of the fallback names no product. *)
Lemma fallback_url (t : string) :
  Http.url (products_request 0 1 None t)
  = "https://api.bitechx.com/products?offset=0&limit=1".
Proof. reflexivity. Qed.

(** C2.  When the direct fetch of [identifier] is answered with a
    non-success status, [getProduct] issues the list query
    [/products?offset=0&limit=1], in which the identifier does not occur
    (it is passed to [getProducts] in the position of the retry count),
    and returns the first item of the answer whichever product that is; an
    empty answer raises the not-found error. *)
Theorem getProduct_fallback_first_listed (fuel : nat) (identifier : string)
    (w : World) (t : string) (r1 r2 : Http.Response) (items : list Js.value) :
  authToken w = Some t ->
  Js.truthy_str (authToken w) = true ->
  server h (requests w) (product_request identifier t) = Http.Resolves r1 ->
  Http.ok r1 = false ->
  server h (S (requests w)) (products_request 0 1 None t) = Http.Resolves r2 ->
  Http.ok r2 = true ->
  Http.payload r2 = Http.Json (Js.VArr items) ->
  getProduct h (S fuel) identifier w
  = (match items with
     | item :: _ => Returns item
     | [] => Throws "Product not found"
     end,
     after w 2 [Fetch (product_request identifier t);
                Fetch {| Http.method := Http.GET;
                         Http.url := "https://api.bitechx.com/products?offset=0&limit=1";
                         Http.headers := auth_headers t;
                         Http.body := None |}]).
Proof.
  intros Ht Htruthy Hdirect Hfail Hlist Hok Hbody.
  unfold getProduct, try_catch. unfold bind at 1.
  rewrite (getAuthHeaders_present w t Ht Htruthy). unfold bind at 1.
  fold (product_request identifier t).
  rewrite (fetch_resolves h _ r1 w Hdirect). rewrite Hfail. unfold bind at 1.
  rewrite (getProducts_array h fuel 0 1 None (RcStr identifier)
             (after w 1 [Fetch (product_request identifier t)]) t r2 items
             Ht Htruthy Hlist Hok Hbody).
  cbn [products]. rewrite after_after.
  destruct items as [|item rest]; reflexivity.
Qed.

End Lookup.

Lemma getProduct_fallback_first_listed_witness :
  let w := Eff.initial (Some "t0k3n") in
  ProductService.getProduct (Examples.host_of Examples.xyz_server) 1 "abc" w
  = (Eff.Returns (Examples.product_json "xyz" "Lamp"),
     Eff.after w 2
       [Eff.Fetch (ProductService.product_request "abc" "t0k3n");
        Eff.Fetch {| Http.method := Http.GET;
                     Http.url := "https://api.bitechx.com/products?offset=0&limit=1";
                     Http.headers := ProductService.auth_headers "t0k3n";
                     Http.body := None |}])
  /\ Js.lookup "id" [("id", Js.VStr "xyz"); ("name", Js.VStr "Lamp");
                     ("price", Js.VNum (Js.Num (1999 # 100)))]
     = Js.VStr "xyz".
Proof.
  split; [|reflexivity].
  eapply (getProduct_fallback_first_listed (Examples.host_of Examples.xyz_server)
            0 "abc" (Eff.initial (Some "t0k3n")) "t0k3n" _ _
            [Examples.product_json "xyz" "Lamp"]);
    reflexivity.
Defined.

(** ** Errors of the write operations *)

Section Writes.

Import Eff ProductService.

Variable h : Host.

(** C7, on [createProduct].  On a non-success status [createProduct]
    fails with the fixed text ["Failed to create product"]; the body of
    the response, and with it the server's message, is not read. *)
Theorem createProduct_generic_failure (productData : Js.value) (w : World)
    (t : string) (r : Http.Response) :
  authToken w = Some t ->
  Js.truthy_str (authToken w) = true ->
  server h (requests w) (create_request productData t) = Http.Resolves r ->
  Http.ok r = false ->
  createProduct h productData w
  = (Throws "Failed to create product",
     after w 1 [Fetch (create_request productData t)]).
Proof.
  intros Ht Htruthy Hsrv Hfail. unfold createProduct, bind.
  rewrite (getAuthHeaders_present w t Ht Htruthy).
  fold (create_request productData t).
  rewrite (fetch_resolves h _ r w Hsrv). rewrite Hfail. reflexivity.
Qed.

(** The sibling [updateProduct] does read the body: the server's message
    is surfaced when there is one, and the fixed text is the default when
    the body is not parseable or carries no message. *)
Lemma updateProduct_surfaces_message (id : string) (productData : ProductUpdate)
    (w : World) (t : string) (r : Http.Response) :
  authToken w = Some t ->
  Js.truthy_str (authToken w) = true ->
  server h (requests w) (update_request id productData t) = Http.Resolves r ->
  Http.ok r = false ->
  updateProduct h id productData w
  = (match Http.payload r with
     | Http.Malformed _ => Throws "Failed to update product"
     | Http.Json (Js.VObj fields) =>
         Throws (message_of h (Js.or (Js.lookup "message" fields)
                                     (Js.VStr "Failed to update product")))
     | Http.Json Js.VNull => Throws (nullish_read h Js.VNull "message")
     | Http.Json Js.VUndefined => Throws (nullish_read h Js.VUndefined "message")
     | Http.Json _ => Throws "Failed to update product"
     end,
     after w 1 [Fetch (update_request id productData t)]).
Proof.
  intros Ht Htruthy Hsrv Hfail. unfold updateProduct, bind.
  rewrite (getAuthHeaders_present w t Ht Htruthy).
  fold (update_request id productData t).
  rewrite (fetch_resolves h _ r w Hsrv). rewrite Hfail. cbn [negb].
  unfold json_or_empty.
  destruct (Http.payload r) as [v|e]; [|reflexivity].
  destruct v; reflexivity.
Qed.

End Writes.

Lemma createProduct_generic_failure_witness :
  let h := Examples.host_of Examples.refusing_server in
  let w := Eff.initial (Some "t0k3n") in
  let productData := Examples.product_json "new" "Lamp" in
  server h 0 (ProductService.create_request productData "t0k3n")
  = Examples.respond 400 "Bad Request" []
      (Http.Json (Js.VObj [("message", Js.VStr "Name already exists")]))
  /\ ProductService.createProduct h productData w
     = (Eff.Throws "Failed to create product",
        Eff.after w 1 [Eff.Fetch (ProductService.create_request productData "t0k3n")])
  /\ ProductService.updateProduct h "xyz" Examples.price_change w
     = (Eff.Throws "Name already exists",
        Eff.after w 1
          [Eff.Fetch (ProductService.update_request "xyz" Examples.price_change "t0k3n")]).
Proof.
  split; [reflexivity|]. split; [|reflexivity].
  eapply (createProduct_generic_failure (Examples.host_of Examples.refusing_server)
            (Examples.product_json "new" "Lamp") (Eff.initial (Some "t0k3n")) "t0k3n");
    reflexivity.
Defined.

(** ** Logging in *)

Section Login.

Import Eff.






(** What [strip_leading] keeps is empty or starts with a character that
    is not white space. *)
Lemma strip_leading_kept (s : string) :
  Dom.strip_leading s = ""
  \/ exists c rest, Dom.strip_leading s = String c rest
                    /\ Dom.ascii_whitespace c = false.
Proof.
  induction s as [|c rest IH]; [left; reflexivity|].
  cbn [Dom.strip_leading]. destruct (Dom.ascii_whitespace c) eqn:Hc; [exact IH|].
  right. exists c, rest. split; [reflexivity | exact Hc].
Qed.

Lemma strip_trailing_head (c : ascii) (rest : string) :
  Dom.ascii_whitespace c = false ->
  exists kept, Dom.strip_trailing (String c rest) = String c kept.
Proof.
  intros Hc. cbn [Dom.strip_trailing]. rewrite Hc.
  destruct (Dom.strip_trailing rest) as [|c' kept]; eexists; reflexivity.
Qed.


(** The value of the email field is never made of white space: it is
    empty or it is not blank. *)
Lemma email_value_trimmed (typed : string) :
  Dom.email_value typed = "" \/ Dom.blank (Dom.email_value typed) = false.
Proof.
  unfold Dom.email_value.
  destruct (strip_leading_kept (Dom.strip_newlines typed)) as [H|(c & rest & H & Hc)].
  - left. rewrite H. reflexivity.
  - right. rewrite H. destruct (strip_trailing_head c rest Hc) as [kept Hk].
    rewrite Hk. cbn [Dom.blank]. rewrite Hc. reflexivity.
Qed.

(** The form state is the value the field had at the last edit. *)
Lemma edited_last (edits : list string) :
  AuthForm.edited edits = Dom.email_value (List.last edits "").
Proof.
  unfold AuthForm.edited.
  destruct edits as [|typed edits] using rev_ind; [reflexivity|].
  rewrite fold_left_app, last_last. reflexivity.
Qed.

(** No series of edits leaves white space alone in the form state. *)
Lemma edited_trimmed (edits : list string) :
  AuthForm.edited edits = "" \/ Dom.blank (AuthForm.edited edits) = false.
Proof. rewrite edited_last. apply email_value_trimmed. Qed.



End Login.

(* ================================================================== *)
(** * Further properties of the API client *)
(* ================================================================== *)

Section ClientFailures.

Import Eff ProductService.

Variable h : Host.
Variables (offset limit : Z) (categoryId : option string).

Lemma fetch_rejected (req : Http.Request) (e : string) (w : World) :
  server h (requests w) req = Http.Rejects e ->
  fetch h req w = (Throws e, after w 1 [Fetch req]).
Proof. intros H. unfold fetch. rewrite H. reflexivity. Qed.

(** An activation whose [try] block throws anything but the session error
    backs off and asks to be called again while retries are left. *)
Lemma activation_throws (retryCount : RetryCount) (w w1 : World) (m : string) :
  getProducts_try h offset limit categoryId retryCount w = (Throws m, w1) ->
  Js.includes m "Session expired" = false ->
  try_catch (getProducts_try h offset limit categoryId retryCount)
            (getProducts_catch h retryCount) w
  = if below_max h retryCount
    then (Returns Again, after w1 0 [SetTimeout (backoff h retryCount)])
    else (Throws m, w1).
Proof.
  intros Htry Hm. unfold try_catch. rewrite Htry.
  unfold getProducts_catch. rewrite Hm.
  destruct (below_max h retryCount); cbn [andb negb]; [|reflexivity].
  unfold sleep, bind. rewrite emit_after. reflexivity.
Qed.

(** The [try] block on a connection failure. *)
Lemma try_rejected (retryCount : RetryCount) (w : World) (t e : string) :
  authToken w = Some t ->
  Js.truthy_str (authToken w) = true ->
  server h (requests w) (products_request offset limit categoryId t) = Http.Rejects e ->
  getProducts_try h offset limit categoryId retryCount w
  = (Throws e, after w 1 [Fetch (products_request offset limit categoryId t)]).
Proof.
  intros Ht Htruthy Hsrv. unfold getProducts_try, bind.
  rewrite (getAuthHeaders_present w t Ht Htruthy).
  fold (products_request offset limit categoryId t).
  rewrite (fetch_rejected _ e w Hsrv). reflexivity.
Qed.

(** The [try] block on a non-success status other than 429 and 401. *)
Lemma try_status (retryCount : RetryCount) (w : World) (t : string)
    (r : Http.Response) :
  authToken w = Some t ->
  Js.truthy_str (authToken w) = true ->
  server h (requests w) (products_request offset limit categoryId t) = Http.Resolves r ->
  Http.ok r = false ->
  (Http.status r =? 429) = false ->
  (Http.status r =? 401) = false ->
  getProducts_try h offset limit categoryId retryCount w
  = (Throws (Wording.status_error r),
     after w 1 [Fetch (products_request offset limit categoryId t)]).
Proof.
  intros Ht Htruthy Hsrv Hok H429 H401. unfold getProducts_try, bind.
  rewrite (getAuthHeaders_present w t Ht Htruthy).
  fold (products_request offset limit categoryId t).
  rewrite (fetch_resolves h _ r w Hsrv).
  rewrite H429, Hok, H401. reflexivity.
Qed.

(** What [getProducts] does on a 401 answer. *)
Lemma getProducts_on_401 (fuel : nat) (retryCount : RetryCount)
    (w : World) (t : string) (r : Http.Response) :
  authToken w = Some t ->
  Js.truthy_str (authToken w) = true ->
  server h (requests w) (products_request offset limit categoryId t) = Http.Resolves r ->
  Http.status r = 401 ->
  getProducts h (S fuel) offset limit categoryId retryCount w
  = (Throws "Session expired. Please log in again.",
     {| authToken := None;
        requests := S (requests w);
        trace := trace w ++ [Fetch (products_request offset limit categoryId t);
                             Location "/login"] |}).
Proof.
  intros Ht Htruthy Hsrv Hstatus.
  assert (Hok : Http.ok r = false) by (unfold Http.ok; rewrite Hstatus; reflexivity).
  rewrite getProducts_unfold. unfold bind at 1, try_catch, getProducts_try, bind.
  rewrite (getAuthHeaders_present w t Ht Htruthy).
  fold (products_request offset limit categoryId t).
  rewrite (fetch_resolves h _ r w Hsrv).
  rewrite Hstatus, Hok.
  change (401 =? 429) with false. change (401 =? 401) with true.
  cbn [negb]. unfold AuthService.logout, removeItem, emit, throw.
  cbn [after authToken requests trace Nat.add].
  unfold getProducts_catch.
  replace (Js.includes "Session expired. Please log in again." "Session expired")
    with true by (vm_compute; reflexivity).
  cbn [negb]. rewrite andb_false_r. unfold throw.
  rewrite <- app_assoc. reflexivity.
Qed.

(** X1.  A 401 answer ends the session and is never retried: whatever
    the retry count, [getProducts] issues this one request, removes the
    stored token, sends the browser to [/login] and fails with the
    session-expired error, without any delay. *)
Theorem getProducts_unauthorized (fuel : nat) (retryCount : RetryCount)
    (w : World) (t : string) (r : Http.Response) :
  authToken w = Some t ->
  Js.truthy_str (authToken w) = true ->
  server h (requests w) (products_request offset limit categoryId t) = Http.Resolves r ->
  Http.status r = 401 ->
  getProducts h (S fuel) offset limit categoryId retryCount w
  = (Throws "Session expired. Please log in again.",
     {| authToken := None;
        requests := S (requests w);
        trace := trace w ++ [Fetch (products_request offset limit categoryId t);
                             Location "/login"] |}).
Proof. exact (getProducts_on_401 fuel retryCount w t r). Qed.

(** X13.  The expiry of the session is final for the client: after the
    401 answer to [getProducts], the next calls to the API client fail
    with the authentication error and reach the server no more. *)
Theorem no_request_after_expiry (fuel : nat) (retryCount : RetryCount)
    (w : World) (t : string) (r : Http.Response) (text id : string)
    (searchText : option string) (offset' limit' : Z) :
  authToken w = Some t ->
  Js.truthy_str (authToken w) = true ->
  server h (requests w) (products_request offset limit categoryId t) = Http.Resolves r ->
  Http.status r = 401 ->
  let w' := snd (getProducts h (S fuel) offset limit categoryId retryCount w) in
  requests w' = S (requests w)
  /\ searchProducts h text w' = (Throws "No authentication token found", w')
  /\ getCategories h searchText offset' limit' w'
     = (Throws "No authentication token found", w')
  /\ deleteProduct h id w' = (Throws "No authentication token found", w').
Proof.
  intros Ht Htruthy Hsrv Hstatus w'. subst w'.
  rewrite (getProducts_on_401 fuel retryCount w t r Ht Htruthy Hsrv Hstatus).
  cbn [snd]. split; [reflexivity|]. split; [|split]; reflexivity.
Qed.

(** X2.  Without a connection [getProducts] makes four attempts: when
    [fetch] rejects four times in a row (with an error that does not speak
    of an expired session), the call waits 1000, 2000 and 4000 ms between
    the attempts and then fails with the last rejection. *)
Theorem getProducts_offline (fuel : nat) (w : World) (t e : string) :
  authToken w = Some t ->
  Js.truthy_str (authToken w) = true ->
  Js.includes e "Session expired" = false ->
  (forall k req, (k < 4)%nat -> server h (k + requests w) req = Http.Rejects e) ->
  (4 <= fuel)%nat ->
  let req := products_request offset limit categoryId t in
  getProducts h fuel offset limit categoryId (RcNum 0) w
  = (Throws e,
     after w 4 [Fetch req; SetTimeout (Js.of_Z 1000);
                Fetch req; SetTimeout (Js.of_Z 2000);
                Fetch req; SetTimeout (Js.of_Z 4000);
                Fetch req]).
Proof.
  intros Ht Htruthy He Hoff Hfuel req.
  destruct fuel as [|[|[|[|fuel]]]]; try lia. clear Hfuel.
  pose proof (Hoff 0%nat req ltac:(lia)) as S0.
  pose proof (Hoff 1%nat req ltac:(lia)) as S1.
  pose proof (Hoff 2%nat req ltac:(lia)) as S2.
  pose proof (Hoff 3%nat req ltac:(lia)) as S3.
  rewrite getProducts_unfold. unfold bind at 1.
  erewrite activation_throws;
    [ | eapply try_rejected; [exact Ht | exact Htruthy | exact S0] | exact He ].
  cbn [below_max Z.of_nat MAX_RETRIES Z.ltb Z.compare plus_one Nat.add].
  rewrite getProducts_unfold. unfold bind at 1.
  erewrite activation_throws;
    [ | eapply try_rejected; [exact Ht | exact Htruthy | exact S1] | exact He ].
  cbn [below_max Z.of_nat MAX_RETRIES Z.ltb Z.compare Pos.compare Pos.compare_cont
       plus_one Nat.add Pos.of_succ_nat Pos.succ].
  rewrite getProducts_unfold. unfold bind at 1.
  erewrite activation_throws;
    [ | eapply try_rejected; [exact Ht | exact Htruthy | exact S2] | exact He ].
  cbn [below_max Z.of_nat MAX_RETRIES Z.ltb Z.compare Pos.compare Pos.compare_cont
       plus_one Nat.add Pos.of_succ_nat Pos.succ].
  rewrite getProducts_unfold. unfold bind at 1.
  erewrite activation_throws;
    [ | eapply try_rejected; [exact Ht | exact Htruthy | exact S3] | exact He ].
  cbn [below_max Z.of_nat MAX_RETRIES Z.ltb Z.compare Pos.compare Pos.compare_cont
       Pos.of_succ_nat Pos.succ].
  rewrite !after_after. reflexivity.
Qed.

(** X3.  A server error is retried like a lost connection: against four
    answers with the same non-success status other than 429 and 401,
    [getProducts] waits 1000, 2000 and 4000 ms between its four requests
    and then fails with the status and status text of the answer. *)
Theorem getProducts_server_error (fuel : nat) (w : World) (t : string)
    (r : Http.Response) :
  authToken w = Some t ->
  Js.truthy_str (authToken w) = true ->
  Http.ok r = false ->
  (Http.status r =? 429) = false ->
  (Http.status r =? 401) = false ->
  Js.includes (Wording.status_error r) "Session expired" = false ->
  (forall k req, (k < 4)%nat -> server h (k + requests w) req = Http.Resolves r) ->
  (4 <= fuel)%nat ->
  let req := products_request offset limit categoryId t in
  getProducts h fuel offset limit categoryId (RcNum 0) w
  = (Throws (Wording.status_error r),
     after w 4 [Fetch req; SetTimeout (Js.of_Z 1000);
                Fetch req; SetTimeout (Js.of_Z 2000);
                Fetch req; SetTimeout (Js.of_Z 4000);
                Fetch req]).
Proof.
  intros Ht Htruthy Hok H429 H401 He Hsrv Hfuel req.
  destruct fuel as [|[|[|[|fuel]]]]; try lia. clear Hfuel.
  pose proof (Hsrv 0%nat req ltac:(lia)) as S0.
  pose proof (Hsrv 1%nat req ltac:(lia)) as S1.
  pose proof (Hsrv 2%nat req ltac:(lia)) as S2.
  pose proof (Hsrv 3%nat req ltac:(lia)) as S3.
  rewrite getProducts_unfold. unfold bind at 1.
  erewrite activation_throws;
    [ | eapply try_status;
        [exact Ht | exact Htruthy | exact S0 | exact Hok | exact H429 | exact H401]
      | exact He ].
  cbn [below_max Z.of_nat MAX_RETRIES Z.ltb Z.compare plus_one Nat.add].
  rewrite getProducts_unfold. unfold bind at 1.
  erewrite activation_throws;
    [ | eapply try_status;
        [exact Ht | exact Htruthy | exact S1 | exact Hok | exact H429 | exact H401]
      | exact He ].
  cbn [below_max Z.of_nat MAX_RETRIES Z.ltb Z.compare Pos.compare Pos.compare_cont
       plus_one Nat.add Pos.of_succ_nat Pos.succ].
  rewrite getProducts_unfold. unfold bind at 1.
  erewrite activation_throws;
    [ | eapply try_status;
        [exact Ht | exact Htruthy | exact S2 | exact Hok | exact H429 | exact H401]
      | exact He ].
  cbn [below_max Z.of_nat MAX_RETRIES Z.ltb Z.compare Pos.compare Pos.compare_cont
       plus_one Nat.add Pos.of_succ_nat Pos.succ].
  rewrite getProducts_unfold. unfold bind at 1.
  erewrite activation_throws;
    [ | eapply try_status;
        [exact Ht | exact Htruthy | exact S3 | exact Hok | exact H429 | exact H401]
      | exact He ].
  cbn [below_max Z.of_nat MAX_RETRIES Z.ltb Z.compare Pos.compare Pos.compare_cont
       Pos.of_succ_nat Pos.succ].
  rewrite !after_after. reflexivity.
Qed.

End ClientFailures.


Lemma getProducts_unauthorized_witness :
  let w := Eff.initial (Some "t0k3n") in
  ProductService.getProducts (Examples.host_of Scenarios.expired_server) 1 0 9 None
    (ProductService.RcNum 0) w
  = (Eff.Throws "Session expired. Please log in again.",
     {| Eff.authToken := None;
        Eff.requests := 1;
        Eff.trace := [Eff.Fetch (ProductService.products_request 0 9 None "t0k3n");
                      Eff.Location "/login"] |}).
Proof.
  eapply (getProducts_unauthorized (Examples.host_of Scenarios.expired_server)
            0 9 None 0 (ProductService.RcNum 0) (Eff.initial (Some "t0k3n")) "t0k3n");
    reflexivity.
Defined.

Lemma getProducts_offline_witness :
  let w := Eff.initial (Some "t0k3n") in
  let req := ProductService.products_request 0 9 None "t0k3n" in
  ProductService.getProducts (Examples.host_of Scenarios.offline_server) 4 0 9 None
    (ProductService.RcNum 0) w
  = (Eff.Throws "Failed to fetch",
     Eff.after w 4 [Eff.Fetch req; Eff.SetTimeout (Js.of_Z 1000);
                    Eff.Fetch req; Eff.SetTimeout (Js.of_Z 2000);
                    Eff.Fetch req; Eff.SetTimeout (Js.of_Z 4000);
                    Eff.Fetch req]).
Proof.
  apply (getProducts_offline (Examples.host_of Scenarios.offline_server)
           0 9 None 4 (Eff.initial (Some "t0k3n")) "t0k3n" "Failed to fetch").
  - reflexivity.
  - reflexivity.
  - vm_compute. reflexivity.
  - intros k req _. reflexivity.
  - lia.
Defined.

Lemma getProducts_server_error_witness :
  let w := Eff.initial (Some "t0k3n") in
  let req := ProductService.products_request 0 9 None "t0k3n" in
  ProductService.getProducts (Examples.host_of Scenarios.failing_server) 4 0 9 None
    (ProductService.RcNum 0) w
  = (Eff.Throws "Failed to fetch products: 500 Internal Server Error",
     Eff.after w 4 [Eff.Fetch req; Eff.SetTimeout (Js.of_Z 1000);
                    Eff.Fetch req; Eff.SetTimeout (Js.of_Z 2000);
                    Eff.Fetch req; Eff.SetTimeout (Js.of_Z 4000);
                    Eff.Fetch req]).
Proof.
  eapply (getProducts_server_error (Examples.host_of Scenarios.failing_server)
            0 9 None 4 (Eff.initial (Some "t0k3n")) "t0k3n"
            (Scenarios.answer 500 "Internal Server Error" []
               (Http.Malformed "Unexpected token <"))).
  - reflexivity.
  - reflexivity.
  - reflexivity.
  - reflexivity.
  - reflexivity.
  - vm_compute. reflexivity.
  - intros k req _. reflexivity.
  - lia.
Defined.

Section ClientRecovery.

Import Eff ProductService.

Variable h : Host.
Variables (offset limit : Z) (categoryId : option string).

(** X4.  A [Retry-After] header replaces the computed backoff: after a
    429 answer carrying one, [getProducts] waits for the header's number
    of seconds times 1000 (with no 30 s cap) and asks again, and the
    success of the second request is the result of the call. *)
Theorem getProducts_retry_after (fuel : nat) (w : World) (t s : string)
    (r1 r2 : Http.Response) (items : list Js.value) :
  authToken w = Some t ->
  Js.truthy_str (authToken w) = true ->
  server h (requests w) (products_request offset limit categoryId t) = Http.Resolves r1 ->
  Http.status r1 = 429 ->
  Http.header r1 "Retry-After" = Some s ->
  (s =? "")%string = false ->
  server h (S (requests w)) (products_request offset limit categoryId t) = Http.Resolves r2 ->
  Http.ok r2 = true ->
  Http.payload r2 = Http.Json (Js.VArr items) ->
  let req := products_request offset limit categoryId t in
  getProducts h (S (S fuel)) offset limit categoryId (RcNum 0) w
  = (Returns {| products := Js.VArr items;
                total := Js.VNum (array_total r2 items) |},
     after w 2 [Fetch req;
                SetTimeout (Js.mul (Js.parseInt s) (Js.of_Z 1000));
                Fetch req]).
Proof.
  intros Ht Htruthy Hsrv1 H429 Hafter Hs Hsrv2 Hok Hbody req. subst req.
  set (req := products_request offset limit categoryId t) in *.
  rewrite getProducts_unfold. unfold bind at 1, try_catch, getProducts_try, bind.
  rewrite (getAuthHeaders_present w t Ht Htruthy).
  fold (products_request offset limit categoryId t). fold req.
  rewrite (fetch_resolves h _ r1 w Hsrv1).
  rewrite H429. change (429 =? 429) with true. cbv iota.
  cbn [below_max Z.of_nat MAX_RETRIES Z.ltb Z.compare].
  rewrite Hafter. cbn [Js.truthy_str]. rewrite Hs. cbn [negb].
  unfold sleep. rewrite emit_after, after_after. cbn [ret plus_one Nat.add].
  erewrite getProducts_array;
    [ | exact Ht | exact Htruthy | exact Hsrv2 | exact Hok | exact Hbody ].
  rewrite after_after. reflexivity.
Qed.

(** X5.  Called as the application calls it (at retry count 0),
    [getProducts] comes to an end whatever the server answers, and it has
    then issued at most four requests. *)
Theorem getProducts_at_most_four_requests (fuel : nat) (w : World) :
  (4 <= fuel)%nat ->
  exists (o : Outcome ProductsResult) (w' : World),
    getProducts h fuel offset limit categoryId (RcNum 0) w = (o, w')
    /\ o <> OutOfFuel
    /\ (requests w' <= 4 + requests w)%nat.
Proof.
  intros Hfuel.
  pose proof (getProducts_bounded h offset limit categoryId fuel 0 w
                ltac:(lia) ltac:(cbn; lia)) as Hb.
  destruct (getProducts h fuel offset limit categoryId (RcNum 0) w) as [o w'].
  exists o, w'. split; [reflexivity|].
  destruct o as [r|e|]; [split; [discriminate | exact Hb]
                        | split; [discriminate | exact Hb]
                        | contradiction].
Qed.

End ClientRecovery.

Lemma getProducts_retry_after_witness :
  let w := Eff.initial (Some "t0k3n") in
  let req := ProductService.products_request 0 9 None "t0k3n" in
  ProductService.getProducts (Examples.host_of Scenarios.throttled_once_server) 2 0 9 None
    (ProductService.RcNum 0) w
  = (Eff.Returns {| ProductService.products := Js.VArr [Examples.product_json "xyz" "Lamp"];
                    ProductService.total := Js.VNum (Js.of_Z 1) |},
     Eff.after w 2 [Eff.Fetch req; Eff.SetTimeout (Js.of_Z 5000); Eff.Fetch req]).
Proof.
  apply (getProducts_retry_after (Examples.host_of Scenarios.throttled_once_server)
           0 9 None 0 (Eff.initial (Some "t0k3n")) "t0k3n" "5"
           (Scenarios.answer 429 "Too Many Requests" [("Retry-After", "5")]
              (Http.Malformed "Unexpected end of JSON input"))
           (Scenarios.answer 200 "OK" []
              (Http.Json (Js.VArr [Examples.product_json "xyz" "Lamp"])))
           [Examples.product_json "xyz" "Lamp"]);
    reflexivity.
Defined.

Lemma getProducts_at_most_four_requests_witness :
  exists (o : Eff.Outcome ProductService.ProductsResult) (w' : Eff.World),
    ProductService.getProducts (Examples.host_of Scenarios.failing_server) 4 0 9 None
      (ProductService.RcNum 0) (Eff.initial (Some "t0k3n")) = (o, w')
    /\ o <> Eff.OutOfFuel
    /\ (Eff.requests w' <= 4 + Eff.requests (Eff.initial (Some "t0k3n")))%nat.
Proof.
  apply (getProducts_at_most_four_requests (Examples.host_of Scenarios.failing_server)
           0 9 None 4 (Eff.initial (Some "t0k3n"))).
  lia.
Defined.

(** ** Single records *)

Section SingleRecord.

Import Eff ProductService.

Variable h : Host.

(** X6.  [getProduct] falls back to the list only on a non-success
    status.  A success answer is the result (its first element when the
    body is an array), a body that does not parse and a rejected [fetch]
    surface their error; in all three cases the record request is the only
    request, and no fuel is used. *)
Theorem getProduct_single_request (fuel : nat) (identifier : string) (w : World)
    (t : string) :
  authToken w = Some t ->
  Js.truthy_str (authToken w) = true ->
  let req := product_request identifier t in
  (forall r data,
     server h (requests w) req = Http.Resolves r ->
     Http.ok r = true ->
     Http.payload r = Http.Json data ->
     getProduct h fuel identifier w
     = (Returns (match data with
                 | Js.VArr items => List.nth 0 items Js.VUndefined
                 | _ => data
                 end),
        after w 1 [Fetch req]))
  /\ (forall r e,
        server h (requests w) req = Http.Resolves r ->
        Http.ok r = true ->
        Http.payload r = Http.Malformed e ->
        getProduct h fuel identifier w = (Throws e, after w 1 [Fetch req]))
  /\ (forall e,
        server h (requests w) req = Http.Rejects e ->
        getProduct h fuel identifier w = (Throws e, after w 1 [Fetch req])).
Proof.
  intros Ht Htruthy req. subst req.
  split; [|split].
  - intros r data Hsrv Hok Hbody.
    unfold getProduct, try_catch, bind.
    rewrite (getAuthHeaders_present w t Ht Htruthy).
    fold (product_request identifier t).
    rewrite (fetch_resolves h _ r w Hsrv). rewrite Hok.
    unfold json. rewrite Hbody. reflexivity.
  - intros r e Hsrv Hok Hbody.
    unfold getProduct, try_catch, bind.
    rewrite (getAuthHeaders_present w t Ht Htruthy).
    fold (product_request identifier t).
    rewrite (fetch_resolves h _ r w Hsrv). rewrite Hok.
    unfold json. rewrite Hbody. reflexivity.
  - intros e Hsrv.
    unfold getProduct, try_catch, bind.
    rewrite (getAuthHeaders_present w t Ht Htruthy).
    fold (product_request identifier t).
    rewrite (fetch_rejected h _ e w Hsrv). reflexivity.
Qed.

(** At the retry bound a 429 answer ends the call with the rate-limit
    error. *)
Lemma getProducts_rate_limit_exceeded (fuel : nat) (offset limit : Z)
    (categoryId : option string) (retryCount : RetryCount) (w : World)
    (t : string) (r : Http.Response) :
  authToken w = Some t ->
  Js.truthy_str (authToken w) = true ->
  below_max h retryCount = false ->
  server h (requests w) (products_request offset limit categoryId t) = Http.Resolves r ->
  Http.status r = 429 ->
  getProducts h (S fuel) offset limit categoryId retryCount w
  = (Throws "Rate limit exceeded. Please try again later.",
     after w 1 [Fetch (products_request offset limit categoryId t)]).
Proof.
  intros Ht Htruthy Hbelow Hsrv H429.
  rewrite getProducts_unfold. unfold bind at 1, try_catch, getProducts_try, bind.
  rewrite (getAuthHeaders_present w t Ht Htruthy).
  fold (products_request offset limit categoryId t).
  rewrite (fetch_resolves h _ r w Hsrv).
  rewrite H429. change (429 =? 429) with true. cbv iota.
  unfold getProducts_catch. rewrite Hbelow. reflexivity.
Qed.

(** X7.  The list query of the fallback runs with the identifier as its
    retry count.  For an identifier that does not compare below 3 (any
    that is not a numeric literal), a 429 answer to the list query is not
    retried: [getProduct] fails at once with the rate-limit error, after
    two requests and no delay. *)
Theorem getProduct_fallback_not_retried (fuel : nat) (identifier : string)
    (w : World) (t : string) (r1 r2 : Http.Response) :
  authToken w = Some t ->
  Js.truthy_str (authToken w) = true ->
  string_lt h identifier MAX_RETRIES = false ->
  server h (requests w) (product_request identifier t) = Http.Resolves r1 ->
  Http.ok r1 = false ->
  server h (S (requests w)) (products_request 0 1 None t) = Http.Resolves r2 ->
  Http.status r2 = 429 ->
  getProduct h (S fuel) identifier w
  = (Throws "Rate limit exceeded. Please try again later.",
     after w 2 [Fetch (product_request identifier t);
                Fetch (products_request 0 1 None t)]).
Proof.
  intros Ht Htruthy Hnan Hdirect Hfail Hlist H429.
  unfold getProduct, try_catch. unfold bind at 1.
  rewrite (getAuthHeaders_present w t Ht Htruthy). unfold bind at 1.
  fold (product_request identifier t).
  rewrite (fetch_resolves h _ r1 w Hdirect). rewrite Hfail. unfold bind at 1.
  erewrite getProducts_rate_limit_exceeded;
    [ | exact Ht | exact Htruthy | exact Hnan | exact Hlist | exact H429 ].
  unfold throw. rewrite after_after. reflexivity.
Qed.

End SingleRecord.

Lemma getProduct_single_request_witness :
  let w := Eff.initial (Some "t0k3n") in
  ProductService.getProduct (Examples.host_of Examples.xyz_server) 0 "xyz" w
  = (Eff.Returns (Examples.product_json "xyz" "Lamp"),
     Eff.after w 1 [Eff.Fetch (ProductService.product_request "xyz" "t0k3n")])
  /\ ProductService.getProduct (Examples.host_of Scenarios.offline_server) 0 "xyz" w
     = (Eff.Throws "Failed to fetch",
        Eff.after w 1 [Eff.Fetch (ProductService.product_request "xyz" "t0k3n")]).
Proof.
  split.
  - destruct (getProduct_single_request (Examples.host_of Examples.xyz_server)
                0 "xyz" (Eff.initial (Some "t0k3n")) "t0k3n" eq_refl eq_refl)
      as [Hfound _].
    apply (Hfound (Scenarios.answer 200 "OK" []
                     (Http.Json (Examples.product_json "xyz" "Lamp")))
                  (Examples.product_json "xyz" "Lamp"));
      reflexivity.
  - destruct (getProduct_single_request (Examples.host_of Scenarios.offline_server)
                0 "xyz" (Eff.initial (Some "t0k3n")) "t0k3n" eq_refl eq_refl)
      as [_ [_ Hoffline]].
    apply Hoffline. reflexivity.
Defined.

Lemma getProduct_fallback_not_retried_witness :
  let w := Eff.initial (Some "t0k3n") in
  ProductService.getProduct (Examples.host_of Scenarios.limited_list_server) 1 "abc" w
  = (Eff.Throws "Rate limit exceeded. Please try again later.",
     Eff.after w 2 [Eff.Fetch (ProductService.product_request "abc" "t0k3n");
                    Eff.Fetch (ProductService.products_request 0 1 None "t0k3n")]).
Proof.
  apply (getProduct_fallback_not_retried
           (Examples.host_of Scenarios.limited_list_server) 0 "abc"
           (Eff.initial (Some "t0k3n")) "t0k3n"
           (Scenarios.answer 404 "Not Found" []
              (Http.Json (Js.VObj [("message", Js.VStr "Not found")])))
           (Scenarios.answer 429 "Too Many Requests" []
              (Http.Malformed "Unexpected end of JSON input")));
    reflexivity.
Defined.

(** ** Writes and deletions *)

Section WriteErrors.

Import Eff ProductService.

Variable h : Host.

(** The request that [deleteProduct] issues in a session holding [t]. *)
Lemma deleteProduct_fetches (id : string) (w : World) (t : string)
    (r : Http.Response) :
  authToken w = Some t ->
  Js.truthy_str (authToken w) = true ->
  server h (requests w) (Wording.delete_request id t) = Http.Resolves r ->
  deleteProduct h id w
  = try_catch
      (if negb (Http.ok r) then
         bind (get h (json_or_empty r) "message")
              (fun message =>
                 throw (message_of h (Js.or message (Js.VStr "Failed to delete product"))))
       else
         bind (json r)
              (fun result =>
                 bind (get h result "id")
                      (fun id' => ret (Js.VObj [("id", id')]))))
      (fun message => throw message)
      (after w 1 [Fetch (Wording.delete_request id t)]).
Proof.
  intros Ht Htruthy Hsrv. unfold deleteProduct, try_catch. unfold bind at 1.
  rewrite (getAuthHeaders_present w t Ht Htruthy). unfold bind at 1.
  fold (Wording.delete_request id t).
  rewrite (fetch_resolves h _ r w Hsrv). reflexivity.
Qed.

Lemma updateProduct_fetches (id : string) (productData : ProductUpdate)
    (w : World) (t : string) (r : Http.Response) :
  authToken w = Some t ->
  Js.truthy_str (authToken w) = true ->
  server h (requests w) (update_request id productData t) = Http.Resolves r ->
  updateProduct h id productData w
  = (if negb (Http.ok r) then
       bind (get h (json_or_empty r) "message")
            (fun message =>
               throw (message_of h (Js.or message (Js.VStr "Failed to update product"))))
     else json r)
      (after w 1 [Fetch (update_request id productData t)]).
Proof.
  intros Ht Htruthy Hsrv. unfold updateProduct. unfold bind at 1.
  rewrite (getAuthHeaders_present w t Ht Htruthy). unfold bind at 1.
  fold (update_request id productData t).
  rewrite (fetch_resolves h _ r w Hsrv). reflexivity.
Qed.

(** X8.  On a non-success status [updateProduct] and [deleteProduct]
    fail with the [message] of the response body when the body is an
    object carrying a non-empty one, and with their fixed text when the
    body does not parse or carries no message; each issues one request. *)
Theorem write_errors_surface_message (id : string) (productData : ProductUpdate)
    (w : World) (t : string) (r : Http.Response) :
  authToken w = Some t ->
  Js.truthy_str (authToken w) = true ->
  server h (requests w) (update_request id productData t) = Http.Resolves r ->
  server h (requests w) (Wording.delete_request id t) = Http.Resolves r ->
  Http.ok r = false ->
  let updated := after w 1 [Fetch (update_request id productData t)] in
  let deleted := after w 1 [Fetch (Wording.delete_request id t)] in
  (forall fields c m,
     Http.payload r = Http.Json (Js.VObj fields) ->
     Js.lookup "message" fields = Js.VStr (String c m) ->
     updateProduct h id productData w = (Throws (String c m), updated)
     /\ deleteProduct h id w = (Throws (String c m), deleted))
  /\ (forall fields,
        Http.payload r = Http.Json (Js.VObj fields) ->
        Js.lookup "message" fields = Js.VUndefined ->
        updateProduct h id productData w = (Throws "Failed to update product", updated)
        /\ deleteProduct h id w = (Throws "Failed to delete product", deleted))
  /\ (forall e,
        Http.payload r = Http.Malformed e ->
        updateProduct h id productData w = (Throws "Failed to update product", updated)
        /\ deleteProduct h id w = (Throws "Failed to delete product", deleted)).
Proof.
  intros Ht Htruthy Hput Hdel Hfail updated deleted. subst updated deleted.
  split; [|split].
  - intros fields c m Hbody Hmsg. split.
    + rewrite (updateProduct_fetches id productData w t r Ht Htruthy Hput).
      rewrite Hfail. unfold json_or_empty, bind, get. rewrite Hbody.
      cbn [negb ret]. rewrite Hmsg. reflexivity.
    + rewrite (deleteProduct_fetches id w t r Ht Htruthy Hdel).
      rewrite Hfail. unfold try_catch, json_or_empty, bind, get. rewrite Hbody.
      cbn [negb ret]. rewrite Hmsg. reflexivity.
  - intros fields Hbody Hmsg. split.
    + rewrite (updateProduct_fetches id productData w t r Ht Htruthy Hput).
      rewrite Hfail. unfold json_or_empty, bind, get. rewrite Hbody.
      cbn [negb ret]. rewrite Hmsg. reflexivity.
    + rewrite (deleteProduct_fetches id w t r Ht Htruthy Hdel).
      rewrite Hfail. unfold try_catch, json_or_empty, bind, get. rewrite Hbody.
      cbn [negb ret]. rewrite Hmsg. reflexivity.
  - intros e Hbody. split.
    + rewrite (updateProduct_fetches id productData w t r Ht Htruthy Hput).
      rewrite Hfail. unfold json_or_empty, bind, get. rewrite Hbody.
      reflexivity.
    + rewrite (deleteProduct_fetches id w t r Ht Htruthy Hdel).
      rewrite Hfail. unfold try_catch, json_or_empty, bind, get. rewrite Hbody.
      reflexivity.
Qed.

(** X9.  On success [deleteProduct] resolves with the [id] found in the
    body of the answer, not with the identifier it was called with; a
    success answer whose body does not parse makes the call fail with the
    parse error although the server has deleted the product. *)
Theorem deleteProduct_echoes_reply (id : string) (w : World) (t : string)
    (r : Http.Response) :
  authToken w = Some t ->
  Js.truthy_str (authToken w) = true ->
  server h (requests w) (Wording.delete_request id t) = Http.Resolves r ->
  Http.ok r = true ->
  (forall fields,
     Http.payload r = Http.Json (Js.VObj fields) ->
     deleteProduct h id w
     = (Returns (Js.VObj [("id", Js.lookup "id" fields)]),
        after w 1 [Fetch (Wording.delete_request id t)]))
  /\ (forall e,
        Http.payload r = Http.Malformed e ->
        deleteProduct h id w = (Throws e, after w 1 [Fetch (Wording.delete_request id t)])).
Proof.
  intros Ht Htruthy Hsrv Hok. split.
  - intros fields Hbody.
    rewrite (deleteProduct_fetches id w t r Ht Htruthy Hsrv).
    rewrite Hok. unfold try_catch, bind, json. rewrite Hbody. reflexivity.
  - intros e Hbody.
    rewrite (deleteProduct_fetches id w t r Ht Htruthy Hsrv).
    rewrite Hok. unfold try_catch, bind, json. rewrite Hbody. reflexivity.
Qed.

End WriteErrors.

Lemma write_errors_surface_message_witness :
  let h := Examples.host_of Examples.refusing_server in
  let w := Eff.initial (Some "t0k3n") in
  ProductService.updateProduct h "xyz" Examples.price_change w
  = (Eff.Throws "Name already exists",
     Eff.after w 1
       [Eff.Fetch (ProductService.update_request "xyz" Examples.price_change "t0k3n")])
  /\ ProductService.deleteProduct h "xyz" w
     = (Eff.Throws "Name already exists",
        Eff.after w 1 [Eff.Fetch (Wording.delete_request "xyz" "t0k3n")]).
Proof.
  destruct (write_errors_surface_message (Examples.host_of Examples.refusing_server)
              "xyz" Examples.price_change (Eff.initial (Some "t0k3n")) "t0k3n"
              (Scenarios.answer 400 "Bad Request" []
                 (Http.Json (Js.VObj [("message", Js.VStr "Name already exists")])))
              eq_refl eq_refl eq_refl eq_refl eq_refl)
    as [Hmessage _].
  apply (Hmessage [("message", Js.VStr "Name already exists")] "N"%char
                  "ame already exists"); reflexivity.
Defined.

Lemma deleteProduct_echoes_reply_witness :
  let w := Eff.initial (Some "t0k3n") in
  ProductService.deleteProduct (Examples.host_of Scenarios.lenient_server) "lamp" w
  = (Eff.Returns (Js.VObj [("id", Js.VStr "xyz")]),
     Eff.after w 1 [Eff.Fetch (Wording.delete_request "lamp" "t0k3n")]).
Proof.
  destruct (deleteProduct_echoes_reply (Examples.host_of Scenarios.lenient_server)
              "lamp" (Eff.initial (Some "t0k3n")) "t0k3n"
              (Scenarios.answer 200 "OK" [] (Http.Json (Examples.product_json "xyz" "Lamp")))
              eq_refl eq_refl eq_refl eq_refl)
    as [Hecho _].
  apply (Hecho [("id", Js.VStr "xyz"); ("name", Js.VStr "Lamp");
                ("price", Js.VNum (Js.Num (1999 # 100)))]).
  reflexivity.
Defined.

(** ** The session *)

Section Session.

Import Eff.

Variable h : Host.

(** [login] up to the answer of the auth endpoint. *)
Lemma login_fetches (email : string) (w : World) (r : Http.Response) :
  server h (requests w) (AuthService.login_request email) = Http.Resolves r ->
  AuthService.login h email w
  = (if negb (Http.ok r) then
       bind (json r)
            (fun error =>
               bind (get h error "message")
                    (fun message =>
                       throw (message_of h
                                (Js.or message (Js.VStr "Failed to authenticate")))))
     else
       bind (json r)
            (fun data =>
               bind (get h data "token")
                    (fun token =>
                       bind (setItem (message_of h token)) (fun _ => ret token))))
      (after w 1 [Fetch (AuthService.login_request email)]).
Proof.
  intros Hsrv. unfold AuthService.login. unfold bind at 1.
  fold (AuthService.login_request email).
  rewrite (fetch_resolves h _ r w Hsrv). reflexivity.
Qed.

(** X10.  A successful [login] stores the token of the answer and
    resolves with it; from then on the session counts as authenticated and
    the requests of the API client carry this token as their bearer
    credential. *)
Theorem login_opens_session (email : string) (w : World) (r : Http.Response)
    (fields : list (string * Js.value)) (c : ascii) (rest : string) :
  server h (requests w) (AuthService.login_request email) = Http.Resolves r ->
  Http.ok r = true ->
  Http.payload r = Http.Json (Js.VObj fields) ->
  Js.lookup "token" fields = Js.VStr (String c rest) ->
  let token := String c rest in
  let w' := {| authToken := Some token;
               requests := S (requests w);
               trace := trace w ++ [Fetch (AuthService.login_request email)] |} in
  AuthService.login h email w = (Returns (Js.VStr token), w')
  /\ AuthService.isAuthenticated w' = (Returns true, w')
  /\ ProductService.getAuthHeaders w'
     = (Returns [("Content-Type", "application/json");
                 ("Authorization", "Bearer " ++ token)], w').
Proof.
  intros Hsrv Hok Hbody Htoken token w'. subst token w'.
  split; [|split].
  - rewrite (login_fetches email w r Hsrv). rewrite Hok.
    unfold bind, json, get, setItem. rewrite Hbody. cbn [negb ret].
    rewrite Htoken. reflexivity.
  - reflexivity.
  - reflexivity.
Qed.

(** X11.  A refused [login] leaves the storage as it was.  The error is
    the [message] of the body when there is a non-empty one and the fixed
    text when the body is an object without one; a body that does not
    parse surfaces the parse error, not the fixed text. *)
Theorem login_refused (email : string) (w : World) (r : Http.Response) :
  server h (requests w) (AuthService.login_request email) = Http.Resolves r ->
  Http.ok r = false ->
  let w' := after w 1 [Fetch (AuthService.login_request email)] in
  authToken w' = authToken w
  /\ (forall fields c m,
        Http.payload r = Http.Json (Js.VObj fields) ->
        Js.lookup "message" fields = Js.VStr (String c m) ->
        AuthService.login h email w = (Throws (String c m), w'))
  /\ (forall fields,
        Http.payload r = Http.Json (Js.VObj fields) ->
        Js.lookup "message" fields = Js.VUndefined ->
        AuthService.login h email w = (Throws "Failed to authenticate", w'))
  /\ (forall e,
        Http.payload r = Http.Malformed e ->
        AuthService.login h email w = (Throws e, w')).
Proof.
  intros Hsrv Hfail w'. subst w'.
  split; [reflexivity|]. split; [|split].
  - intros fields c m Hbody Hmsg.
    rewrite (login_fetches email w r Hsrv). rewrite Hfail.
    unfold bind, json, get. rewrite Hbody. cbn [negb ret]. rewrite Hmsg. reflexivity.
  - intros fields Hbody Hmsg.
    rewrite (login_fetches email w r Hsrv). rewrite Hfail.
    unfold bind, json, get. rewrite Hbody. cbn [negb ret]. rewrite Hmsg. reflexivity.
  - intros e Hbody.
    rewrite (login_fetches email w r Hsrv). rewrite Hfail.
    unfold bind, json. rewrite Hbody. reflexivity.
Qed.

(** X12.  A refused login attempt from the form: the loading flag is
    raised and lowered again, the server's message is shown in an error
    toast, nothing is stored, and the user is neither set nor sent to the
    products page. *)
Theorem handleSubmit_refused (c : ascii) (rest : string) (w : World)
    (r : Http.Response) (fields : list (string * Js.value)) (c' : ascii)
    (m : string) :
  let email := String c rest in
  server h (requests w) (AuthService.login_request email) = Http.Resolves r ->
  Http.ok r = false ->
  Http.payload r = Http.Json (Js.VObj fields) ->
  Js.lookup "message" fields = Js.VStr (String c' m) ->
  Auth.handleSubmit h email w
  = (Returns tt,
     after w 1 [PreventDefault; SetLoading true;
                Fetch (AuthService.login_request email);
                SetLoading false;
                Toast "Error" (Some (String c' m)) "destructive"]).
Proof.
  intros email Hsrv Hfail Hbody Hmsg. subst email.
  destruct (login_refused (String c rest)
              (after w 0 [PreventDefault; SetLoading true]) r Hsrv Hfail)
    as [_ [Hlogin _]].
  specialize (Hlogin fields c' m Hbody Hmsg).
  unfold Auth.handleSubmit. unfold bind at 1. rewrite emit_after.
  cbn [Js.truthy negb String.eqb].
  unfold try_catch, UseAuth.login. unfold bind at 1. unfold bind at 1.
  rewrite emit_after, after_after.
  unfold try_finally, try_catch. unfold bind at 1.
  cbn [Nat.add app]. rewrite Hlogin. unfold throw.
  rewrite !emit_after, !after_after. reflexivity.
Qed.

End Session.

Lemma login_opens_session_witness :
  let h := Examples.host_of Examples.auth_server in
  let w' := {| Eff.authToken := Some "t0k3n"; Eff.requests := 1;
               Eff.trace := [Eff.Fetch (AuthService.login_request "ann@example.com")] |} in
  AuthService.login h "ann@example.com" (Eff.initial None) = (Eff.Returns (Js.VStr "t0k3n"), w')
  /\ AuthService.isAuthenticated w' = (Eff.Returns true, w')
  /\ ProductService.getAuthHeaders w'
     = (Eff.Returns [("Content-Type", "application/json");
                     ("Authorization", "Bearer t0k3n")], w').
Proof.
  apply (login_opens_session (Examples.host_of Examples.auth_server)
           "ann@example.com" (Eff.initial None)
           (Scenarios.answer 200 "OK" [] (Http.Json (Js.VObj [("token", Js.VStr "t0k3n")])))
           [("token", Js.VStr "t0k3n")] "t"%char "0k3n");
    reflexivity.
Defined.

Lemma login_refused_witness :
  let h := Examples.host_of Scenarios.denying_auth_server in
  let w := Eff.initial (Some "old") in
  AuthService.login h "ann@example.com" w
  = (Eff.Throws "Unknown email",
     Eff.after w 1 [Eff.Fetch (AuthService.login_request "ann@example.com")]).
Proof.
  destruct (login_refused (Examples.host_of Scenarios.denying_auth_server)
              "ann@example.com" (Eff.initial (Some "old"))
              (Scenarios.answer 403 "Forbidden" []
                 (Http.Json (Js.VObj [("message", Js.VStr "Unknown email")])))
              eq_refl eq_refl)
    as [_ [Hmessage _]].
  apply (Hmessage [("message", Js.VStr "Unknown email")] "U"%char "nknown email");
    reflexivity.
Defined.

Lemma handleSubmit_refused_witness :
  let w := Eff.initial None in
  Auth.handleSubmit (Examples.host_of Scenarios.denying_auth_server) "ann@example.com" w
  = (Eff.Returns tt,
     Eff.after w 1 [Eff.PreventDefault; Eff.SetLoading true;
                    Eff.Fetch (AuthService.login_request "ann@example.com");
                    Eff.SetLoading false;
                    Eff.Toast "Error" (Some "Unknown email") "destructive"]).
Proof.
  apply (handleSubmit_refused (Examples.host_of Scenarios.denying_auth_server)
           "a"%char "nn@example.com" (Eff.initial None)
           (Scenarios.answer 403 "Forbidden" []
              (Http.Json (Js.VObj [("message", Js.VStr "Unknown email")])))
           [("message", Js.VStr "Unknown email")] "U"%char "nknown email");
    reflexivity.
Defined.

Lemma no_request_after_expiry_witness :
  let h := Examples.host_of Scenarios.expired_server in
  let w' := snd (ProductService.getProducts h 1 0 9 None (ProductService.RcNum 0)
                   (Eff.initial (Some "t0k3n"))) in
  Eff.requests w' = 1%nat
  /\ ProductService.searchProducts h "lamp" w'
     = (Eff.Throws "No authentication token found", w')
  /\ ProductService.getCategories h None 0 10 w'
     = (Eff.Throws "No authentication token found", w')
  /\ ProductService.deleteProduct h "xyz" w'
     = (Eff.Throws "No authentication token found", w').
Proof.
  apply (no_request_after_expiry (Examples.host_of Scenarios.expired_server)
           0 9 None 0 (ProductService.RcNum 0) (Eff.initial (Some "t0k3n")) "t0k3n"
           (Scenarios.answer 401 "Unauthorized" []
              (Http.Json (Js.VObj [("message", Js.VStr "Token expired")])))
           "lamp" "xyz" None 0 10);
    reflexivity.
Defined.

(* ================================================================== *)
(** * Further properties of the catalog state container *)
(* ================================================================== *)

Section StoreInvariants.

Import ProductsSlice.

(** No action touches the page size. *)
Lemma reducer_itemsPerPage (state : ProductsState) (action : Action) :
  itemsPerPage (reducer state action) = itemsPerPage state.
Proof. destruct action; reflexivity. Qed.

Lemma run_itemsPerPage (actions : list Action) (state : ProductsState) :
  itemsPerPage (Store.run state actions) = itemsPerPage state.
Proof.
  unfold Store.run. revert state.
  induction actions as [|a actions IH]; intros state; [reflexivity|].
  cbn [fold_left]. rewrite IH. apply reducer_itemsPerPage.
Qed.

Lemma run_asynchronous (actions : list Action) (state : ProductsState) :
  forallb (fun a => negb (Store.navigates a)) actions = true ->
  currentPage (Store.run state actions) = currentPage state
  /\ searchQuery (Store.run state actions) = searchQuery state.
Proof.
  unfold Store.run. revert state.
  induction actions as [|a actions IH]; intros state Hall; [split; reflexivity|].
  cbn [forallb] in Hall. apply andb_prop in Hall. destruct Hall as [Ha Hall].
  cbn [fold_left]. destruct (IH (reducer state a) Hall) as [Hp Hq].
  rewrite Hp, Hq. destruct a; try discriminate; split; reflexivity.
Qed.

(** X14.  Whatever actions are dispatched, in any order and with any
    payloads, the page size of the store stays what it was, the 9 of the
    initial state, so the page count is always computed with a positive
    page size; and the actions of the asynchronous operations (all but
    [setSearchQuery] and [setCurrentPage]) never move the page or change
    the search text. *)
Theorem page_size_is_constant (actions : list Action) (state : ProductsState) :
  let asynchronous := List.filter (fun a => negb (Store.navigates a)) actions in
  itemsPerPage (Store.run state actions) = itemsPerPage state
  /\ itemsPerPage (Store.run initialState actions) = 9
  /\ currentPage (Store.run state asynchronous) = currentPage state
  /\ searchQuery (Store.run state asynchronous) = searchQuery state.
Proof.
  intros asynchronous.
  split; [apply run_itemsPerPage|].
  split; [rewrite run_itemsPerPage; reflexivity|].
  apply run_asynchronous. subst asynchronous.
  apply forallb_forall. intros a Ha. apply filter_In in Ha. apply Ha.
Qed.

End StoreInvariants.

(** ** Pagination *)

Section PaginationControls.

Import ProductsSlice.

(** A page of the catalogue starts inside it. *)
Lemma page_inside (t p page : Z) :
  0 < p -> 0 < t -> 1 <= page <= ProductsPage.totalPages t p ->
  0 <= (page - 1) * p < t.
Proof.
  intros Hp Ht [Hlo Hhi]. unfold ProductsPage.totalPages in Hhi.
  rewrite ceiling_quotient in Hhi by assumption.
  pose proof (ceiling_least t p Hp) as [Hk Hk'].
  remember (- (- t / p)) as k eqn:Ek. clear Ek.
  assert (Hone : 1 <= k) by nia.
  split; [nia|].
  assert (Hpage : page <= k) by lia.
  nia.
Qed.

Lemma pages_range (state : ProductsState) (page : Z) :
  In page (Pagination.pages state) <-> 1 <= page <= Pagination.totalPages state.
Proof.
  unfold Pagination.pages. rewrite in_map_iff. split.
  - intros [i [Hi Hin]]. apply in_seq in Hin. lia.
  - intros [Hlo Hhi]. exists (Z.to_nat (page - 1)). split; [lia|].
    apply in_seq. lia.
Qed.

(** X15.  The pagination controls keep the page in range.  In a state
    whose page size is positive and whose page lies in
    [1 .. totalPages], every action that a rendered control dispatches
    leaves the page in [1 .. totalPages] and the page count unchanged;
    and when the store holds a positive total, the offset of the next
    fetch lies inside the catalogue. *)
Theorem controls_keep_page_in_range (state : ProductsState) (action : Action) :
  0 < itemsPerPage state ->
  1 <= currentPage state <= Pagination.totalPages state ->
  In (Some action) (Pagination.controls state) ->
  let state' := reducer state action in
  Pagination.totalPages state' = Pagination.totalPages state
  /\ 1 <= currentPage state' <= Pagination.totalPages state'
  /\ 0 <= Store.offset state'
  /\ (0 < totalCount state -> Store.offset state' < totalCount state).
Proof.
  intros Hp Hrange Hin state'.
  assert (Hset : exists page, action = setCurrentPage page
                              /\ 1 <= page <= Pagination.totalPages state).
  { unfold Pagination.controls in Hin.
    destruct (loading state) eqn:Hl; [contradiction|].
    destruct (products state) as [|p ps]; [contradiction|].
    destruct (1 <? Pagination.totalPages state) eqn:Hmany; [|contradiction].
    apply Z.ltb_lt in Hmany.
    destruct Hin as [Hprev|Hin].
    - unfold Pagination.previous in Hprev. rewrite Hl in Hprev.
      injection Hprev as Hprev. eexists. split; [symmetry; exact Hprev|]. lia.
    - apply in_app_or in Hin. destruct Hin as [Hlink|[Hnext|[]]].
      + apply in_map_iff in Hlink. destruct Hlink as [page [Hlink Hpage]].
        unfold Pagination.link in Hlink. rewrite Hl in Hlink.
        injection Hlink as Hlink. exists page. split; [symmetry; exact Hlink|].
        apply pages_range. exact Hpage.
      + unfold Pagination.next in Hnext. rewrite Hl in Hnext.
        injection Hnext as Hnext. eexists. split; [symmetry; exact Hnext|]. lia. }
  destruct Hset as [page [-> Hpage]]. subst state'.
  unfold Pagination.totalPages, Store.offset in *. cbn [reducer totalCount itemsPerPage currentPage].
  split; [reflexivity|]. split; [exact Hpage|].
  split.
  - nia.
  - intros Ht. apply (page_inside (totalCount state) (itemsPerPage state) page Hp Ht Hpage).
Qed.

End PaginationControls.

Lemma controls_keep_page_in_range_witness :
  let state' := ProductsSlice.reducer Scenarios.page_two (ProductsSlice.setCurrentPage 3) in
  Pagination.totalPages state' = Pagination.totalPages Scenarios.page_two
  /\ 1 <= ProductsSlice.currentPage state' <= Pagination.totalPages state'
  /\ 0 <= Store.offset state'
  /\ (0 < ProductsSlice.totalCount Scenarios.page_two ->
      Store.offset state' < ProductsSlice.totalCount Scenarios.page_two).
Proof.
  apply (controls_keep_page_in_range Scenarios.page_two (ProductsSlice.setCurrentPage 3)).
  - reflexivity.
  - split; discriminate.
  - vm_compute. tauto.
Defined.

(** ** The [fetchProducts] thunk *)

Section Thunk.

Import Eff ProductService.

Variable h : Host.

(** X16.  With a search text in the store the thunk does not paginate:
    whatever the page and the page size, and without fuel, it issues the
    one search request; the total is the number of results, an answer that
    is not an array counts as no result, and a non-success status gives
    the fixed search error. *)
Theorem fetchProducts_search (fuel : nat) (state : ProductsSlice.ProductsState)
    (c : ascii) (q : string) (w : World) (t : string) (r : Http.Response) :
  ProductsSlice.searchQuery state = String c q ->
  authToken w = Some t ->
  Js.truthy_str (authToken w) = true ->
  server h (requests w) (Wording.search_request (String c q) t) = Http.Resolves r ->
  let w' := after w 1 [Fetch (Wording.search_request (String c q) t)] in
  (forall items,
     Http.ok r = true ->
     Http.payload r = Http.Json (Js.VArr items) ->
     ProductsSlice.fetchProducts h fuel state w
     = (Returns {| products := Js.VArr items;
                   total := Js.VNum (Js.of_nat (List.length items)) |}, w'))
  /\ (forall v,
        Http.ok r = true ->
        Http.payload r = Http.Json v ->
        Js.isArray v = false ->
        ProductsSlice.fetchProducts h fuel state w
        = (Returns {| products := Js.VArr []; total := Js.VNum (Js.of_Z 0) |}, w'))
  /\ (Http.ok r = false ->
      ProductsSlice.fetchProducts h fuel state w
      = (Throws "Failed to search products", w')).
Proof.
  intros Hq Ht Htruthy Hsrv w'. subst w'.
  assert (Hsearch :
            searchProducts h (String c q) w
            = (if negb (Http.ok r) then throw "Failed to search products" else json r)
                (after w 1 [Fetch (Wording.search_request (String c q) t)])).
  { unfold searchProducts. unfold bind at 1.
    rewrite (getAuthHeaders_present w t Ht Htruthy). unfold bind at 1.
    fold (Wording.search_request (String c q) t).
    rewrite (fetch_resolves h _ r w Hsrv). reflexivity. }
  split; [|split].
  - intros items Hok Hbody.
    unfold ProductsSlice.fetchProducts, try_catch. rewrite Hq.
    cbn [String.eqb negb]. unfold bind at 1. rewrite Hsearch, Hok.
    unfold json. rewrite Hbody. reflexivity.
  - intros v Hok Hbody Hv.
    unfold ProductsSlice.fetchProducts, try_catch. rewrite Hq.
    cbn [String.eqb negb]. unfold bind at 1. rewrite Hsearch, Hok.
    unfold json. rewrite Hbody. cbn [negb ret]. rewrite Hv. reflexivity.
  - intros Hfail.
    unfold ProductsSlice.fetchProducts, try_catch. rewrite Hq.
    cbn [String.eqb negb]. unfold bind at 1. rewrite Hsearch, Hfail.
    reflexivity.
Qed.

(** X17.  An answer to the list request that is an object with its items
    under [products] and no usable total (neither [total] nor
    [totalCount] in the body, no [x-total-count] header) is reported with
    total 0 by [getProducts]; the thunk replaces this 0 by the number of
    items on the page. *)
Theorem fetchProducts_counts_page (fuel : nat) (state : ProductsSlice.ProductsState)
    (w : World) (t : string) (r : Http.Response)
    (fields : list (string * Js.value)) (items : list Js.value) :
  ProductsSlice.searchQuery state = "" ->
  authToken w = Some t ->
  Js.truthy_str (authToken w) = true ->
  let req := products_request (Store.offset state) (ProductsSlice.itemsPerPage state)
               None t in
  server h (requests w) req = Http.Resolves r ->
  Http.ok r = true ->
  Http.header r "x-total-count" = None ->
  Http.payload r = Http.Json (Js.VObj fields) ->
  Js.lookup "products" fields = Js.VArr items ->
  Js.truthy (Js.lookup "total" fields) = false ->
  Js.truthy (Js.lookup "totalCount" fields) = false ->
  getProducts h (S fuel) (Store.offset state) (ProductsSlice.itemsPerPage state) None
    (RcNum 0) w
  = (Returns {| products := Js.VArr items; total := Js.VNum (Js.of_Z 0) |},
     after w 1 [Fetch req])
  /\ ProductsSlice.fetchProducts h (S fuel) state w
     = (Returns {| products := Js.VArr items;
                   total := Js.VNum (Js.of_nat (List.length items)) |},
        after w 1 [Fetch req]).
Proof.
  intros Hq Ht Htruthy req Hsrv Hok Hheader Hbody Hitems Htotal Hcount. subst req.
  assert (Hlist :
            getProducts h (S fuel) (Store.offset state)
              (ProductsSlice.itemsPerPage state) None (RcNum 0) w
            = (Returns {| products := Js.VArr items; total := Js.VNum (Js.of_Z 0) |},
               after w 1 [Fetch (products_request (Store.offset state)
                                   (ProductsSlice.itemsPerPage state) None t)])).
  { rewrite getProducts_unfold. unfold bind at 1, try_catch, getProducts_try, bind.
    rewrite (getAuthHeaders_present w t Ht Htruthy).
    fold (products_request (Store.offset state) (ProductsSlice.itemsPerPage state) None t).
    rewrite (fetch_resolves h _ r w Hsrv).
    rewrite (ok_not_429 r Hok), Hok. cbn [negb].
    unfold json. rewrite Hbody, Hheader. cbn [ret get Js.truthy_str].
    unfold Js.or. rewrite Hitems, Htotal, Hcount. reflexivity. }
  split; [exact Hlist|].
  unfold ProductsSlice.fetchProducts, try_catch. rewrite Hq.
  cbn [String.eqb negb]. unfold bind at 1.
  fold (Store.offset state). rewrite Hlist.
  cbn [products total]. unfold Js.or, ProductsSlice.length_prop, bind, ret.
  cbn [Js.truthy]. destruct items; reflexivity.
Qed.

End Thunk.

Lemma fetchProducts_search_witness :
  let w := Eff.initial (Some "t0k3n") in
  ProductsSlice.fetchProducts (Examples.host_of Examples.five_server) 0
    Scenarios.searching w
  = (Eff.Returns
       {| ProductService.products :=
            Js.VArr [Examples.product_json "p1" "Lamp"; Examples.product_json "p2" "Desk";
                     Examples.product_json "p3" "Chair"; Examples.product_json "p4" "Shelf";
                     Examples.product_json "p5" "Rug"];
          ProductService.total := Js.VNum (Js.of_Z 5) |},
     Eff.after w 1 [Eff.Fetch (Wording.search_request "lamp" "t0k3n")]).
Proof.
  destruct (fetchProducts_search (Examples.host_of Examples.five_server) 0
              Scenarios.searching "l"%char "amp" (Eff.initial (Some "t0k3n")) "t0k3n"
              (Scenarios.answer 200 "OK" []
                 (Http.Json (Js.VArr [Examples.product_json "p1" "Lamp";
                                      Examples.product_json "p2" "Desk";
                                      Examples.product_json "p3" "Chair";
                                      Examples.product_json "p4" "Shelf";
                                      Examples.product_json "p5" "Rug"])))
              eq_refl eq_refl eq_refl eq_refl)
    as [Hfound _].
  apply Hfound; reflexivity.
Defined.

Lemma fetchProducts_counts_page_witness :
  let w := Eff.initial (Some "t0k3n") in
  let items := [Examples.product_json "p1" "Lamp"; Examples.product_json "p2" "Desk"] in
  ProductService.getProducts (Examples.host_of Scenarios.bare_object_server) 1 9 9 None
    (ProductService.RcNum 0) w
  = (Eff.Returns {| ProductService.products := Js.VArr items;
                    ProductService.total := Js.VNum (Js.of_Z 0) |},
     Eff.after w 1 [Eff.Fetch (ProductService.products_request 9 9 None "t0k3n")])
  /\ ProductsSlice.fetchProducts (Examples.host_of Scenarios.bare_object_server) 1
       Scenarios.page_two w
     = (Eff.Returns {| ProductService.products := Js.VArr items;
                       ProductService.total := Js.VNum (Js.of_Z 2) |},
        Eff.after w 1 [Eff.Fetch (ProductService.products_request 9 9 None "t0k3n")]).
Proof.
  apply (fetchProducts_counts_page (Examples.host_of Scenarios.bare_object_server) 0
           Scenarios.page_two (Eff.initial (Some "t0k3n")) "t0k3n"
           (Scenarios.answer 200 "OK" []
              (Http.Json (Js.VObj
                 [("products", Js.VArr [Examples.product_json "p1" "Lamp";
                                        Examples.product_json "p2" "Desk"])])))
           [("products", Js.VArr [Examples.product_json "p1" "Lamp";
                                  Examples.product_json "p2" "Desk"])]
           [Examples.product_json "p1" "Lamp"; Examples.product_json "p2" "Desk"]);
    reflexivity.
Defined.

(* ================================================================== *)
(** * Properties of the view layer *)
(* ================================================================== *)

(** ** The services do not read their trace *)

Section Framing.

Import Eff Frame.

Lemma framed_ret {A} (a : A) : framed (ret a).
Proof. intros w. unfold relocate, ret. cbn. rewrite app_nil_r. destruct w; reflexivity. Qed.

Lemma framed_throw {A} (e : string) : framed (@throw A e).
Proof. intros w. unfold relocate, throw. cbn. rewrite app_nil_r. destruct w; reflexivity. Qed.

Lemma framed_out_of_fuel {A} : framed (@out_of_fuel A).
Proof.
  intros w. unfold relocate, out_of_fuel. cbn. rewrite app_nil_r. destruct w; reflexivity.
Qed.

Lemma framed_emit (e : Event) : framed (emit e).
Proof. intros w. reflexivity. Qed.

Lemma framed_getItem : framed getItem.
Proof. intros w. unfold relocate, getItem. cbn. rewrite app_nil_r. destruct w; reflexivity. Qed.

Lemma framed_setItem (v : string) : framed (setItem v).
Proof. intros w. unfold relocate, setItem. cbn. rewrite app_nil_r. reflexivity. Qed.

Lemma framed_removeItem : framed removeItem.
Proof. intros w. unfold relocate, removeItem. cbn. rewrite app_nil_r. reflexivity. Qed.

Lemma framed_fetch (h : Host) (req : Http.Request) : framed (fetch h req).
Proof.
  intros w. unfold relocate, fetch. cbn [blank requests authToken trace].
  destruct (server h (requests w) req); reflexivity.
Qed.

Lemma blank_relocated (w w0 : World) :
  blank {| authToken := authToken w0; requests := requests w0;
           trace := trace w ++ trace w0 |} = blank w0.
Proof. reflexivity. Qed.

Lemma framed_bind {A B} (m : M A) (k : A -> M B) :
  framed m -> (forall a, framed (k a)) -> framed (bind m k).
Proof.
  intros Hm Hk w. unfold bind. rewrite (Hm w).
  destruct (m (blank w)) as [[a|e|] w0]; unfold relocate at 1; cbn [fst snd].
  - rewrite (Hk a). rewrite blank_relocated. rewrite (Hk a w0).
    unfold relocate. cbn [fst snd authToken requests trace].
    rewrite app_assoc. reflexivity.
  - reflexivity.
  - reflexivity.
Qed.

Lemma framed_try_catch {A} (m : M A) (handler : string -> M A) :
  framed m -> (forall e, framed (handler e)) -> framed (try_catch m handler).
Proof.
  intros Hm Hh w. unfold try_catch. rewrite (Hm w).
  destruct (m (blank w)) as [[a|e|] w0]; unfold relocate at 1; cbn [fst snd].
  - reflexivity.
  - rewrite (Hh e). rewrite blank_relocated. rewrite (Hh e w0).
    unfold relocate. cbn [fst snd authToken requests trace].
    rewrite app_assoc. reflexivity.
  - reflexivity.
Qed.

Lemma framed_json (r : Http.Response) : framed (json r).
Proof. unfold json. destruct (Http.payload r); [apply framed_ret | apply framed_throw]. Qed.

Lemma framed_get (h : Host) (v : Js.value) (p : string) : framed (get h v p).
Proof. unfold get. destruct v; first [apply framed_ret | apply framed_throw]. Qed.

Lemma framed_getAuthHeaders : framed ProductService.getAuthHeaders.
Proof.
  unfold ProductService.getAuthHeaders. apply framed_bind; [apply framed_getItem|].
  intros token. destruct (negb (Js.truthy_str token));
    [apply framed_throw | apply framed_ret].
Qed.

End Framing.

Create HintDb framed discriminated.

#[local] Hint Resolve framed_ret framed_throw framed_out_of_fuel framed_emit
  framed_getItem framed_setItem framed_removeItem framed_fetch framed_json
  framed_get framed_getAuthHeaders : framed.

(** Splits a service into its statements, down to the primitives. *)
Ltac framing :=
  repeat first
    [ solve [auto with framed]
    | apply framed_ret
    | apply framed_throw
    | apply framed_bind
    | apply framed_try_catch
    | match goal with
      | |- Frame.framed (if ?b then _ else _) => destruct b
      | |- Frame.framed (match ?x with _ => _ end) => destruct x
      end
    | progress cbv zeta
    | lazymatch goal with
      | |- Frame.framed _ => fail
      | |- _ => intro
      end ].

Section FramedServices.

Import Eff Frame.

Variable h : Host.

Lemma framed_getProducts (fuel : nat) (offset limit : Z) (categoryId : option string)
    (retryCount : ProductService.RetryCount) :
  framed (ProductService.getProducts h fuel offset limit categoryId retryCount).
Proof.
  revert retryCount. induction fuel as [|fuel IH]; intros retryCount.
  - apply framed_out_of_fuel.
  - rewrite getProducts_unfold. apply framed_bind.
    + unfold ProductService.getProducts_try, ProductService.getProducts_catch,
        AuthService.logout, sleep.
      framing.
    + intros [r|]; [apply framed_ret | apply IH].
Qed.

Lemma framed_deleteProduct (id : string) : framed (ProductService.deleteProduct h id).
Proof. unfold ProductService.deleteProduct. framing. Qed.

Lemma framed_getProduct (fuel : nat) (identifier : string) :
  framed (ProductService.getProduct h fuel identifier).
Proof.
  unfold ProductService.getProduct.
  apply framed_try_catch; [|framing].
  apply framed_bind; [framing|]. intros headers.
  apply framed_bind; [framing|]. intros response.
  destruct (Http.ok response); [framing|].
  apply framed_bind; [apply framed_getProducts|]. framing.
Qed.

Lemma framed_searchProducts (query : string) :
  framed (ProductService.searchProducts h query).
Proof. unfold ProductService.searchProducts. framing. Qed.

Lemma framed_fetchProducts (fuel : nat) (state : ProductsSlice.ProductsState) :
  framed (ProductsSlice.fetchProducts h fuel state).
Proof.
  unfold ProductsSlice.fetchProducts, ProductsSlice.length_prop.
  apply framed_try_catch; [|framing].
  destruct (negb (ProductsSlice.searchQuery state =? "")%string).
  - apply framed_bind; [apply framed_searchProducts|]. framing.
  - apply framed_bind; [apply framed_getProducts|]. framing.
Qed.

Lemma framed_thunk_deleteProduct (id : string) : framed (Thunks.deleteProduct h id).
Proof.
  unfold Thunks.deleteProduct.
  apply framed_try_catch; [|framing].
  apply framed_bind; [apply framed_deleteProduct|]. framing.
Qed.

(** What [Ui.lift] does to a framed service is what the service does: the
    outcome is the same, and the log is the trace. *)
Lemma lift_is_the_service {S A} (m : M A) (s : S) (w : World) :
  framed m ->
  Ui.lift m {| Ui.local := s; Ui.authToken := authToken w;
               Ui.requests := requests w;
               Ui.log := List.map Ui.Effect (trace w) |}
  = (fst (m w),
     {| Ui.local := s; Ui.authToken := authToken (snd (m w));
        Ui.requests := requests (snd (m w));
        Ui.log := List.map Ui.Effect (trace (snd (m w))) |}).
Proof.
  intros Hm. unfold Ui.lift, Ui.browser. cbn [Ui.authToken Ui.requests Ui.local Ui.log].
  rewrite (Hm w). fold (blank w).
  destruct (m (blank w)) as [o w0]. unfold relocate. cbn [fst snd authToken requests trace].
  rewrite map_app. reflexivity.
Qed.

End FramedServices.

Section DeletingFromTheList.

Import ProductsScreen.

Variable h : Host.
Variable fuel : nat.
Variable typed : ProductService.ProductsResult -> ProductsSlice.ProductsResponse.

(** A refused deletion, whatever the body of the answer says. *)
Lemma deleteProduct_refused (id : string) (w : Eff.World) (t : string)
    (r : Http.Response) :
  Eff.authToken w = Some t ->
  Js.truthy_str (Eff.authToken w) = true ->
  server h (Eff.requests w) (Wording.delete_request id t) = Http.Resolves r ->
  Http.ok r = false ->
  exists m,
    ProductService.deleteProduct h id w
    = (Eff.Throws m, Eff.after w 1 [Eff.Fetch (Wording.delete_request id t)]).
Proof.
  intros Ht Htruthy Hsrv Hfail.
  rewrite (deleteProduct_fetches h id w t r Ht Htruthy Hsrv). rewrite Hfail.
  unfold Eff.try_catch, Eff.bind, Eff.get, ProductService.json_or_empty.
  cbn [negb]. destruct (Http.payload r) as [v|e].
  - destruct v; eexists; reflexivity.
  - eexists; reflexivity.
Qed.

Lemma thunk_refused (id : string) (w : Eff.World) (t : string) (r : Http.Response) :
  Eff.authToken w = Some t ->
  Js.truthy_str (Eff.authToken w) = true ->
  server h (Eff.requests w) (Wording.delete_request id t) = Http.Resolves r ->
  Http.ok r = false ->
  exists m,
    Thunks.deleteProduct h id w
    = (Eff.Returns (Thunks.Rejected m),
       Eff.after w 1 [Eff.Fetch (Wording.delete_request id t)]).
Proof.
  intros Ht Htruthy Hsrv Hfail.
  destruct (deleteProduct_refused id w t r Ht Htruthy Hsrv Hfail) as [m Hm].
  exists m. unfold Thunks.deleteProduct, Eff.try_catch, Eff.bind. rewrite Hm.
  reflexivity.
Qed.

(** [handleDelete] when the server refuses the deletion. *)
Lemma handleDelete_on_refusal (id : string) (u : Ui.World Screen) (t : string)
    (r : Http.Response) :
  Ui.authToken u = Some t ->
  Js.truthy_str (Ui.authToken u) = true ->
  isDeleting (Ui.local u) = false ->
  server h (Ui.requests u) (Wording.delete_request id t) = Http.Resolves r ->
  Http.ok r = false ->
  handleDelete h fuel typed id u
  = (Eff.Returns tt,
     {| Ui.local := {| store := store (Ui.local u); isDeleting := false;
                       isLoading := isLoading (Ui.local u);
                       showDeleteDialog := showDeleteDialog (Ui.local u) |};
        Ui.authToken := Ui.authToken u;
        Ui.requests := S (Ui.requests u);
        Ui.log := Ui.log u
                  ++ [Ui.Effect (Eff.Fetch (Wording.delete_request id t));
                      Ui.Notify "Error" (Some "Failed to delete product")
                        (Some "destructive")] |}).
Proof.
  intros Ht Htruthy Hidle Hsrv Hfail.
  destruct (thunk_refused id (Ui.browser u) t r Ht Htruthy Hsrv Hfail) as [m Hm].
  unfold handleDelete, Ui.bind at 1, Ui.read. rewrite Hidle.
  unfold Ui.try_finally, Ui.try_catch, setIsDeleting, dispatch_deleteProduct.
  unfold Ui.bind at 1. unfold Ui.write at 1. unfold Ui.bind at 1.
  unfold Ui.bind at 1, Ui.lift. unfold Ui.browser in *.
  cbn [Ui.authToken Ui.requests Ui.local Ui.log]. rewrite Hm.
  unfold Ui.bind, Ui.unwrap, Ui.throw, Ui.toast, Ui.ret.
  cbn [Ui.ret Ui.unwrap Ui.throw Ui.toast Ui.write Eff.after Eff.trace
       Eff.authToken Eff.requests Ui.browser app map Nat.add
       Ui.authToken Ui.requests Ui.local Ui.log
       store isDeleting isLoading showDeleteDialog].
  rewrite <- app_assoc. reflexivity.
Qed.

(** X18.  A refused deletion on the products page leaves the store as
    it was: the page issues the one DELETE request, shows its fixed error
    text (the server's message is not shown), lowers its [isDeleting]
    flag, does not re-fetch the list, and the handler itself returns
    normally. *)
Theorem handleDelete_refused (id : string) (u : Ui.World Screen) (t : string)
    (r : Http.Response) :
  Ui.authToken u = Some t ->
  Js.truthy_str (Ui.authToken u) = true ->
  isDeleting (Ui.local u) = false ->
  server h (Ui.requests u) (Wording.delete_request id t) = Http.Resolves r ->
  Http.ok r = false ->
  handleDelete h fuel typed id u
  = (Eff.Returns tt,
     {| Ui.local := {| store := store (Ui.local u); isDeleting := false;
                       isLoading := isLoading (Ui.local u);
                       showDeleteDialog := showDeleteDialog (Ui.local u) |};
        Ui.authToken := Ui.authToken u;
        Ui.requests := S (Ui.requests u);
        Ui.log := Ui.log u
                  ++ [Ui.Effect (Eff.Fetch (Wording.delete_request id t));
                      Ui.Notify "Error" (Some "Failed to delete product")
                        (Some "destructive")] |}).
Proof. exact (handleDelete_on_refusal id u t r). Qed.

(** X19.  The card reports success whatever happened.  The handler that
    the page passes down catches its own errors, so the card's error
    branch is never taken: after a refused deletion the error toast of the
    page is followed by the card's "Product deleted successfully!", and
    while another deletion is in progress the card shows this toast
    although no request was made. *)
Theorem handleDeleteClick_always_reports_success (product : Product.t)
    (u : Ui.World Screen) :
  (forall t r,
     Ui.authToken u = Some t ->
     Js.truthy_str (Ui.authToken u) = true ->
     isDeleting (Ui.local u) = false ->
     server h (Ui.requests u) (Wording.delete_request (Product.id product) t)
     = Http.Resolves r ->
     Http.ok r = false ->
     handleDeleteClick (handleDelete h fuel typed) product u
     = (Eff.Returns tt,
        {| Ui.local := {| store := store (Ui.local u); isDeleting := false;
                          isLoading := false; showDeleteDialog := false |};
           Ui.authToken := Ui.authToken u;
           Ui.requests := S (Ui.requests u);
           Ui.log := Ui.log u
                     ++ [Ui.Effect (Eff.Fetch
                                      (Wording.delete_request (Product.id product) t));
                         Ui.Notify "Error" (Some "Failed to delete product")
                           (Some "destructive");
                         Ui.Notify "Product deleted successfully!" None
                           (Some "default")] |}))
  /\ (isDeleting (Ui.local u) = true ->
      handleDeleteClick (handleDelete h fuel typed) product u
      = (Eff.Returns tt,
         {| Ui.local := {| store := store (Ui.local u); isDeleting := true;
                           isLoading := false; showDeleteDialog := false |};
            Ui.authToken := Ui.authToken u;
            Ui.requests := Ui.requests u;
            Ui.log := Ui.log u
                      ++ [Ui.Notify "Product deleted successfully!" None
                            (Some "default")] |})).
Proof.
  split.
  - intros t r Ht Htruthy Hidle Hsrv Hfail.
    unfold handleDeleteClick, Ui.try_finally, Ui.try_catch.
    unfold Ui.bind at 1. unfold setIsLoading at 1. unfold Ui.write at 1.
    unfold Ui.bind at 1.
    erewrite handleDelete_on_refusal;
      [ | exact Ht | exact Htruthy | exact Hidle | exact Hsrv | exact Hfail ].
    unfold Ui.toast, Ui.bind, setIsLoading, setShowDeleteDialog, Ui.write.
    cbn [Ui.authToken Ui.requests Ui.local Ui.log
         store isDeleting isLoading showDeleteDialog].
    rewrite <- app_assoc. reflexivity.
  - intros Hbusy.
    unfold handleDeleteClick, Ui.try_finally, Ui.try_catch.
    unfold Ui.bind at 1. unfold setIsLoading at 1. unfold Ui.write at 1.
    unfold Ui.bind at 1. unfold handleDelete. unfold Ui.bind at 1. unfold Ui.read.
    cbn [Ui.local isDeleting]. rewrite Hbusy.
    unfold Ui.toast, Ui.bind, Ui.ret, setIsLoading, setShowDeleteDialog, Ui.write.
    cbn [Ui.authToken Ui.requests Ui.local Ui.log
         store isDeleting isLoading showDeleteDialog].
    reflexivity.
Qed.

(** The thunks behind a deletion that the server accepts. *)
Lemma thunk_accepted (id : string) (w : Eff.World) (t : string) (r : Http.Response)
    (fields : list (string * Js.value)) :
  Eff.authToken w = Some t ->
  Js.truthy_str (Eff.authToken w) = true ->
  server h (Eff.requests w) (Wording.delete_request id t) = Http.Resolves r ->
  Http.ok r = true ->
  Http.payload r = Http.Json (Js.VObj fields) ->
  Thunks.deleteProduct h id w
  = (Eff.Returns (Thunks.Fulfilled id),
     Eff.after w 1 [Eff.Fetch (Wording.delete_request id t)]).
Proof.
  intros Ht Htruthy Hsrv Hok Hbody.
  unfold Thunks.deleteProduct, Eff.try_catch. unfold Eff.bind at 1.
  rewrite (deleteProduct_fetches h id w t r Ht Htruthy Hsrv). rewrite Hok.
  unfold Eff.try_catch, Eff.bind, Eff.json, Eff.get. rewrite Hbody. reflexivity.
Qed.

Lemma thunk_page (fuel' : nat) (state : ProductsSlice.ProductsState) (w : Eff.World)
    (t : string) (r : Http.Response) (items : list Js.value) :
  ProductsSlice.searchQuery state = "" ->
  Eff.authToken w = Some t ->
  Js.truthy_str (Eff.authToken w) = true ->
  server h (Eff.requests w)
    (ProductService.products_request (Store.offset state)
       (ProductsSlice.itemsPerPage state) None t) = Http.Resolves r ->
  Http.ok r = true ->
  Http.payload r = Http.Json (Js.VArr items) ->
  ProductsSlice.fetchProducts h (S fuel') state w
  = (Eff.Returns (Thunks.page_of r items),
     Eff.after w 1
       [Eff.Fetch (ProductService.products_request (Store.offset state)
                     (ProductsSlice.itemsPerPage state) None t)]).
Proof.
  intros Hq Ht Htruthy Hsrv Hok Hbody.
  unfold ProductsSlice.fetchProducts, Eff.try_catch. rewrite Hq.
  cbn [String.eqb negb]. unfold Eff.bind at 1. fold (Store.offset state).
  rewrite (getProducts_array h fuel' _ _ None (ProductService.RcNum 0) w t r items
             Ht Htruthy Hsrv Hok Hbody).
  cbn [ProductService.products ProductService.total].
  unfold Js.or at 1. cbn [Js.truthy].
  unfold ProductsSlice.length_prop, Eff.bind, Eff.ret, Thunks.page_of.
  unfold Js.or at 2. cbn [Js.truthy]. reflexivity.
Qed.

(** X20.  An accepted deletion on the products page is followed by a
    re-fetch of the current page: after the DELETE request and the success
    toast the page asks for the window of the store's page again, and the
    store ends up with the items and the total of that answer in place of
    the locally shortened list, with the loading and deleting flags
    lowered. *)
Theorem handleDelete_refetches (fuel' : nat) (id : string) (u : Ui.World Screen)
    (t : string) (r1 r2 : Http.Response) (fields : list (string * Js.value))
    (items : list Js.value) :
  let state := store (Ui.local u) in
  let list := ProductService.products_request (Store.offset state)
                (ProductsSlice.itemsPerPage state) None t in
  Ui.authToken u = Some t ->
  Js.truthy_str (Ui.authToken u) = true ->
  isDeleting (Ui.local u) = false ->
  ProductsSlice.searchQuery state = "" ->
  server h (Ui.requests u) (Wording.delete_request id t) = Http.Resolves r1 ->
  Http.ok r1 = true ->
  Http.payload r1 = Http.Json (Js.VObj fields) ->
  server h (S (Ui.requests u)) list = Http.Resolves r2 ->
  Http.ok r2 = true ->
  Http.payload r2 = Http.Json (Js.VArr items) ->
  handleDelete h (S fuel') typed id u
  = (Eff.Returns tt,
     {| Ui.local :=
          {| store :=
               {| ProductsSlice.products :=
                    ProductsSlice.payload_products (typed (Thunks.page_of r2 items));
                  ProductsSlice.categoriesOf := ProductsSlice.categoriesOf state;
                  ProductsSlice.loading := false;
                  ProductsSlice.error := None;
                  ProductsSlice.currentPage := ProductsSlice.currentPage state;
                  ProductsSlice.itemsPerPage := ProductsSlice.itemsPerPage state;
                  ProductsSlice.searchQuery := ProductsSlice.searchQuery state;
                  ProductsSlice.totalCount :=
                    ProductsSlice.payload_total (typed (Thunks.page_of r2 items)) |};
             isDeleting := false;
             isLoading := isLoading (Ui.local u);
             showDeleteDialog := showDeleteDialog (Ui.local u) |};
        Ui.authToken := Ui.authToken u;
        Ui.requests := S (S (Ui.requests u));
        Ui.log := Ui.log u
                  ++ [Ui.Effect (Eff.Fetch (Wording.delete_request id t));
                      Ui.Notify "Success" (Some "Product deleted successfully") None;
                      Ui.Effect (Eff.Fetch list)] |}).
Proof.
  intros state list Ht Htruthy Hidle Hq Hdel Hok1 Hbody1 Hlist Hok2 Hbody2.
  subst state list.
  pose proof (thunk_accepted id (Ui.browser u) t r1 fields Ht Htruthy Hdel Hok1 Hbody1)
    as Hthunk.
  unfold handleDelete, Ui.bind at 1, Ui.read. rewrite Hidle.
  unfold Ui.try_finally, Ui.try_catch, setIsDeleting, dispatch_deleteProduct.
  unfold Ui.bind at 1. unfold Ui.write at 1. unfold Ui.bind at 1.
  unfold Ui.bind at 1, Ui.lift. unfold Ui.browser in *.
  cbn [Ui.authToken Ui.requests Ui.local Ui.log]. rewrite Hthunk.
  unfold Ui.bind at 1. unfold dispatch at 1, Ui.write at 1, Ui.ret at 1.
  unfold Ui.bind at 1. unfold Ui.unwrap, Ui.ret at 1.
  unfold Ui.bind at 1. unfold Ui.toast at 1.
  unfold dispatch_fetchProducts. unfold Ui.bind at 1.
  unfold dispatch at 1, Ui.write at 1. unfold Ui.bind at 1. unfold Ui.read.
  unfold Ui.try_catch, Ui.bind at 1, Ui.lift, Ui.browser.
  cbn [Ui.authToken Ui.requests Ui.local Ui.log store isDeleting isLoading
       showDeleteDialog Eff.after Eff.authToken Eff.requests Eff.trace Nat.add].
  erewrite thunk_page;
    [ | exact Hq | exact Ht | exact Htruthy | exact Hlist | exact Hok2 | exact Hbody2 ].
  unfold dispatch, Ui.write.
  cbn [Ui.authToken Ui.requests Ui.local Ui.log store isDeleting isLoading
       showDeleteDialog Eff.after Eff.authToken Eff.requests Eff.trace Nat.add
       app map ProductsSlice.reducer ProductsSlice.products
       ProductsSlice.categoriesOf ProductsSlice.loading ProductsSlice.error
       ProductsSlice.currentPage ProductsSlice.itemsPerPage
       ProductsSlice.searchQuery ProductsSlice.totalCount].
  rewrite <- !app_assoc. reflexivity.
Qed.

End DeletingFromTheList.

Lemma handleDelete_refused_witness :
  let u := Ui.start Scenarios.screen (Some "t0k3n") in
  ProductsScreen.handleDelete (Examples.host_of Examples.refusing_server) 4
    Scenarios.counted "j" u
  = (Eff.Returns tt,
     {| Ui.local := Scenarios.screen;
        Ui.authToken := Some "t0k3n";
        Ui.requests := 1;
        Ui.log := [Ui.Effect (Eff.Fetch (Wording.delete_request "j" "t0k3n"));
                   Ui.Notify "Error" (Some "Failed to delete product")
                     (Some "destructive")] |}).
Proof.
  apply (handleDelete_refused (Examples.host_of Examples.refusing_server) 4
           Scenarios.counted "j" (Ui.start Scenarios.screen (Some "t0k3n")) "t0k3n"
           (Scenarios.answer 400 "Bad Request" []
              (Http.Json (Js.VObj [("message", Js.VStr "Name already exists")]))));
    reflexivity.
Defined.

Lemma handleDeleteClick_always_reports_success_witness :
  let u := Ui.start Scenarios.screen (Some "t0k3n") in
  ProductsScreen.handleDeleteClick
    (ProductsScreen.handleDelete (Examples.host_of Examples.refusing_server) 4
       Scenarios.counted)
    (Examples.lamp "j") u
  = (Eff.Returns tt,
     {| Ui.local :=
          {| ProductsScreen.store := Scenarios.page_two;
             ProductsScreen.isDeleting := false; ProductsScreen.isLoading := false;
             ProductsScreen.showDeleteDialog := false |};
        Ui.authToken := Some "t0k3n";
        Ui.requests := 1;
        Ui.log := [Ui.Effect (Eff.Fetch (Wording.delete_request "j" "t0k3n"));
                   Ui.Notify "Error" (Some "Failed to delete product")
                     (Some "destructive");
                   Ui.Notify "Product deleted successfully!" None (Some "default")] |}).
Proof.
  destruct (handleDeleteClick_always_reports_success
              (Examples.host_of Examples.refusing_server) 4 Scenarios.counted
              (Examples.lamp "j") (Ui.start Scenarios.screen (Some "t0k3n")))
    as [Hrefused _].
  apply (Hrefused "t0k3n"
           (Scenarios.answer 400 "Bad Request" []
              (Http.Json (Js.VObj [("message", Js.VStr "Name already exists")]))));
    reflexivity.
Defined.

Lemma handleDelete_refetches_witness :
  let u := Ui.start Scenarios.screen (Some "t0k3n") in
  let typed := Scenarios.counted in
  ProductsScreen.handleDelete (Examples.host_of Examples.xyz_server) 1 typed "xyz" u
  = (Eff.Returns tt,
     {| Ui.local :=
          {| ProductsScreen.store :=
               {| ProductsSlice.products := [Examples.lamp "?"];
                  ProductsSlice.categoriesOf := None;
                  ProductsSlice.loading := false;
                  ProductsSlice.error := None;
                  ProductsSlice.currentPage := 2;
                  ProductsSlice.itemsPerPage := 9;
                  ProductsSlice.searchQuery := "";
                  ProductsSlice.totalCount := 1 |};
             ProductsScreen.isDeleting := false;
             ProductsScreen.isLoading := false;
             ProductsScreen.showDeleteDialog := true |};
        Ui.authToken := Some "t0k3n";
        Ui.requests := 2;
        Ui.log := [Ui.Effect (Eff.Fetch (Wording.delete_request "xyz" "t0k3n"));
                   Ui.Notify "Success" (Some "Product deleted successfully") None;
                   Ui.Effect (Eff.Fetch (ProductService.products_request 9 9 None "t0k3n"))] |}).
Proof.
  apply (handleDelete_refetches (Examples.host_of Examples.xyz_server)
           Scenarios.counted 0 "xyz" (Ui.start Scenarios.screen (Some "t0k3n")) "t0k3n"
           (Scenarios.answer 200 "OK" [] (Http.Json (Examples.product_json "xyz" "Lamp")))
           (Scenarios.answer 200 "OK" []
              (Http.Json (Js.VArr [Examples.product_json "xyz" "Lamp"])))
           [("id", Js.VStr "xyz"); ("name", Js.VStr "Lamp");
            ("price", Js.VNum (Js.Num (1999 # 100)))]
           [Examples.product_json "xyz" "Lamp"]);
    reflexivity.
Defined.

(** ** The detail page *)

Section Gallery.

Import ProductDetail.

(** X21.  The picture index of the detail page moves in a circle.  With
    [n > 0] pictures and an index in [0 .. n-1], [nextImage] and
    [prevImage] keep the index in this range and undo each other; the step
    after the last picture is the first and the step before the first is
    the last.  Without a product or without pictures both leave the index
    alone. *)
Theorem gallery_is_cyclic (s : State) (p : Product.t) :
  product s = Some p ->
  let n := Z.of_nat (List.length (Product.images p)) in
  0 <= selectedImage s < n ->
  0 <= selectedImage (nextImage s) < n
  /\ 0 <= selectedImage (prevImage s) < n
  /\ selectedImage (prevImage (nextImage s)) = selectedImage s
  /\ selectedImage (nextImage (prevImage s)) = selectedImage s
  /\ (selectedImage s = n - 1 -> selectedImage (nextImage s) = 0)
  /\ (selectedImage s = 0 -> selectedImage (prevImage s) = n - 1)
  /\ (forall s', imageCount s' = None \/ imageCount s' = Some 0 ->
        selectedImage (nextImage s') = selectedImage s'
        /\ selectedImage (prevImage s') = selectedImage s').
Proof.
  intros Hp n Hrange.
  assert (Hn : (n =? 0) = false) by (apply Z.eqb_neq; lia).
  unfold nextImage, prevImage, setSelectedImage, imageCount.
  cbn [product selectedImage]. rewrite Hp. fold n. rewrite Hn.
  set (i := selectedImage s) in *.
  assert (Hnext : Z.rem (i + 1) n = (i + 1) mod n)
    by (apply Z.rem_mod_nonneg; lia).
  assert (Hprev : Z.rem (i - 1 + n) n = (i - 1 + n) mod n)
    by (apply Z.rem_mod_nonneg; lia).
  rewrite Hnext, Hprev.
  assert (Hn1 : 0 <= (i + 1) mod n < n) by (apply Z.mod_pos_bound; lia).
  assert (Hp1 : 0 <= (i - 1 + n) mod n < n) by (apply Z.mod_pos_bound; lia).
  assert (Hback : Z.rem ((i + 1) mod n - 1 + n) n = i).
  { rewrite Z.rem_mod_nonneg by lia.
    destruct (Z.eq_dec (i + 1) n) as [E|E].
    - rewrite E, Z.mod_same by lia.
      replace (0 - 1 + n) with (n - 1) by lia. rewrite Z.mod_small by lia. lia.
    - rewrite (Z.mod_small (i + 1) n) by lia.
      replace (i + 1 - 1 + n) with (i + 1 * n) by lia.
      rewrite Z.mod_add by lia. apply Z.mod_small. lia. }
  assert (Hforth : Z.rem ((i - 1 + n) mod n + 1) n = i).
  { rewrite Z.rem_mod_nonneg by lia.
    destruct (Z.eq_dec i 0) as [E|E].
    - rewrite E. replace (0 - 1 + n) with (n - 1) by lia.
      rewrite (Z.mod_small (n - 1) n) by lia.
      replace (n - 1 + 1) with n by lia. apply Z.mod_same. lia.
    - replace (i - 1 + n) with (i - 1 + 1 * n) by lia.
      rewrite Z.mod_add by lia. rewrite (Z.mod_small (i - 1) n) by lia.
      replace (i - 1 + 1) with i by lia. apply Z.mod_small. lia. }
  split; [exact Hn1|]. split; [exact Hp1|].
  split; [exact Hback|]. split; [exact Hforth|].
  split.
  { intros Hlast. replace (i + 1) with n by lia. apply Z.mod_same. lia. }
  split.
  { intros Hfirst. rewrite Hfirst. replace (0 - 1 + n) with (n - 1) by lia.
    apply Z.mod_small. lia. }
  intros s' [Hnone|Hzero]; unfold imageCount in *;
    destruct (product s') as [p'|]; try discriminate.
  - split; reflexivity.
  - injection Hzero as Hzero. rewrite Hzero. split; reflexivity.
Qed.

End Gallery.

Lemma gallery_is_cyclic_witness :
  ProductDetail.selectedImage (ProductDetail.nextImage Scenarios.viewing) = 0
  /\ ProductDetail.selectedImage
       (ProductDetail.prevImage (ProductDetail.nextImage Scenarios.viewing)) = 2.
Proof.
  assert (Hrange : 0 <= 2 < 3) by (split; [discriminate | reflexivity]).
  destruct (gallery_is_cyclic Scenarios.viewing Scenarios.pictured eq_refl Hrange)
    as [_ [_ [Hback [_ [Hlast _]]]]].
  split; [apply Hlast; reflexivity | exact Hback].
Defined.

Section DetailPage.

Import ProductDetail.

Variable h : Host.

(** X22.  Deleting from the detail page.  A refusal is shown with the
    server's own message and the user stays on the page; an accepted
    deletion is confirmed with the product's name and followed by the
    navigation to the list.  In both cases one request is issued, the
    dialog is closed and the deleting flag lowered. *)
Theorem detail_handleDelete (u : Ui.World State) (p : Product.t) (t : string)
    (r : Http.Response) (fields : list (string * Js.value)) :
  product (Ui.local u) = Some p ->
  Ui.authToken u = Some t ->
  Js.truthy_str (Ui.authToken u) = true ->
  server h (Ui.requests u) (Wording.delete_request (Product.id p) t) = Http.Resolves r ->
  Http.payload r = Http.Json (Js.VObj fields) ->
  let request := Ui.Effect (Eff.Fetch (Wording.delete_request (Product.id p) t)) in
  (forall c m,
     Http.ok r = false ->
     Js.lookup "message" fields = Js.VStr (String c m) ->
     handleDelete h u
     = (Eff.Returns tt,
        {| Ui.local := lowered (Ui.local u);
           Ui.authToken := Ui.authToken u;
           Ui.requests := S (Ui.requests u);
           Ui.log := Ui.log u
                     ++ [request;
                         Ui.Notify "Error" (Some (String c m)) (Some "destructive")] |}))
  /\ (Http.ok r = true ->
      handleDelete h u
      = (Eff.Returns tt,
         {| Ui.local := lowered (Ui.local u);
            Ui.authToken := Ui.authToken u;
            Ui.requests := S (Ui.requests u);
            Ui.log := Ui.log u
                      ++ [request;
                          Ui.Notify "Success"
                            (Some (Product.name p ++ " has been deleted successfully"))
                            None;
                          Ui.Effect (Eff.Navigate "/products")] |})).
Proof.
  intros Hp Ht Htruthy Hsrv Hbody request. subst request.
  pose proof (deleteProduct_fetches h (Product.id p) (Ui.browser u) t r Ht Htruthy Hsrv)
    as Hdel.
  split.
  - intros c m Hfail Hmsg.
    unfold handleDelete, Ui.bind at 1, Ui.read. rewrite Hp.
    unfold Ui.try_finally, Ui.try_catch.
    unfold Ui.bind at 1. unfold Ui.write at 1. unfold Ui.bind at 1.
    unfold Ui.lift. unfold Ui.browser in *.
    cbn [Ui.authToken Ui.requests Ui.local Ui.log]. rewrite Hdel, Hfail.
    unfold Eff.try_catch, Eff.bind, Eff.get, ProductService.json_or_empty.
    rewrite Hbody. cbn [negb Eff.ret]. rewrite Hmsg.
    unfold Ui.toast, Ui.bind, Ui.write, lowered, setIsDeleting, setShowDeleteDialog.
    cbn [Ui.authToken Ui.requests Ui.local Ui.log Eff.after Eff.throw Js.or Js.truthy
         String.eqb negb Eff.message_of Eff.authToken Eff.requests Eff.trace
         app map Nat.add isDeleting product loading selectedImage showFullscreen
         showDeleteDialog].
    rewrite <- !app_assoc. reflexivity.
  - intros Hok.
    unfold handleDelete, Ui.bind at 1, Ui.read. rewrite Hp.
    unfold Ui.try_finally, Ui.try_catch.
    unfold Ui.bind at 1. unfold Ui.write at 1. unfold Ui.bind at 1.
    unfold Ui.lift. unfold Ui.browser in *.
    cbn [Ui.authToken Ui.requests Ui.local Ui.log]. rewrite Hdel, Hok.
    unfold Eff.try_catch, Eff.bind, Eff.get, Eff.json.
    rewrite Hbody. cbn [negb Eff.ret].
    unfold Ui.navigate, Ui.lift, Ui.browser, Ui.toast, Ui.bind, Ui.write, lowered,
      setIsDeleting, setShowDeleteDialog, Eff.emit.
    cbn [Ui.authToken Ui.requests Ui.local Ui.log Eff.after
         Eff.authToken Eff.requests Eff.trace
         app map Nat.add isDeleting product loading selectedImage showFullscreen
         showDeleteDialog].
    rewrite <- !app_assoc. reflexivity.
Qed.

(** X23.  Loading the detail page fails safely.  Without an identifier
    in the route nothing is requested: an error toast is shown and the
    user is sent to the list.  When the session holds no token, or the
    connection fails, the error's message is shown, the user is sent to
    the list, the loading flag is lowered and the product shown is left
    as it was. *)
Theorem loadProduct_failures (fuel : nat) (typed : Js.value -> option Product.t)
    (u : Ui.World State) :
  let left message requested events :=
    (Eff.Returns tt,
     {| Ui.local := setLoading false (Ui.local u);
        Ui.authToken := Ui.authToken u;
        Ui.requests := requested;
        Ui.log := Ui.log u
                  ++ events
                  ++ [Ui.Notify "Error" (Some message) (Some "destructive");
                      Ui.Effect (Eff.Navigate "/products")] |}) in
  (forall id,
     Js.truthy_str id = false ->
     loadProduct h fuel typed id u
     = (Eff.Returns tt,
        {| Ui.local := Ui.local u;
           Ui.authToken := Ui.authToken u;
           Ui.requests := Ui.requests u;
           Ui.log := Ui.log u
                     ++ [Ui.Notify "Error" (Some "Product ID is missing")
                           (Some "destructive");
                         Ui.Effect (Eff.Navigate "/products")] |}))
  /\ (forall c id,
        Js.truthy_str (Ui.authToken u) = false ->
        loadProduct h fuel typed (Some (String c id)) u
        = left "No authentication token found" (Ui.requests u) [])
  /\ (forall c id t e,
        Ui.authToken u = Some t ->
        Js.truthy_str (Ui.authToken u) = true ->
        server h (Ui.requests u) (ProductService.product_request (String c id) t)
        = Http.Rejects e ->
        loadProduct h fuel typed (Some (String c id)) u
        = left e (S (Ui.requests u))
            [Ui.Effect (Eff.Fetch (ProductService.product_request (String c id) t))]).
Proof.
  intros left. subst left. split; [|split].
  - intros id Hid. unfold loadProduct. rewrite Hid. cbn [negb].
    unfold Ui.bind, Ui.toast, Ui.navigate, Ui.lift, Ui.browser, Eff.emit.
    cbn [Ui.authToken Ui.requests Ui.local Ui.log Eff.authToken Eff.requests
         Eff.trace app map].
    rewrite <- !app_assoc. reflexivity.
  - intros c id Hnone.
    assert (Hget : ProductService.getProduct h fuel (String c id) (Ui.browser u)
                   = (Eff.Throws "No authentication token found", Ui.browser u)).
    { apply getProduct_without_token. exact Hnone. }
    unfold loadProduct. cbn [Js.truthy_str String.eqb negb].
    unfold Ui.try_finally, Ui.try_catch.
    unfold Ui.bind at 1. unfold Ui.write at 1. unfold Ui.bind at 1.
    unfold Ui.lift at 1. unfold Ui.browser in *.
    cbn [Ui.authToken Ui.requests Ui.local Ui.log]. rewrite Hget.
    unfold Ui.bind, Ui.toast, Ui.navigate, Ui.lift, Ui.browser, Eff.emit, Ui.write.
    cbn [Ui.authToken Ui.requests Ui.local Ui.log Eff.authToken Eff.requests
         Eff.trace app map setLoading isDeleting product loading selectedImage
         showFullscreen showDeleteDialog].
    rewrite <- !app_assoc. reflexivity.
  - intros c id t e Ht Htruthy Hsrv.
    assert (Hget : ProductService.getProduct h fuel (String c id) (Ui.browser u)
                   = (Eff.Throws e,
                      Eff.after (Ui.browser u) 1
                        [Eff.Fetch (ProductService.product_request (String c id) t)])).
    { unfold ProductService.getProduct, Eff.try_catch, Eff.bind.
      rewrite (getAuthHeaders_present (Ui.browser u) t Ht Htruthy).
      fold (ProductService.product_request (String c id) t).
      rewrite (fetch_rejected h _ e (Ui.browser u) Hsrv). reflexivity. }
    unfold loadProduct. cbn [Js.truthy_str String.eqb negb].
    unfold Ui.try_finally, Ui.try_catch.
    unfold Ui.bind at 1. unfold Ui.write at 1. unfold Ui.bind at 1.
    unfold Ui.lift at 1. unfold Ui.browser in *.
    cbn [Ui.authToken Ui.requests Ui.local Ui.log]. rewrite Hget.
    unfold Ui.bind, Ui.toast, Ui.navigate, Ui.lift, Ui.browser, Eff.emit, Ui.write.
    cbn [Ui.authToken Ui.requests Ui.local Ui.log Eff.authToken Eff.requests
         Eff.trace Eff.after Nat.add app map setLoading isDeleting product loading
         selectedImage showFullscreen showDeleteDialog].
    rewrite <- !app_assoc. reflexivity.
Qed.

End DetailPage.

Lemma detail_handleDelete_witness :
  let u := Ui.start Scenarios.viewing (Some "t0k3n") in
  ProductDetail.handleDelete (Examples.host_of Examples.refusing_server) u
  = (Eff.Returns tt,
     {| Ui.local := ProductDetail.lowered Scenarios.viewing;
        Ui.authToken := Some "t0k3n";
        Ui.requests := 1;
        Ui.log := [Ui.Effect (Eff.Fetch (Wording.delete_request "xyz" "t0k3n"));
                   Ui.Notify "Error" (Some "Name already exists")
                     (Some "destructive")] |})
  /\ ProductDetail.handleDelete (Examples.host_of Scenarios.lenient_server) u
     = (Eff.Returns tt,
        {| Ui.local := ProductDetail.lowered Scenarios.viewing;
           Ui.authToken := Some "t0k3n";
           Ui.requests := 1;
           Ui.log := [Ui.Effect (Eff.Fetch (Wording.delete_request "xyz" "t0k3n"));
                      Ui.Notify "Success" (Some "Lamp has been deleted successfully")
                        None;
                      Ui.Effect (Eff.Navigate "/products")] |}).
Proof.
  split.
  - destruct (detail_handleDelete (Examples.host_of Examples.refusing_server)
                (Ui.start Scenarios.viewing (Some "t0k3n")) Scenarios.pictured "t0k3n"
                (Scenarios.answer 400 "Bad Request" []
                   (Http.Json (Js.VObj [("message", Js.VStr "Name already exists")])))
                [("message", Js.VStr "Name already exists")]
                eq_refl eq_refl eq_refl eq_refl eq_refl)
      as [Hrefused _].
    apply (Hrefused "N"%char "ame already exists"); reflexivity.
  - destruct (detail_handleDelete (Examples.host_of Scenarios.lenient_server)
                (Ui.start Scenarios.viewing (Some "t0k3n")) Scenarios.pictured "t0k3n"
                (Scenarios.answer 200 "OK" []
                   (Http.Json (Examples.product_json "xyz" "Lamp")))
                [("id", Js.VStr "xyz"); ("name", Js.VStr "Lamp");
                 ("price", Js.VNum (Js.Num (1999 # 100)))]
                eq_refl eq_refl eq_refl eq_refl eq_refl)
      as [_ Haccepted].
    apply Haccepted. reflexivity.
Defined.

Lemma loadProduct_failures_witness :
  let u := Ui.start ProductDetail.initialState (Some "t0k3n") in
  ProductDetail.loadProduct (Examples.host_of Scenarios.offline_server) 1
    Scenarios.as_lamp None u
  = (Eff.Returns tt,
     {| Ui.local := ProductDetail.initialState;
        Ui.authToken := Some "t0k3n";
        Ui.requests := 0;
        Ui.log := [Ui.Notify "Error" (Some "Product ID is missing") (Some "destructive");
                   Ui.Effect (Eff.Navigate "/products")] |})
  /\ ProductDetail.loadProduct (Examples.host_of Scenarios.offline_server) 1
       Scenarios.as_lamp (Some "xyz") u
     = (Eff.Returns tt,
        {| Ui.local := ProductDetail.setLoading false ProductDetail.initialState;
           Ui.authToken := Some "t0k3n";
           Ui.requests := 1;
           Ui.log := [Ui.Effect (Eff.Fetch (ProductService.product_request "xyz" "t0k3n"));
                      Ui.Notify "Error" (Some "Failed to fetch") (Some "destructive");
                      Ui.Effect (Eff.Navigate "/products")] |}).
Proof.
  destruct (loadProduct_failures (Examples.host_of Scenarios.offline_server) 1
              Scenarios.as_lamp (Ui.start ProductDetail.initialState (Some "t0k3n")))
    as [Hmissing [_ Hoffline]].
  split.
  - apply Hmissing. reflexivity.
  - apply (Hoffline "x"%char "yz" "t0k3n" "Failed to fetch"); reflexivity.
Defined.

(* ================================================================== *)
(** * Categories, thunks and the earlier client *)
(* ================================================================== *)

Section CategoriesAndThunks.

Import Eff ProductService.

Variable h : Host.

Lemma getCategories_fetches (searchText : option string) (offset limit : Z)
    (w : World) (t : string) (r : Http.Response) :
  authToken w = Some t ->
  Js.truthy_str (authToken w) = true ->
  server h (requests w) (categories_request searchText offset limit t) = Http.Resolves r ->
  Http.ok r = true ->
  forall items,
    Http.payload r = Http.Json (Js.VArr items) ->
    getCategories h searchText offset limit w
    = (Returns {| categories := Js.VArr items;
                  categories_total := Js.VNum (array_total r items) |},
       after w 1 [Fetch (categories_request searchText offset limit t)]).
Proof.
  intros Ht Htruthy Hsrv Hok items Hbody. unfold getCategories. unfold bind at 1.
  rewrite (getAuthHeaders_present w t Ht Htruthy). unfold bind at 1.
  fold (categories_request searchText offset limit t).
  rewrite (fetch_resolves h _ r w Hsrv). rewrite Hok. cbn [negb].
  unfold bind, json. rewrite Hbody. cbn [ret]. unfold array_total.
  destruct (Http.header r "x-total-count") as [s|]; [|reflexivity].
  cbn [Js.truthy_str]. destruct (negb (s =? "")%string); reflexivity.
Qed.

(** X24.  The total that [getCategories] reports is the number in the
    [x-total-count] header when the answer carries one, and the number of
    categories in the answer otherwise; on a non-success status the call
    fails with its fixed text, whatever the body says. *)
Theorem getCategories_total (searchText : option string) (offset limit : Z)
    (w : World) (t : string) (r : Http.Response) :
  authToken w = Some t ->
  Js.truthy_str (authToken w) = true ->
  server h (requests w) (categories_request searchText offset limit t) = Http.Resolves r ->
  let w' := after w 1 [Fetch (categories_request searchText offset limit t)] in
  (forall items c s,
     Http.ok r = true ->
     Http.payload r = Http.Json (Js.VArr items) ->
     Http.header r "x-total-count" = Some (String c s) ->
     getCategories h searchText offset limit w
     = (Returns {| categories := Js.VArr items;
                   categories_total := Js.VNum (Js.parseInt (String c s)) |}, w'))
  /\ (forall items,
        Http.ok r = true ->
        Http.payload r = Http.Json (Js.VArr items) ->
        Http.header r "x-total-count" = None ->
        getCategories h searchText offset limit w
        = (Returns {| categories := Js.VArr items;
                      categories_total := Js.VNum (Js.of_nat (List.length items)) |}, w'))
  /\ (Http.ok r = false ->
      getCategories h searchText offset limit w = (Throws "Failed to fetch categories", w')).
Proof.
  intros Ht Htruthy Hsrv w'. subst w'. split; [|split].
  - intros items c s Hok Hbody Hheader.
    rewrite (getCategories_fetches searchText offset limit w t r Ht Htruthy Hsrv Hok
               items Hbody).
    unfold array_total. rewrite Hheader. reflexivity.
  - intros items Hok Hbody Hheader.
    rewrite (getCategories_fetches searchText offset limit w t r Ht Htruthy Hsrv Hok
               items Hbody).
    unfold array_total. rewrite Hheader. reflexivity.
  - intros Hfail. unfold getCategories. unfold bind at 1.
    rewrite (getAuthHeaders_present w t Ht Htruthy). unfold bind at 1.
    fold (categories_request searchText offset limit t).
    rewrite (fetch_resolves h _ r w Hsrv). rewrite Hfail. reflexivity.
Qed.

(** X25.  The thunks that use [rejectWithValue] never throw: whatever
    the server does and whether or not a token is stored, the payload
    creators of [deleteProduct] and [fetchCategories] settle with a
    payload or with a rejected value, after at most one request; and
    [fetchCategories] always asks for the first ten categories. *)
Theorem thunks_settle (id : string) (w : World) :
  (exists r w',
     Thunks.deleteProduct h id w = (Returns r, w')
     /\ (requests w' <= S (requests w))%nat)
  /\ (exists r w',
        Thunks.fetchCategories h w = (Returns r, w')
        /\ (requests w' <= S (requests w))%nat
        /\ (forall t,
              authToken w = Some t -> Js.truthy_str (authToken w) = true ->
              w' = after w 1
                     [Fetch {| Http.method := Http.GET;
                               Http.url := "https://api.bitechx.com/categories?offset=0&limit=10";
                               Http.headers := auth_headers t;
                               Http.body := None |}])).
Proof.
  split.
  - unfold Thunks.deleteProduct, deleteProduct, try_catch, getAuthHeaders,
      json_or_empty, json, get, fetch, getItem, throw, ret, bind.
    repeat match goal with
           | |- context [match ?x with _ => _ end] =>
               lazymatch x with
               | context [match _ with _ => _ end] => fail
               | _ => destruct x eqn:?
               end
           | |- context [if ?x then _ else _] =>
               lazymatch x with
               | context [if _ then _ else _] => fail
               | context [match _ with _ => _ end] => fail
               | _ => destruct x eqn:?
               end
           end;
      repeat match goal with
             | H : (_, _) = (_, _) |- _ => inversion H; clear H; subst
             end;
      try discriminate;
      do 2 eexists; (split; [reflexivity | cbn [requests]; lia]).
  - destruct (Js.truthy_str (authToken w)) eqn:Htruthy.
    + destruct (authToken w) as [t|] eqn:Ht; [|discriminate].
      assert (Htruthy' : Js.truthy_str (authToken w) = true) by (rewrite Ht; exact Htruthy).
      pose proof (getCategories_world h None 0 10 w t Ht Htruthy') as Hworld.
      unfold Thunks.fetchCategories, try_catch, bind.
      destruct (getCategories h None 0 10 w) as [[r|e|] w1] eqn:Hrun;
        cbn [snd] in Hworld; subst w1.
      * do 2 eexists. split; [reflexivity|]. split; [cbn; lia|].
        intros t' Ht' _. injection Ht' as <-. reflexivity.
      * do 2 eexists. split; [reflexivity|]. split; [cbn; lia|].
        intros t' Ht' _. injection Ht' as <-. reflexivity.
      * exfalso. revert Hrun.
        unfold getCategories, getAuthHeaders, json, fetch, getItem, throw, ret, bind.
        rewrite Htruthy'. cbn [negb].
        repeat match goal with
               | |- context [match ?x with _ => _ end] =>
                   lazymatch x with
                   | context [match _ with _ => _ end] => fail
                   | _ => destruct x eqn:?
                   end
               | |- context [if ?x then _ else _] =>
                   lazymatch x with
                   | context [if _ then _ else _] => fail
                   | context [match _ with _ => _ end] => fail
                   | _ => destruct x eqn:?
                   end
               end;
          repeat match goal with
                 | H : (_, _) = (_, _) |- _ => inversion H; clear H; subst
                 end;
          try discriminate; intros Hrun; inversion Hrun.
    + unfold Thunks.fetchCategories, try_catch, bind, getCategories. unfold bind at 1.
      rewrite (getAuthHeaders_missing w Htruthy).
      do 2 eexists. split; [reflexivity|]. split; [lia|].
      intros t Ht Htruthy'. rewrite Htruthy' in Htruthy. discriminate.
Qed.

End CategoriesAndThunks.

Lemma getCategories_total_witness :
  let w := Eff.initial (Some "t0k3n") in
  ProductService.getCategories (Examples.host_of Scenarios.counting_server) None 0 10 w
  = (Eff.Returns
       {| ProductService.categories :=
            Js.VArr [Js.VObj [("id", Js.VStr "c1"); ("name", Js.VStr "Lighting")]];
          ProductService.categories_total := Js.VNum (Js.of_Z 42) |},
     Eff.after w 1 [Eff.Fetch (ProductService.categories_request None 0 10 "t0k3n")]).
Proof.
  destruct (getCategories_total (Examples.host_of Scenarios.counting_server) None 0 10
              (Eff.initial (Some "t0k3n")) "t0k3n"
              (Scenarios.answer 200 "OK" [("x-total-count", "42")]
                 (Http.Json (Js.VArr [Js.VObj [("id", Js.VStr "c1");
                                               ("name", Js.VStr "Lighting")]])))
              eq_refl eq_refl eq_refl)
    as [Hheader _].
  apply (Hheader _ "4"%char "2"); reflexivity.
Defined.

Section EarlierClient.

Import Eff ProductService.

Variable h : Host.
Variables (offset limit : Z) (categoryId : option string).

(** X26.  The earlier [getProducts] makes one attempt.  A non-success
    status of any kind, 429 and 401 included, fails at once with the
    status error, and a rejected [fetch] with its own error: one request,
    no delay, and the stored token and the location are left alone. *)
Theorem legacy_getProducts_single_attempt (w : World) (t : string) :
  authToken w = Some t ->
  Js.truthy_str (authToken w) = true ->
  let req := products_request offset limit categoryId t in
  (forall r,
     server h (requests w) req = Http.Resolves r ->
     Http.ok r = false ->
     Legacy.getProducts h offset limit categoryId w
     = (Throws (Wording.status_error r), after w 1 [Fetch req]))
  /\ (forall e,
        server h (requests w) req = Http.Rejects e ->
        Legacy.getProducts h offset limit categoryId w
        = (Throws e, after w 1 [Fetch req])).
Proof.
  intros Ht Htruthy req. subst req. split.
  - intros r Hsrv Hfail. unfold Legacy.getProducts, try_catch, bind.
    rewrite (getAuthHeaders_present w t Ht Htruthy).
    fold (products_request offset limit categoryId t).
    rewrite (fetch_resolves h _ r w Hsrv). rewrite Hfail. reflexivity.
  - intros e Hsrv. unfold Legacy.getProducts, try_catch, bind.
    rewrite (getAuthHeaders_present w t Ht Htruthy).
    fold (products_request offset limit categoryId t).
    rewrite (fetch_rejected h _ e w Hsrv). reflexivity.
Qed.

(** X27.  On a success answer whose body parses to anything but null the
    retrying [getProducts] is the earlier one: both return the same
    normalized result after the same single request, whatever the retry
    count. *)
Theorem getProducts_agrees_with_legacy (fuel : nat) (retryCount : RetryCount)
    (w : World) (t : string) (r : Http.Response) (data : Js.value) :
  authToken w = Some t ->
  Js.truthy_str (authToken w) = true ->
  server h (requests w) (products_request offset limit categoryId t) = Http.Resolves r ->
  Http.ok r = true ->
  Http.payload r = Http.Json data ->
  data <> Js.VNull ->
  data <> Js.VUndefined ->
  getProducts h (S fuel) offset limit categoryId retryCount w
  = Legacy.getProducts h offset limit categoryId w
  /\ exists result,
       Legacy.getProducts h offset limit categoryId w
       = (Returns result,
          after w 1 [Fetch (products_request offset limit categoryId t)]).
Proof.
  intros Ht Htruthy Hsrv Hok Hbody Hnull Hundefined.
  rewrite getProducts_unfold.
  unfold bind at 1, try_catch, getProducts_try, Legacy.getProducts, try_catch, bind.
  rewrite (getAuthHeaders_present w t Ht Htruthy).
  fold (products_request offset limit categoryId t).
  rewrite (fetch_resolves h _ r w Hsrv).
  rewrite (ok_not_429 r Hok), Hok. cbn [negb].
  unfold json. rewrite Hbody.
  destruct data; try contradiction; (split; [reflexivity | eexists; reflexivity]).
Qed.

End EarlierClient.

Lemma legacy_getProducts_single_attempt_witness :
  let w := Eff.initial (Some "t0k3n") in
  Legacy.getProducts (Examples.host_of Examples.busy_server) 0 9 None w
  = (Eff.Throws "Failed to fetch products: 429 Too Many Requests",
     Eff.after w 1 [Eff.Fetch (ProductService.products_request 0 9 None "t0k3n")])
  /\ Legacy.getProducts (Examples.host_of Scenarios.expired_server) 0 9 None w
     = (Eff.Throws "Failed to fetch products: 401 Unauthorized",
        Eff.after w 1 [Eff.Fetch (ProductService.products_request 0 9 None "t0k3n")]).
Proof.
  split.
  - destruct (legacy_getProducts_single_attempt (Examples.host_of Examples.busy_server)
                0 9 None (Eff.initial (Some "t0k3n")) "t0k3n" eq_refl eq_refl)
      as [Hstatus _].
    apply (Hstatus (Scenarios.answer 429 "Too Many Requests" []
                      (Http.Malformed "Unexpected end of JSON input")));
      reflexivity.
  - destruct (legacy_getProducts_single_attempt (Examples.host_of Scenarios.expired_server)
                0 9 None (Eff.initial (Some "t0k3n")) "t0k3n" eq_refl eq_refl)
      as [Hstatus _].
    apply (Hstatus (Scenarios.answer 401 "Unauthorized" []
                      (Http.Json (Js.VObj [("message", Js.VStr "Token expired")]))));
      reflexivity.
Defined.

Lemma getProducts_agrees_with_legacy_witness :
  let w := Eff.initial (Some "t0k3n") in
  ProductService.getProducts (Examples.host_of Examples.paged_server) 1 0 9 None
    (ProductService.RcNum 0) w
  = Legacy.getProducts (Examples.host_of Examples.paged_server) 0 9 None w.
Proof.
  eapply (getProducts_agrees_with_legacy (Examples.host_of Examples.paged_server)
            0 9 None 0 (ProductService.RcNum 0) (Eff.initial (Some "t0k3n")) "t0k3n");
    try reflexivity; discriminate.
Defined.
